(** * SecureOps360: the enrichment-and-scoring pipeline

    A shallow embedding of the ingest normaliser
    (services/lambda-ingest/index.py, infra/envs/dev/index.py), the
    enrichment orchestrator (services/enricher-svc/app.py) and the risk
    scorer (services/scorer-svc/app.py), followed by the properties of the
    pipeline that the specification states.

    Modelling conventions.
    - A Python [dict] with string keys is a [gmap string _]; [d.get(k, v)]
      is [dict_get d k v].
    - JSON-like dynamically typed data is the inductive [pyval].
    - A Python [float] is the rational it denotes ([Q]).  The features and
      the weighted sum are computed exactly; the one transcendental step,
      [np.exp] inside the sigmoid, is the real exponential, so the model
      score is a real number ([R]).  Where rounding decides an integer, in
      the fusion of the two scores, the arithmetic is binary64
      ([Binary64], [Scorer.fuse]).  Infinities and nan are not values of
      the model: its numbers are those of [Py.plain_number].
    - A [str] is the sequence of its UTF-8 bytes.
    - Code that can raise is written in the [outcome] monad; [try/except]
      is [catch].
    - Clock reads, [uuid.uuid4()], [hash()] and [str(e)] are inputs of the
      functions that perform them. *)

From Stdlib Require Import ZArith QArith Qminmax Qround Qabs Qpower Qreals Reals Lra Lia String Ascii List.
From Stdlib Require Lqa Floats.
From stdpp Require Import base option list gmap strings.
Import ListNotations.

#[local] Set Warnings "-register-all".
#[local] Open Scope string_scope.

(** ** IEEE 754 binary64, the arithmetic of a Python [float]

    A finite double is the rational it denotes.  [round] is rounding to
    nearest, ties to even, at 53 bits of precision, with gradual underflow
    below [2^-1022]; the exponent is not bounded above, so a result of
    magnitude [2^1024] or more stands for an infinity ([overflows]). *)

Module Binary64.

Definition pow2 (e : Z) : Q := (2 ^ e)%Q.

(** [floor (log2 q)] for a positive [q]. *)
Definition ilog2 (q : Q) : Z :=
  let e := (Z.log2 (Qnum q) - Z.log2 (Zpos (Qden q)))%Z in
  if Qle_bool (pow2 e) q then e else (e - 1)%Z.

(** The integer nearest to [q], the even one of the two on a tie. *)
Definition half_even (q : Q) : Z :=
  let f := Qfloor q in
  match (q - inject_Z f ?= 1 # 2)%Q with
  | Lt => f
  | Gt => (f + 1)%Z
  | Eq => if Z.even f then f else (f + 1)%Z
  end.

(** The unit in the last place of the doubles around [q]. *)
Definition ulp (q : Q) : Q := pow2 (Z.max (ilog2 (Qabs q)) (-1022) - 52).

Definition round (q : Q) : Q :=
  if Qeq_bool q 0 then 0%Q
  else (inject_Z (half_even (q / ulp q)) * ulp q)%Q.

Definition overflows (q : Q) : bool := Qle_bool (pow2 1024) (Qabs q).

(** The error of one rounding is half a unit in the last place: at most
    [unit_roundoff] of the value, or [half_subnormal] in the subnormal
    range. *)
Definition unit_roundoff : Q := 1 # (2 ^ 53).
Definition half_subnormal : Q := 1 # (2 ^ 1075).

(** The float operations the scorer uses, on finite operands. *)
Definition mul (x y : Q) : Q := round (x * y).
Definition add (x y : Q) : Q := round (x + y).

(** A float literal of the source denotes the double nearest to it. *)
Definition literal (q : Q) : Q := round q.

(** [int(x)]: truncation toward zero. *)
Definition trunc (x : Q) : Z := if Qle_bool 0 x then Qfloor x else Qceiling x.

End Binary64.

(** ** Python values and the fragment of the runtime the services use *)

Module Py.

Inductive pyval : Type :=
| PNone
| PBool (b : bool)
| PInt (n : Z)
| PFloat (q : Q)
| PStr (s : string)
| PList (l : list pyval)
| PDict (d : gmap string pyval).

Abbreviation dict := (gmap string pyval).

(** Exceptions, by class; the payload records what was being done. *)
Inductive exn : Type :=
| AttributeError (type_name attr : string)
| TypeError (what : string)
| ValueError (what : string)
| OverflowError (what : string).

Inductive outcome (A : Type) : Type :=
| Ok (a : A)
| Raise (e : exn).
Arguments Ok {A} a.
Arguments Raise {A} e.

Definition bind {A B} (m : outcome A) (k : A -> outcome B) : outcome B :=
  match m with
  | Ok a => k a
  | Raise e => Raise e
  end.

(** [try: m  except Exception as e: handler e] *)
Definition catch {A} (m : outcome A) (handler : exn -> A) : A :=
  match m with
  | Ok a => a
  | Raise e => handler e
  end.

Definition type_name (v : pyval) : string :=
  match v with
  | PNone => "NoneType"
  | PBool _ => "bool"
  | PInt _ => "int"
  | PFloat _ => "float"
  | PStr _ => "str"
  | PList _ => "list"
  | PDict _ => "dict"
  end.

(** Truth value of an object, as tested by [if x:] and by [and]. *)
Definition truthy (v : pyval) : bool :=
  match v with
  | PNone => false
  | PBool b => b
  | PInt n => negb (n =? 0)%Z
  | PFloat q => negb (Qeq_bool q 0)
  | PStr s => negb (String.eqb s "")
  | PList l => match l with [] => false | _ => true end
  | PDict d => negb (bool_decide (d = ∅))
  end.

(** [d.get(k, dflt)] and [d.get(k)] on a dict. *)
Definition dict_get (d : dict) (k : string) (dflt : pyval) : pyval :=
  default dflt (d !! k).

(** [v.get] on an arbitrary object: only a dict has the method. *)
Definition as_dict (v : pyval) : outcome dict :=
  match v with
  | PDict d => Ok d
  | _ => Raise (AttributeError (type_name v) "get")
  end.

(** [v == s] for a string literal [s]. *)
Definition eq_str (v : pyval) (s : string) : bool :=
  match v with
  | PStr t => String.eqb t s
  | _ => false
  end.

(** [v in [s1, ..., sn]] for a list of string literals. *)
Definition in_strs (v : pyval) (l : list string) : bool :=
  existsb (eq_str v) l.

(** [str.lower()], on the ASCII letters. *)
Definition lower_ascii (c : ascii) : ascii :=
  let n := nat_of_ascii c in
  if (65 <=? n)%nat && (n <=? 90)%nat then ascii_of_nat (n + 32) else c.

Fixpoint lower (s : string) : string :=
  match s with
  | EmptyString => EmptyString
  | String c s' => String (lower_ascii c) (lower s')
  end.

(** [sub in s] for strings. *)
Fixpoint contains (sub s : string) : bool :=
  String.prefix sub s ||
  match s with
  | EmptyString => false
  | String _ s' => contains sub s'
  end.

Definition startswith (s pre : string) : bool := String.prefix pre s.

(** [s in v] for a string literal [s]: substring of a str, element of a
    list, key of a dict; other objects are not containers. *)
Definition contains_str (s : string) (v : pyval) : outcome bool :=
  match v with
  | PStr t => Ok (contains s t)
  | PList l => Ok (existsb (fun x => eq_str x s) l)
  | PDict d => Ok (bool_decide (is_Some (d !! s)))
  | _ => Raise (TypeError (type_name v))
  end.

(** [v[k] = x]: only a dict takes a str key. *)
Definition set_item (v : pyval) (k : string) (x : pyval) : outcome pyval :=
  match v with
  | PDict d => Ok (PDict (<[k := x]> d))
  | _ => Raise (TypeError (type_name v))
  end.

(** A str method called on an arbitrary object. *)
Definition str_method (v : pyval) (attr : string) : outcome string :=
  match v with
  | PStr s => Ok s
  | _ => Raise (AttributeError (type_name v) attr)
  end.

(** [v.lower()]: only a str has the method. *)
Definition str_lower (v : pyval) : outcome string :=
  match v with
  | PStr s => Ok (lower s)
  | _ => Raise (AttributeError (type_name v) "lower")
  end.

(** [float(v)], on the numbers of the model.  Parsing the text of a str is
    the interpreter's business: [float_of_str] gives the value of text that
    denotes a finite number, [None] for text [float] rejects.  An int is
    taken as it is: its rounding beyond [2^53], and the OverflowError beyond
    the range of a double, are left out, as is text that denotes an
    infinity or a nan; [plain_number] below tells the values on which
    nothing is left out but rounding. *)
Definition float (float_of_str : string -> option Q) (v : pyval) : outcome Q :=
  match v with
  | PInt n => Ok (inject_Z n)
  | PFloat q => Ok q
  | PBool b => Ok (if b then 1 else 0)%Q
  | PStr s => match float_of_str s with
              | Some q => Ok q
              | None => Raise (ValueError s)
              end
  | _ => Raise (TypeError (type_name v))
  end.

(** The numbers of the data model: a finite float, a bool, or an int that
    a float can hold.  On these [float] neither overflows nor yields an
    infinity or a nan; an object that is no number makes it raise here as
    in the interpreter.  The value of a number held as text depends on the
    text ("nan" and "inf" are numbers to the interpreter), so text is left
    out. *)
Definition plain_number (v : pyval) : bool :=
  match v with
  | PStr _ => false
  | PInt n => negb (Binary64.overflows (Binary64.round (inject_Z n)))
  | _ => true
  end.

(** [int(x)] on a float: truncation toward zero. *)
Definition int (x : R) : Z :=
  if Rle_dec 0 x then Int_part x else (- Int_part (- x))%Z.

(** [datetime.now(timezone.utc)]: the fields the services read. *)
Record datetime : Type := {
  hour : Z;
  weekday : Z;
  isoformat : string
}.

Definition wf_datetime (t : datetime) : Prop :=
  (0 <= hour t <= 23)%Z /\ (0 <= weekday t <= 6)%Z.

End Py.

#[global] Instance outcome_ret : MRet Py.outcome := @Py.Ok.
#[global] Instance outcome_bind : MBind Py.outcome := fun A B k m => Py.bind m k.

(** ** services/lambda-ingest/index.py

    [infra/envs/dev/index.py] carries the same [validate_event_schema] and
    [normalize_event], token for token. *)

Module Ingest.
Import Py.

Definition required_fields : list string := ["source"; "actor"; "action"; "resource"].

(** [validate_event_schema]: the first required key that is missing is
    reported; returns [(is_valid, error_msg)]. *)
Fixpoint first_missing (fields : list string) (event_data : dict) : option string :=
  match fields with
  | [] => None
  | field :: rest =>
      if bool_decide (is_Some (event_data !! field))
      then first_missing rest event_data
      else Some field
  end.

Definition validate_event_schema (event_data : dict) : bool * option string :=
  match first_missing required_fields event_data with
  | Some field => (false, Some ("Missing required field: " ++ field))
  | None => (true, None)
  end.

(** [normalize_event].  [fresh_uuid] is the value of [str(uuid.uuid4())]
    drawn by this call and [now] its clock read.  [actor] is whatever the
    raw event holds under that key: the membership test raises on an
    object that is no container, and the item assignment on one that is
    no dict. *)
Definition normalize_event (raw_event : dict) (source_ip : pyval)
    (fresh_uuid : string) (now : datetime) : outcome dict :=
  let event_id := dict_get raw_event "event_id" (PStr fresh_uuid) in
  let actor := dict_get raw_event "actor" (PDict ∅) in
  has_ip ← contains_str "ip" actor;
  actor ← (if negb has_ip && truthy source_ip
           then set_item actor "ip" source_ip
           else Ok actor);
  Ok (<["event_id" := event_id]>
     (<["source" := dict_get raw_event "source" PNone]>
     (<["received_at" := PStr (isoformat now)]>
     (<["actor" := actor]>
     (<["action" := dict_get raw_event "action" PNone]>
     (<["resource" := dict_get raw_event "resource" PNone]>
     (<["severity_hint" := dict_get raw_event "severity_hint" (PInt 1)]>
     (<["payload" := dict_get raw_event "payload" (PDict ∅)]>
     (<["schema_ver" := PStr "1.0"]> (∅ : dict)))))))))).

(** What [lambda_handler] does with one raw event before publishing it:
    a rejected event is never normalised. *)
Inductive ingested : Type :=
| Rejected (error_msg : string)
| Failed (e : exn)
| Normalized (event : dict).

Definition ingest (raw_event : dict) (source_ip : pyval)
    (fresh_uuid : string) (now : datetime) : ingested :=
  match validate_event_schema raw_event with
  | (false, error_msg) => Rejected (default "" error_msg)
  | (true, _) =>
      match normalize_event raw_event source_ip fresh_uuid now with
      | Ok event => Normalized event
      | Raise e => Failed e
      end
  end.

End Ingest.

(** ** services/enricher-svc/app.py *)

Module Enricher.
Import Py.

Section Services.

(** [str(e)], the interpreter's message for an exception. *)
Variable exn_str : exn -> string.
(** The builtin [hash] on a str. *)
Variable hash : string -> Z.
(** The clock read of the call. *)
Variable now : datetime.

(** [sum(ord(c) for c in s)].  A str is held as its UTF-8 bytes and [ord]
    is of code points, so a lead byte is decoded together with the
    continuation bytes that follow it; a byte that starts no well-formed
    sequence counts as itself. *)
Definition byte (c : ascii) : Z := Z.of_N (N_of_ascii c).

Definition continuation (c : ascii) : option Z :=
  if ((128 <=? byte c) && (byte c <? 192))%Z then Some (byte c - 128)%Z else None.

Fixpoint sum_ord (s : string) : Z :=
  match s with
  | EmptyString => 0
  | String c0 s1 =>
      let b0 := byte c0 in
      let single := b0 + sum_ord s1 in
      match s1 with
      | EmptyString => single
      | String c1 s2 =>
          match continuation c1 with
          | None => single
          | Some x1 =>
              if (192 <=? b0) && (b0 <? 224)
              then (b0 - 192) * 64 + x1 + sum_ord s2
              else
                match s2 with
                | EmptyString => single
                | String c2 s3 =>
                    match continuation c2 with
                    | None => single
                    | Some x2 =>
                        if (224 <=? b0) && (b0 <? 240)
                        then (b0 - 224) * 4096 + x1 * 64 + x2 + sum_ord s3
                        else
                          match s3 with
                          | EmptyString => single
                          | String c3 s4 =>
                              match continuation c3 with
                              | None => single
                              | Some x3 =>
                                  if (240 <=? b0) && (b0 <? 248)
                                  then (b0 - 240) * 262144 + x1 * 4096 + x2 * 64 + x3
                                       + sum_ord s4
                                  else single
                              end
                          end
                    end
                end
          end
      end
  end%Z.

(** *** ThreatIntelligenceService *)

Definition reputation_of (ip_address : string) : string * Z :=
  if startswith ip_address "10." || startswith ip_address "192.168."
  then ("clean", 10%Z)
  else if contains "127." ip_address || contains "0.0.0.0" ip_address
  then ("suspicious", 60%Z)
  else
    let score_hash := (sum_ord ip_address mod 100)%Z in
    if (score_hash <? 15)%Z then ("malicious", 90%Z)
    else if (score_hash <? 40)%Z then ("suspicious", 60%Z)
    else ("clean", 15%Z).

Definition lookup_ip_reputation_try (ip_address : pyval) : outcome dict :=
  ip ← str_method ip_address "startswith";
  let rep := reputation_of ip in
  Ok (<["ip_rep" := PStr (fst rep)]>
     (<["rep_score" := PInt (snd rep)]>
     (<["feeds" := PList [PStr "mock_threat_feed"]]>
     (<["last_updated" := PStr (isoformat now)]> (∅ : dict))))).

Definition threat_intel_fallback (e : exn) : dict :=
  <["ip_rep" := PStr "unknown"]>
  (<["rep_score" := PInt 50]>
  (<["feeds" := PList []]>
  (<["error" := PStr (exn_str e)]> (∅ : dict)))).

Definition lookup_ip_reputation (ip_address : pyval) : dict :=
  catch (lookup_ip_reputation_try ip_address) threat_intel_fallback.

(** *** GeoLocationService *)

Definition countries : list (string * string * Z) := [
  ("United States", "US", 13335%Z);
  ("India", "IN", 13238%Z);
  ("United Kingdom", "GB", 12345%Z);
  ("Germany", "DE", 54321%Z)
].

Definition lookup_ip_location_try (ip_address : pyval) : outcome dict :=
  ip ← str_method ip_address "startswith";
  if startswith ip "10." || startswith ip "192.168."
  then Ok (<["country" := PStr "US"]>
          (<["country_code" := PStr "US"]>
          (<["region" := PStr "CA"]>
          (<["city" := PStr "San Francisco"]>
          (<["latitude" := PFloat (377749 # 10000)]>
          (<["longitude" := PFloat (- 1224194 # 10000)]>
          (<["asn" := PInt 13335]>
          (<["org" := PStr "Private Network"]> (∅ : dict)))))))))
  else
    let selected :=
      nth (Z.to_nat (hash ip mod Z.of_nat (length countries))) countries
          ("", "", 0%Z) in
    Ok (<["country" := PStr (fst (fst selected))]>
       (<["country_code" := PStr (snd (fst selected))]>
       (<["asn" := PInt (snd selected)]>
       (<["org" := PStr ("ISP-" ++ snd (fst selected))]> (∅ : dict))))).

Definition geo_fallback (e : exn) : dict :=
  <["country" := PStr "unknown"]>
  (<["country_code" := PStr "XX"]>
  (<["asn" := PInt 0]>
  (<["org" := PStr "unknown"]> (∅ : dict)))).

Definition lookup_ip_location (ip_address : pyval) : dict :=
  catch (lookup_ip_location_try ip_address) geo_fallback.

(** *** AssetContextService *)

Definition get_asset_context_try (asset_id asset_type : pyval) : outcome dict :=
  is_dev ← contains_str "dev" asset_id;
  is_test ← (if is_dev then Ok true else contains_str "test" asset_id);
  Ok (<["asset_id" := asset_id]>
     (<["asset_type" := asset_type]>
     (<["environment" := PStr (if is_dev || is_test then "dev" else "prod")]>
     (<["criticality" := PInt (if in_strs asset_type ["database"; "s3"] then 3 else 1)]>
     (<["owner" := PStr "security-team"]>
     (<["tags" := PDict (<["project" := PStr "secureops360"]>
                        (<["managed_by" := PStr "terraform"]> ∅))]>
      (∅ : dict))))))).

Definition asset_fallback (asset_id asset_type : pyval) (e : exn) : dict :=
  <["asset_id" := asset_id]>
  (<["asset_type" := asset_type]>
  (<["environment" := PStr "unknown"]>
  (<["criticality" := PInt 1]>
  (<["owner" := PStr "unknown"]>
  (<["tags" := PDict ∅]> (∅ : dict)))))).

Definition get_asset_context (asset_id asset_type : pyval) : dict :=
  catch (get_asset_context_try asset_id asset_type)
        (asset_fallback asset_id asset_type).

(** *** EventEnricher *)

(** The three services an [EventEnricher] holds. *)
Record EventEnricher : Type := {
  threat_intel_service : pyval -> dict;
  geo_service : pyval -> dict;
  asset_service : pyval -> pyval -> dict
}.

(** [EventEnricher()], as [__init__] builds it. *)
Definition enricher : EventEnricher :=
  {| threat_intel_service := lookup_ip_reputation;
     geo_service := lookup_ip_location;
     asset_service := get_asset_context |}.

(** The [enrichments] dict that the [try] of [enrich_event] fills before
    the metadata is added. *)
Definition enrichments_try (self : EventEnricher) (event : dict) : outcome dict :=
  let enrichments : dict := ∅ in
  actor ← as_dict (dict_get event "actor" (PDict ∅));
  let actor_ip := dict_get actor "ip" PNone in
  let enrichments :=
    if truthy actor_ip
    then <["geo" := PDict (geo_service self actor_ip)]>
         (<["threat_intel" := PDict (threat_intel_service self actor_ip)]> enrichments)
    else enrichments in
  resource ← as_dict (dict_get event "resource" (PDict ∅));
  let resource_id := dict_get resource "id" PNone in
  resource ← as_dict (dict_get event "resource" (PDict ∅));
  let resource_type := dict_get resource "type" PNone in
  let enrichments :=
    if truthy resource_id && truthy resource_type
    then <["asset_context" := PDict (asset_service self resource_id resource_type)]>
         enrichments
    else enrichments in
  Ok enrichments.

Definition enrichment_metadata (processing_time : Z) (enrichments : dict) : dict :=
  <["enriched_at" := PStr (isoformat now)]>
  (<["enricher_version" := PStr "1.0.0"]>
  (<["processing_time_ms" := PInt processing_time]>
  (<["enrichments_added" := PInt (Z.of_nat (size enrichments))]> (∅ : dict)))).

(** [enrich_event]; [processing_time] is the elapsed time it measures. *)
Definition enrich_event (self : EventEnricher) (processing_time : Z) (event : dict)
  : dict :=
  catch
    (enrichments ← enrichments_try self event;
     let enrichments :=
       <["enrichment_metadata" :=
           PDict (enrichment_metadata processing_time enrichments)]> enrichments in
     Ok (<["status" := PStr "enriched"]>
        (<["enrichments" := PDict enrichments]> event)))
    (fun e => <["enrichment_error" := PStr (exn_str e)]> event).

(** The body of the [/enrich] request, as the [EventRequest] schema admits
    it: [actor] and [resource] are mappings. *)
Record EventRequest : Type := {
  event_id : string;
  source : string;
  actor : dict;
  action : string;
  resource : dict;
  severity_hint : Z;
  payload : dict
}.

(** [event_request.dict()] *)
Definition to_dict (r : EventRequest) : dict :=
  <["event_id" := PStr (event_id r)]>
  (<["source" := PStr (source r)]>
  (<["actor" := PDict (actor r)]>
  (<["action" := PStr (action r)]>
  (<["resource" := PDict (resource r)]>
  (<["severity_hint" := PInt (severity_hint r)]>
  (<["payload" := PDict (payload r)]> (∅ : dict))))))).

Record EventResponse : Type := {
  resp_event_id : string;
  status : string;
  enriched_data : pyval;
  processing_time_ms : Z
}.

(** [enrich_event_endpoint], run against the enricher [self];
    [processing_time] and [endpoint_time] are the two elapsed times
    measured.  [enrich_event] returns in every case, so the handler that
    answers 500 is never entered. *)
Definition enrich_event_endpoint (self : EventEnricher)
    (processing_time endpoint_time : Z) (event_request : EventRequest)
  : EventResponse :=
  let event_dict := to_dict event_request in
  let enriched_event := enrich_event self processing_time event_dict in
  {| resp_event_id := event_id event_request;
     status := "enriched";
     enriched_data := dict_get enriched_event "enrichments" (PDict ∅);
     processing_time_ms := endpoint_time |}.

End Services.

End Enricher.

(** ** services/scorer-svc/app.py *)

Module Scorer.
Import Py.

(** A feature vector, [Dict[str, float]]. *)
Abbreviation features := (gmap string Q).

(** [f.get(k, d)] on a feature vector. *)
Definition fget (f : features) (k : string) (d : Q) : Q := default d (f !! k).

(** *** RuleEngine *)

Record rule : Type := {
  name : string;
  condition : features -> bool;
  score : Z;
  description : string
}.

Definition rules : list rule := [
  {| name := "high_risk_country_admin";
     condition := fun f => Qeq_bool (fget f "is_high_risk_country" 0) 1
                           && Qeq_bool (fget f "is_admin_action" 0) 1;
     score := 40;
     description := "Admin action from high-risk country" |};
  {| name := "malicious_ip_access";
     condition := fun f => Qeq_bool (fget f "is_malicious" 0) 1;
     score := 50;
     description := "Access from malicious IP" |};
  {| name := "failed_login_suspicious_ip";
     condition := fun f => Qeq_bool (fget f "is_failed_action" 0) 1
                           && Qeq_bool (fget f "is_suspicious" 0) 1;
     score := 30;
     description := "Failed login from suspicious IP" |};
  {| name := "critical_resource_access";
     condition := fun f => Qeq_bool (fget f "is_critical_resource" 0) 1
                           && Qeq_bool (fget f "is_prod_environment" 0) 1;
     score := 20;
     description := "Access to critical production resource" |};
  {| name := "weekend_admin_activity";
     condition := fun f => Qeq_bool (fget f "is_weekend" 0) 1
                           && Qeq_bool (fget f "is_admin_action" 0) 1;
     score := 15;
     description := "Admin activity during weekend" |};
  {| name := "high_severity_event";
     condition := fun f => Qle_bool (8 # 10) (fget f "severity_hint" 0);
     score := 25;
     description := "High severity event" |};
  {| name := "off_hours_activity";
     condition := fun f => Qeq_bool (fget f "is_business_hours" 0) 0
                           && Qeq_bool (fget f "is_critical_resource" 0) 1;
     score := 10;
     description := "Off-hours access to critical resource" |}
].

Record triggered_rule : Type := {
  t_name : string;
  t_score : Z;
  t_description : string
}.

Record rule_result : Type := {
  rule_score : Z;
  triggered_rules : list triggered_rule;
  total_rules_checked : nat
}.

Definition trigger (r : rule) : triggered_rule :=
  {| t_name := name r; t_score := score r; t_description := description r |}.

(** One turn of [for rule in self.rules].  A condition compares floats
    fetched with [f.get(k, 0)] and cannot raise, so the inner [except] is
    never entered. *)
Definition rule_step (f : features) (acc : Z * list triggered_rule) (r : rule)
  : Z * list triggered_rule :=
  if condition r f
  then ((fst acc + score r)%Z, (snd acc ++ [trigger r])%list)
  else acc.

Definition calculate_rule_score (f : features) : rule_result :=
  let acc := fold_left (rule_step f) rules (0%Z, []) in
  {| rule_score := Z.min (fst acc) 100;
     triggered_rules := snd acc;
     total_rules_checked := length rules |}.


(** *** FeatureExtractor *)

Definition high_risk_countries : list string := ["CN"; "RU"; "KP"; "IR"; "XX"].
Definition suspicious_asns : list Z := [0; 13335; 54321]%Z.
Definition critical_resources : list string := ["database"; "s3"; "rds"].

(** [1.0 if b else 0.0] *)
Definition indicator (b : bool) : Q := if b then 1%Q else 0%Q.

Section FeatureExtractor.

(** The interpreter's parser of float literals, used by [float(str)]. *)
Variable float_of_str : string -> option Q.

(** The body of the [try] in [extract_features]; the statements run in
    source order, so the first one that raises decides the exception. *)
Definition extract_features_try (event enrichments : dict) (now : datetime)
  : outcome features :=
  (* Geo features *)
  geo ← as_dict (dict_get enrichments "geo" (PDict ∅));
  asn ← float float_of_str (dict_get geo "asn" (PInt 0));
  let f := <["asn" := asn]> (∅ : features) in
  let f := <["is_high_risk_country" :=
              indicator (in_strs (dict_get geo "country_code" (PStr ""))
                                 high_risk_countries)]> f in
  (* Threat intel features *)
  threat_intel ← as_dict (dict_get enrichments "threat_intel" (PDict ∅));
  rep ← float float_of_str (dict_get threat_intel "rep_score" (PInt 50));
  let f := <["rep_score" := (rep / 100)%Q]> f in
  let f := <["is_malicious" :=
              indicator (eq_str (dict_get threat_intel "ip_rep" PNone) "malicious")]> f in
  let f := <["is_suspicious" :=
              indicator (eq_str (dict_get threat_intel "ip_rep" PNone) "suspicious")]> f in
  (* Asset features *)
  asset_context ← as_dict (dict_get enrichments "asset_context" (PDict ∅));
  crit ← float float_of_str (dict_get asset_context "criticality" (PInt 1));
  let f := <["asset_criticality" := (crit / 5)%Q]> f in
  let f := <["is_prod_environment" :=
              indicator (eq_str (dict_get asset_context "environment" PNone) "prod")]> f in
  (* Time features *)
  let f := <["hour_of_day" := (inject_Z (hour now) / 24)%Q]> f in
  let f := <["day_of_week" := (inject_Z (weekday now) / 7)%Q]> f in
  let f := <["is_weekend" := indicator (5 <=? weekday now)%Z]> f in
  let f := <["is_business_hours" :=
              indicator ((9 <=? hour now)%Z && (hour now <=? 17)%Z)]> f in
  (* Event type features *)
  action ← str_lower (dict_get event "action" (PStr ""));
  let f := <["is_login_action" := indicator (contains "login" action)]> f in
  let f := <["is_failed_action" :=
              indicator (contains "failed" action || contains "fail" action)]> f in
  let f := <["is_admin_action" :=
              indicator (contains "admin" action || contains "root" action)]> f in
  (* Resource type features *)
  resource ← as_dict (dict_get event "resource" (PDict ∅));
  resource_type ← str_lower (dict_get resource "type" (PStr ""));
  let f := <["is_critical_resource" :=
              indicator (existsb (String.eqb resource_type) critical_resources)]> f in
  (* Severity hint *)
  sev ← float float_of_str (dict_get event "severity_hint" (PInt 1));
  let f := <["severity_hint" := (sev / 5)%Q]> f in
  Ok f.

(** [except Exception: return {}] *)
Definition extract_features (event enrichments : dict) (now : datetime) : features :=
  catch (extract_features_try event enrichments now) (fun _ => ∅).

End FeatureExtractor.

(** *** MLModel *)

Definition model_version : string := "1.0.0".

(** [self.feature_weights], in the dict's insertion order. *)
Definition feature_weights : list (string * Q) := [
  ("is_malicious", 4 # 10);
  ("rep_score", 3 # 10);
  ("is_high_risk_country", 2 # 10);
  ("asset_criticality", 25 # 100);
  ("is_prod_environment", 15 # 100);
  ("is_admin_action", 3 # 10);
  ("is_failed_action", 2 # 10);
  ("is_business_hours", - 1 # 10);
  ("severity_hint", 2 # 10);
  ("is_critical_resource", 3 # 10);
  ("is_suspicious", 25 # 100)
]%Q.

Record ml_result : Type := {
  model_score : R;
  confidence : Q;
  ml_model_version : string;
  features_used : nat;
  raw_score : Q
}.

(** One turn of [for feature, weight in self.feature_weights.items()]:
    the accumulator is [(raw_score, weights_used)]. *)
Definition weight_step (f : features) (acc : Q * Z) (fw : string * Q) : Q * Z :=
  match f !! fst fw with
  | Some v => ((fst acc + v * snd fw)%Q, (snd acc + 1)%Z)
  | None => acc
  end.

(** [1 / (1 + np.exp(-x))] *)
Definition sigmoid (x : Q) : R := (1 / (1 + exp (- Q2R x)))%R.

(** [len([v for v in features.values() if v != 0.0])] *)
Definition nonzero_values (f : features) : nat :=
  length (List.filter (fun kv => negb (Qeq_bool (snd kv) 0)) (map_to_list f)).

(** [predict].  On a vector of floats nothing in the [try] raises, so the
    handler (model_score 50.0, confidence 0.1) is never entered. *)
Definition predict (f : features) : ml_result :=
  let acc := fold_left (weight_step f) feature_weights (0%Q, 0%Z) in
  let weights_used := snd acc in
  let raw :=
    if (0 <? weights_used)%Z
    then (fst acc / Qmax (inject_Z weights_used * (1 # 10)) 1)%Q
    else fst acc in
  let probability :=
    if (0 <? weights_used)%Z then sigmoid raw else (5 / 10)%R in
  let feature_completeness :=
    if bool_decide (f = ∅) then 0%Q
    else (inject_Z (Z.of_nat (nonzero_values f)) / inject_Z (Z.of_nat (size f)))%Q in
  {| model_score := (probability * 100)%R;
     confidence := Qmin ((3 # 10) + feature_completeness * (7 # 10)) 1;
     ml_model_version := model_version;
     features_used := size f;
     raw_score := raw |}.

(** *** RiskScorer *)

Record scoring_result : Type := {
  s_model_score : R;
  s_rule_score : Z;
  final_score : Z;
  s_confidence : Q;
  s_model_version : string;
  s_triggered_rules : list string;
  features_extracted : nat
}.

(** [min(int((model_score * 0.7) + (rule_score * 0.3)), 100)], as the
    interpreter evaluates it on a finite double [model_score]: the
    literals denote the nearest doubles, [rule_score] is converted to a
    float (OverflowError beyond the range of a double), each product and
    the sum are rounded, and [int] truncates (OverflowError on an
    infinity). *)
Definition fuse (model_score : Q) (rule_score : Z) : outcome Z :=
  let rule_score := Binary64.round (inject_Z rule_score) in
  if Binary64.overflows rule_score
  then Raise (OverflowError "int too large to convert to float")
  else
    let sum :=
      Binary64.add (Binary64.mul model_score (Binary64.literal (7 # 10)))
                   (Binary64.mul rule_score (Binary64.literal (3 # 10))) in
    if Binary64.overflows sum
    then Raise (OverflowError "cannot convert float infinity to integer")
    else Ok (Z.min (Binary64.trunc sum) 100).

(** The same expression with the arithmetic taken exactly, on the exact
    model score that [predict] yields here. *)
Definition fuse_exact (model_score : R) (rule_score : Z) : Z :=
  Z.min (int (model_score * (7 / 10) + IZR rule_score * (3 / 10))%R) 100.

(** [score_event], on the numbers of the model.  The wall-clock fields of
    the result ([processing_time_ms], [scored_at]) are left out.  The
    extractor, the rule engine and [predict] catch what they raise, and
    [int] raises on an infinity or a nan only: the model score lies in
    [0,100] unless it is nan, which takes a nan, or infinities of both
    signs, among the features.  On [plain_number]s the handler (model score
    50, rule score 0, final score 50, confidence 0.1) is therefore never
    entered, and it is left out.  The final score is computed on the exact
    model score, hence with [fuse_exact]. *)
Definition score_event (float_of_str : string -> option Q)
    (event enrichments : dict) (now : datetime) : scoring_result :=
  let f := extract_features float_of_str event enrichments now in
  let rule_result := calculate_rule_score f in
  let ml := predict f in
  {| s_model_score := model_score ml;
     s_rule_score := rule_score rule_result;
     final_score := fuse_exact (model_score ml) (rule_score rule_result);
     s_confidence := confidence ml;
     s_model_version := ml_model_version ml;
     s_triggered_rules := map t_name (triggered_rules rule_result);
     features_extracted := size f |}.

End Scorer.

(** ** The pipeline *)

Module Pipeline.
Import Py.


End Pipeline.

(** ** services/scorer-svc/app.py: the [/score] endpoint *)

Module ScorerApi.
Import Py.

Record ScoringRequest : Type := {
  event_id : string;
  enrichments : dict;
  base_event : dict
}.

Record ScoringResponse : Type := {
  resp_event_id : string;
  model_score : R;
  rule_score : Z;
  final_score : Z;
  confidence : Q;
  model_version : string;
  triggered_rules : list string
}.

(** [score_event_endpoint].  [score_event] returns a result with every key
    the response reads, so the defaults of the [.get] calls are never used,
    and it does not raise, so the handler that answers 500 is never
    entered. *)
Definition score_event_endpoint (float_of_str : string -> option Q) (now : datetime)
    (request : ScoringRequest) : ScoringResponse :=
  let scoring_result :=
    Scorer.score_event float_of_str (base_event request) (enrichments request) now in
  {| resp_event_id := event_id request;
     model_score := Scorer.s_model_score scoring_result;
     rule_score := Scorer.s_rule_score scoring_result;
     final_score := Scorer.final_score scoring_result;
     confidence := Scorer.s_confidence scoring_result;
     model_version := Scorer.s_model_version scoring_result;
     triggered_rules := Scorer.s_triggered_rules scoring_result |}.

End ScorerApi.

(** ** services/lambda-ingest/index.py and infra/envs/dev/index.py:
       the handlers

    [Ingest] above holds [validate_event_schema] and [normalize_event] on a
    raw event that is a mapping.  The handlers apply them to whatever the
    request body holds, so they are lifted here to arbitrary objects, and
    the parts of the two files that differ ([send_to_kinesis],
    [lambda_handler]) are modelled side by side. *)

Module Gateway.
Import Py Ingest.

(** What [put_record] is called with. *)
Record kinesis_record : Type := {
  StreamName : string;
  Data : string;
  PartitionKey : string
}.

(** The Lambda proxy response.  [isBase64Encoded] is [None] where the
    response has no such key (the lambda-ingest copy). *)
Record response : Type := {
  statusCode : Z;
  headers : list (string * string);
  body : string;
  isBase64Encoded : option bool
}.

(** The state of the loop over the batch: the two lists the handler
    builds, and the records the stream has taken so far. *)
Record batch : Type := {
  processed_events : list pyval;
  errors : list pyval;
  sent : list kinesis_record
}.

Definition empty_batch : batch :=
  {| processed_events := []; errors := []; sent := [] |}.

(** [str.upper()], as far as a comparison with an ASCII literal can tell:
    the ASCII letters, and the ten characters beyond ASCII whose upper case
    is made of ASCII letters only (sharp s, dotless i, long s and the
    ligatures U+FB00 to U+FB06), read in UTF-8.  The upper case of every
    other character holds a character beyond ASCII, as the character
    itself does here. *)
Definition upper_ascii (c : ascii) : ascii :=
  let n := nat_of_ascii c in
  if (97 <=? n)%nat && (n <=? 122)%nat then ascii_of_nat (n - 32) else c.

Definition upper_ligature (c : ascii) : option string :=
  if Ascii.eqb c "128" then Some "FF"
  else if Ascii.eqb c "129" then Some "FI"
  else if Ascii.eqb c "130" then Some "FL"
  else if Ascii.eqb c "131" then Some "FFI"
  else if Ascii.eqb c "132" then Some "FFL"
  else if Ascii.eqb c "133" then Some "ST"
  else if Ascii.eqb c "134" then Some "ST"
  else None.

Fixpoint upper (s : string) : string :=
  match s with
  | EmptyString => EmptyString
  | String c0 s1 =>
      let plain := String (upper_ascii c0) (upper s1) in
      match s1 with
      | EmptyString => plain
      | String c1 s2 =>
          if Ascii.eqb c0 "195" && Ascii.eqb c1 "159" then "SS" ++ upper s2
          else if Ascii.eqb c0 "196" && Ascii.eqb c1 "177" then "I" ++ upper s2
          else if Ascii.eqb c0 "197" && Ascii.eqb c1 "191" then "S" ++ upper s2
          else if Ascii.eqb c0 "239" && Ascii.eqb c1 "172"
          then match s2 with
               | EmptyString => plain
               | String c2 s3 =>
                   match upper_ligature c2 with
                   | Some letters => letters ++ upper s3
                   | None => plain
                   end
               end
          else plain
      end
  end.

(** [v.upper()]: only a str has the method. *)
Definition str_upper (v : pyval) : outcome string :=
  match v with
  | PStr s => Ok (upper s)
  | _ => Raise (AttributeError (type_name v) "upper")
  end.

(** [v or dflt] *)
Definition or_else (v dflt : pyval) : pyval := if truthy v then v else dflt.

(** [v.get(k, dflt)] on an arbitrary object. *)
Definition get_obj (v : pyval) (k : string) (dflt : pyval) : outcome pyval :=
  d ← as_dict v; Ok (dict_get d k dflt).

(** The items [for ... in enumerate(body)] visits when [body] is no dict:
    the elements of a list, the characters of a str; other objects cannot
    be iterated. *)
Fixpoint characters (s : string) : list pyval :=
  match s with
  | EmptyString => []
  | String c s' => PStr (String c EmptyString) :: characters s'
  end.

(** [validate_event_schema] on an arbitrary object: [field not in
    event_data] is a key test on a dict, a substring test on a str, a
    membership test on a list, and raises on anything else. *)
Fixpoint first_missing_obj (fields : list string) (event_data : pyval)
  : outcome (option string) :=
  match fields with
  | [] => Ok None
  | field :: rest =>
      present ← contains_str field event_data;
      if (present : bool) then first_missing_obj rest event_data else Ok (Some field)
  end.

Definition validate_event_schema_obj (event_data : pyval)
  : outcome (bool * option string) :=
  missing ← first_missing_obj required_fields event_data;
  Ok match missing with
     | Some field => (false, Some ("Missing required field: " ++ field))
     | None => (true, None)
     end.

(** [normalize_event] on an arbitrary object: its first statement calls
    [raw_event.get]. *)
Definition normalize_event_obj (raw_event source_ip : pyval)
    (fresh_uuid : string) (now : datetime) : outcome dict :=
  d ← as_dict raw_event; normalize_event d source_ip fresh_uuid now.

Section Runtime.

(** [json.loads] on the request body; [None] is [JSONDecodeError]. *)
Variable json_loads : string -> option pyval.
(** [json.dumps] *)
Variable json_dumps : pyval -> string.
(** [str(v)], as an f-string formats a value. *)
Variable str_of : pyval -> string.
(** [str(e)] *)
Variable exn_str : exn -> string.
(** [os.environ.get('KINESIS_STREAM_NAME')] *)
Variable stream_name : option string.
(** The Kinesis client: [true] when [put_record] stores the record and
    returns, [false] when it raises. *)
Variable put_record : kinesis_record -> bool.
(** The identifier [uuid.uuid4()] yields, and the clock read, while the
    event at a given position of the batch is normalised. *)
Variable uuid_at : nat -> string.
Variable clock_at : nat -> datetime.
(** The clock read of the health answer. *)
Variable health_clock : datetime.

Definition partition_key (event : dict) : outcome string :=
  actor ← as_dict (dict_get event "actor" (PDict ∅));
  Ok (str_of (dict_get actor "id" (PStr "unknown")) ++ "#"
      ++ str_of (dict_get event "source" (PStr "unknown"))).

(** The part of [send_to_kinesis] after the stream name is known; any
    exception is caught and reported as [False]. *)
Definition publish (name : string) (event : dict) : bool * list kinesis_record :=
  match partition_key event with
  | Ok key =>
      let record := {| StreamName := name;
                       Data := json_dumps (PDict event);
                       PartitionKey := key |} in
      if put_record record then (true, [record]) else (false, [])
  | Raise _ => (false, [])
  end.

Definition stream_configured : option string :=
  match stream_name with
  | Some name => if String.eqb name "" then None else Some name
  | None => None
  end.

(** [send_to_kinesis] of lambda-ingest: a missing stream name raises
    [ValueError] inside the [try], hence [False].  The result is the
    returned flag and the records the stream took. *)
Definition send_to_kinesis (event : dict) : bool * list kinesis_record :=
  match stream_configured with
  | Some name => publish name event
  | None => (false, [])
  end.

(** [send_to_kinesis] of infra/envs/dev: a missing stream name is logged
    and reported as [True]. *)
Definition send_to_kinesis_dev (event : dict) : bool * list kinesis_record :=
  match stream_configured with
  | Some name => publish name event
  | None => (true, [])
  end.

Definition error_entry (index : nat) (error : string) (event_id : pyval) : pyval :=
  PDict (<["index" := PInt (Z.of_nat index)]>
        (<["error" := PStr error]>
        (<["event_id" := event_id]> ∅))).

Definition accepted_entry (event_id : pyval) : pyval :=
  PDict (<["event_id" := event_id]> (<["status" := PStr "accepted"]> ∅)).

Definition add_error (b : batch) (entry : pyval) : batch :=
  {| processed_events := processed_events b;
     errors := errors b ++ [entry];
     sent := sent b |}.

(** The body of the inner [try] for the event at position [i].  The loop
    is the same in both copies; [send] is the copy's [send_to_kinesis].
    [normalized_event['event_id']] is always present. *)
Definition process_try (send : dict -> bool * list kinesis_record)
    (source_ip : pyval) (i : nat) (raw_event : pyval) (b : batch) : outcome batch :=
  valid ← validate_event_schema_obj raw_event;
  if negb (fst (valid : bool * option string))
  then
    event_id ← get_obj raw_event "event_id" (PStr "unknown");
    Ok (add_error b (error_entry i (default "" (snd valid)) event_id))
  else
    normalized_event ← normalize_event_obj raw_event source_ip (uuid_at i) (clock_at i);
    let outcome_of_send := send normalized_event in
    let event_id := dict_get normalized_event "event_id" PNone in
    if fst outcome_of_send
    then Ok {| processed_events := processed_events b ++ [accepted_entry event_id];
               errors := errors b;
               sent := sent b ++ snd outcome_of_send |}
    else Ok {| processed_events := processed_events b;
               errors := errors b
                         ++ [error_entry i "Failed to send to stream" event_id];
               sent := sent b ++ snd outcome_of_send |}.

(** The inner [try/except]: the handler itself calls [raw_event.get], so
    it raises again when the raw event is no mapping. *)
Definition process_event (send : dict -> bool * list kinesis_record)
    (source_ip : pyval) (i : nat) (raw_event : pyval) (b : batch) : outcome batch :=
  match process_try send source_ip i raw_event b with
  | Ok b' => Ok b'
  | Raise e =>
      event_id ← get_obj raw_event "event_id" (PStr "unknown");
      Ok (add_error b (error_entry i (exn_str e) event_id))
  end.

(** [for i, raw_event in enumerate(events_to_process)], from position [i]:
    the batch reached, and the exception that left the loop, if any. *)
Fixpoint process_events (send : dict -> bool * list kinesis_record)
    (source_ip : pyval) (i : nat) (events : list pyval) (b : batch)
  : batch * option exn :=
  match events with
  | [] => (b, None)
  | raw_event :: rest =>
      match process_event send source_ip i raw_event b with
      | Ok b' => process_events send source_ip (S i) rest b'
      | Raise e => (b, Some e)
      end
  end.

Definition response_body (b : batch) : pyval :=
  let base : dict :=
    <["processed" := PInt (Z.of_nat (length (processed_events b)))]>
    (<["errors" := PInt (Z.of_nat (length (errors b)))]>
    (<["events" := PList (processed_events b)]> ∅)) in
  PDict (match errors b with
         | [] => base
         | _ => <["errors_detail" := PList (errors b)]> base
         end).

Definition status_of (b : batch) : Z :=
  match errors b with [] => 200 | _ => 207 end.

Definition json_headers : list (string * string) :=
  [("Content-Type", "application/json")].

Definition cors_headers : list (string * string) :=
  [("Content-Type", "application/json"); ("Access-Control-Allow-Origin", "*")].

(** What the part of a handler before the loop decides: an answer, or the
    batch to process. *)
Inductive prepared : Type :=
| Reply (r : response)
| Batch (source_ip : pyval) (events : list pyval).

(** *** lambda-ingest *)

Definition reply (status : Z) (hdrs : list (string * string)) (content : pyval)
  : response :=
  {| statusCode := status; headers := hdrs; body := json_dumps content;
     isBase64Encoded := None |}.

Definition health : response :=
  reply 200 cors_headers
    (PDict (<["status" := PStr "healthy"]>
           (<["service" := PStr "secureops360-ingest"]>
           (<["timestamp" := PStr (isoformat health_clock)]>
           (<["version" := PStr "1.0.0"]> ∅))))).

Definition error_reply (status : Z) (message : string) : response :=
  reply status json_headers (PDict (<["error" := PStr message]> ∅)).

Definition events_to_process (body : pyval) : outcome (list pyval) :=
  match body with
  | PDict _ => Ok [body]
  | PList l => Ok l
  | PStr s => Ok (characters s)
  | _ => Raise (TypeError (type_name body))
  end.

(** [lambda_handler] up to the loop. *)
Definition prepare (event : pyval) : outcome prepared :=
  ev ← as_dict event;
  let http_method := dict_get ev "httpMethod" (PStr "GET") in
  if eq_str http_method "GET" then Ok (Reply health)
  else if negb (eq_str http_method "POST")
  then Ok (Reply (error_reply 405 "Method not allowed"))
  else
    request_context ← as_dict (dict_get ev "requestContext" (PDict ∅));
    identity ← as_dict (dict_get request_context "identity" (PDict ∅));
    let source_ip := dict_get identity "sourceIp" PNone in
    let body := dict_get ev "body" (PStr "{}") in
    match (match body with PStr s => json_loads s | _ => Some body end) with
    | None => Ok (Reply (error_reply 400 "Invalid JSON format"))
    | Some body =>
        events ← events_to_process body;
        Ok (Batch source_ip events)
    end.

(** [lambda_handler]: the response, and the records the stream took.  An
    exception anywhere inside the outer [try] is answered 500; what was
    published before it stays published. *)
Definition lambda_handler (event : pyval) : response * list kinesis_record :=
  match prepare event with
  | Raise _ => (error_reply 500 "Internal server error", [])
  | Ok (Reply r) => (r, [])
  | Ok (Batch source_ip events) =>
      match process_events send_to_kinesis source_ip 0 events empty_batch with
      | (b, None) => (reply (status_of b) cors_headers (response_body b), sent b)
      | (b, Some _) => (error_reply 500 "Internal server error", sent b)
      end
  end.

(** *** infra/envs/dev *)

(** [_json_response] *)
Definition _json_response (status : Z) (content : pyval) : response :=
  {| statusCode := status; headers := cors_headers; body := json_dumps content;
     isBase64Encoded := Some false |}.

Definition events_to_process_dev (body : pyval) : list pyval :=
  match body with
  | PDict _ => [body]
  | PList l => l
  | _ => []
  end.

(** The dev [lambda_handler] up to the loop; nothing here is inside a
    [try], so an exception leaves the handler. *)
Definition prepare_dev (event : pyval) : outcome prepared :=
  ev ← as_dict (or_else event (PDict ∅));
  let path := or_else (dict_get ev "path" PNone) (PStr "") in
  ev ← as_dict (or_else event (PDict ∅));
  let http_method := or_else (dict_get ev "httpMethod" PNone) (PStr "GET") in
  method ← str_upper http_method;
  if String.eqb method "GET"
  then Ok (Reply (_json_response 200
                    (PDict (<["status" := PStr "healthy"]>
                           (<["service" := PStr "secureops360-ingest"]>
                           (<["timestamp" := PStr (isoformat health_clock)]>
                           (<["version" := PStr "1.0.0"]>
                           (<["path" := path]> ∅))))))))
  else
    method ← str_upper http_method;
    if negb (String.eqb method "POST")
    then Ok (Reply (_json_response 405 (PDict (<["error" := PStr "Method not allowed"]> ∅))))
    else
      ev ← as_dict event;
      request_context ← as_dict (dict_get ev "requestContext" (PDict ∅));
      identity ← as_dict (or_else (dict_get request_context "identity" (PDict ∅))
                                  (PDict ∅));
      let source_ip := dict_get identity "sourceIp" PNone in
      let body := dict_get ev "body" (PStr "{}") in
      match (match body with
             | PStr s => json_loads (if String.eqb s "" then "{}" else s)
             | _ => Some body
             end) with
      | None => Ok (Reply (_json_response 400
                             (PDict (<["error" := PStr "Invalid JSON format"]> ∅))))
      | Some body => Ok (Batch source_ip (events_to_process_dev body))
      end.

(** The dev [lambda_handler]: the response or the exception that leaves
    it, and the records the stream took. *)
Definition lambda_handler_dev (event : pyval) : outcome response * list kinesis_record :=
  match prepare_dev event with
  | Raise e => (Raise e, [])
  | Ok (Reply r) => (Ok r, [])
  | Ok (Batch source_ip events) =>
      match process_events send_to_kinesis_dev source_ip 0 events empty_batch with
      | (b, None) => (Ok (_json_response (status_of b) (response_body b)), sent b)
      | (b, Some e) => (Raise e, sent b)
      end
  end.

End Runtime.

End Gateway.

(** ** Properties *)

Import Py Scorer.

(** *** Rule engine *)

Definition sum_Z (l : list Z) : Z := fold_right Z.add 0%Z l.

(** The rules whose condition holds on [f], in table order. *)
Definition holding (f : features) : list rule :=
  List.filter (fun r => condition r f) rules.

Definition rule_order : list string := [
  "high_risk_country_admin"; "malicious_ip_access"; "failed_login_suspicious_ip";
  "critical_resource_access"; "weekend_admin_activity"; "high_severity_event";
  "off_hours_activity" ].

Lemma rule_loop f l total trig :
  fold_left (rule_step f) l (total, trig) =
  ((total + sum_Z (map score (List.filter (fun r => condition r f) l)))%Z,
   (trig ++ map trigger (List.filter (fun r => condition r f) l))%list).
Proof.
  revert total trig.
  induction l as [|r l IH]; intros total trig; simpl.
  - by rewrite Z.add_0_r, app_nil_r.
  - unfold rule_step at 2. destruct (condition r f); simpl.
    + rewrite IH. f_equal; [lia | by rewrite <- app_assoc].
    + apply IH.
Qed.

Lemma rule_score_holding f :
  rule_score (calculate_rule_score f) = Z.min (sum_Z (map score (holding f))) 100.
Proof. unfold calculate_rule_score. by rewrite rule_loop. Qed.

Lemma triggered_holding f :
  triggered_rules (calculate_rule_score f) = map trigger (holding f).
Proof. unfold calculate_rule_score. by rewrite rule_loop. Qed.

Lemma filter_sublist {A} (p : A -> bool) (l : list A) : sublist (List.filter p l) l.
Proof.
  induction l as [|a l IH]; simpl; [constructor|].
  destruct (p a); by constructor.
Qed.

Lemma map_sublist {A B} (g : A -> B) (l k : list A) :
  sublist l k -> sublist (map g l) (map g k).
Proof. induction 1; simpl; by constructor. Qed.

(** C1.  For every feature vector the rule engine returns the sum of the
    points of the rules whose conditions hold, capped at 100 (so a sum past
    100 yields exactly 100), and the triggered list names exactly those
    rules, in the order of the fixed table. *)
Theorem rule_engine_capped_sum (f : features) :
  rule_score (calculate_rule_score f) = Z.min (sum_Z (map score (holding f))) 100
  /\ ((100 <= sum_Z (map score (holding f)))%Z ->
      rule_score (calculate_rule_score f) = 100%Z)
  /\ map t_name (triggered_rules (calculate_rule_score f)) = map name (holding f)
  /\ map name rules = rule_order
  /\ sublist (map t_name (triggered_rules (calculate_rule_score f))) rule_order.
Proof.
  assert (Hn : map t_name (triggered_rules (calculate_rule_score f))
               = map name (holding f)).
  { rewrite triggered_holding, map_map. reflexivity. }
  split; [apply rule_score_holding|].
  split; [rewrite rule_score_holding; lia|].
  split; [exact Hn|].
  split; [reflexivity|].
  rewrite Hn. change rule_order with (map name rules).
  apply map_sublist, filter_sublist.
Qed.

(** The table gives the three rules of scenario A 50, 20 and 25 points,
    and a vector that triggers every rule (190 points) scores exactly 100. *)
Example rule_table_points :
  map (fun r => (name r, score r)) rules
  = [("high_risk_country_admin", 40); ("malicious_ip_access", 50);
     ("failed_login_suspicious_ip", 30); ("critical_resource_access", 20);
     ("weekend_admin_activity", 15); ("high_severity_event", 25);
     ("off_hours_activity", 10)]%Z.
Proof. reflexivity. Qed.

Example rule_cap_reached :
  let f : features :=
    list_to_map [("is_high_risk_country", 1); ("is_admin_action", 1); ("is_malicious", 1);
                 ("is_failed_action", 1); ("is_suspicious", 1);
                 ("is_critical_resource", 1); ("is_prod_environment", 1);
                 ("is_weekend", 1); ("severity_hint", 1); ("is_business_hours", 0)]%Q in
  sum_Z (map score (holding f)) = 190%Z
  /\ rule_score (calculate_rule_score f) = 100%Z
  /\ map t_name (triggered_rules (calculate_rule_score f)) = rule_order.
Proof. repeat split. Qed.

(** *** Score fusion *)

Lemma int_nonneg (x : R) : (0 <= x)%R -> int x = Int_part x.
Proof. intros Hx. unfold int. destruct (Rle_dec 0 x); [reflexivity | contradiction]. Qed.

Lemma Int_part_bounds (x : R) (lo hi : Z) :
  (IZR lo <= x)%R -> (x <= IZR hi)%R -> (lo <= Int_part x <= hi)%Z.
Proof.
  intros Hlo Hhi.
  destruct (base_Int_part x) as [H1 H2].
  split.
  - apply Z.lt_succ_r, lt_IZR. rewrite succ_IZR. lra.
  - apply le_IZR. lra.
Qed.

(** *** Rounding to binary64 *)

Lemma pow2_pos (e : Z) : (0 < Binary64.pow2 e)%Q.
Proof. apply Qpower_0_lt. reflexivity. Qed.

Lemma pow2_add (a b : Z) :
  (Binary64.pow2 (a + b) == Binary64.pow2 a * Binary64.pow2 b)%Q.
Proof. apply Qpower_plus. discriminate. Qed.

Lemma pow2_of_Z (a : Z) : (0 <= a)%Z -> (Binary64.pow2 a == inject_Z (2 ^ a))%Q.
Proof. intros H. unfold Binary64.pow2. by rewrite Zpower_Qpower. Qed.

Lemma half_even_near (t : Q) :
  (t - (1 # 2) <= inject_Z (Binary64.half_even t) <= t + (1 # 2))%Q.
Proof.
  unfold Binary64.half_even.
  pose proof (Qfloor_le t) as Hlo. pose proof (Qlt_floor t) as Hhi.
  rewrite inject_Z_plus in Hhi. change (inject_Z 1) with 1%Q in Hhi.
  destruct (Qcompare_spec (t - inject_Z (Qfloor t)) (1 # 2)) as [He|Hl|Hg];
    [destruct (Z.even (Qfloor t))| |];
    rewrite ?inject_Z_plus; change (inject_Z 1) with 1%Q; split; Lqa.lra.
Qed.

Lemma half_even_nonneg (t : Q) : (0 <= t)%Q -> (0 <= Binary64.half_even t)%Z.
Proof.
  intros Ht. pose proof (Qfloor_resp_le _ _ Ht) as Hf. change (Qfloor 0) with 0%Z in Hf.
  unfold Binary64.half_even.
  destruct (t - inject_Z (Qfloor t) ?= 1 # 2)%Q; [destruct (Z.even (Qfloor t))| |]; lia.
Qed.

(** [ilog2] does not overshoot. *)
Lemma pow2_ilog2 (q : Q) : (0 < q)%Q -> (Binary64.pow2 (Binary64.ilog2 q) <= q)%Q.
Proof.
  intros Hq. unfold Binary64.ilog2.
  set (a := Z.log2 (Qnum q)). set (b := Z.log2 (Zpos (Qden q))).
  destruct (Qle_bool (Binary64.pow2 (a - b)) q) eqn:Htest.
  - by apply Qle_bool_iff.
  - assert (Hn : (0 < Qnum q)%Z).
    { destruct q as [n d]. unfold Qlt in Hq. simpl in *. lia. }
    assert (Ha : (0 <= a)%Z) by apply Z.log2_nonneg.
    assert (Hb : (0 <= b)%Z) by apply Z.log2_nonneg.
    destruct (Z.log2_spec (Qnum q) Hn) as [Ha1 _]. fold a in Ha1.
    destruct (Z.log2_spec (Zpos (Qden q)) eq_refl) as [_ Hb2]. fold b in Hb2.
    replace (a - b - 1)%Z with (a + (- (b + 1)))%Z by lia.
    rewrite pow2_add. unfold Binary64.pow2 at 2. rewrite Qpower_opp.
    fold (Binary64.pow2 (b + 1)).
    rewrite (pow2_of_Z a Ha), (pow2_of_Z (b + 1)) by lia.
    replace (Z.succ b) with (b + 1)%Z in Hb2 by lia.
    assert (Hp : (0 < 2 ^ (b + 1))%Z) by (apply Z.pow_pos_nonneg; lia).
    destruct q as [n d]. cbn [Qnum Qden] in *.
    unfold Qle, Qmult, Qinv, inject_Z. cbn [Qnum Qden].
    destruct (2 ^ (b + 1))%Z as [|p|p] eqn:Ep; try lia.
    cbn [Qnum Qden Pos.mul]. rewrite Z.mul_1_r.
    assert (0 < 2 ^ a)%Z by (apply Z.pow_pos_nonneg; lia).
    nia.
Qed.

(** Nor does it undershoot: it is the floor of the binary logarithm. *)
Lemma ilog2_below (q : Q) :
  (0 < q)%Q -> (q < Binary64.pow2 (Binary64.ilog2 q + 1))%Q.
Proof.
  intros Hq. unfold Binary64.ilog2.
  set (a := Z.log2 (Qnum q)). set (b := Z.log2 (Zpos (Qden q))).
  destruct (Qle_bool (Binary64.pow2 (a - b)) q) eqn:Htest.
  - assert (Hn : (0 < Qnum q)%Z).
    { destruct q as [n d]. unfold Qlt in Hq. simpl in *. lia. }
    assert (Ha : (0 <= a)%Z) by apply Z.log2_nonneg.
    assert (Hb : (0 <= b)%Z) by apply Z.log2_nonneg.
    destruct (Z.log2_spec (Qnum q) Hn) as [_ Ha2]. fold a in Ha2.
    destruct (Z.log2_spec (Zpos (Qden q)) eq_refl) as [Hb1 _]. fold b in Hb1.
    replace (a - b + 1)%Z with ((a + 1) + (- b))%Z by lia.
    rewrite pow2_add. unfold Binary64.pow2 at 2. rewrite Qpower_opp.
    fold (Binary64.pow2 b).
    rewrite (pow2_of_Z (a + 1)), (pow2_of_Z b Hb) by lia.
    replace (Z.succ a) with (a + 1)%Z in Ha2 by lia.
    assert (Hp : (0 < 2 ^ b)%Z) by (apply Z.pow_pos_nonneg; lia).
    destruct q as [n d]. cbn [Qnum Qden] in *.
    unfold Qlt, Qmult, Qinv, inject_Z. cbn [Qnum Qden].
    destruct (2 ^ b)%Z as [|p|p] eqn:Ep; try lia.
    cbn [Qnum Qden Pos.mul]. rewrite Z.mul_1_r.
    nia.
  - replace (a - b - 1 + 1)%Z with (a - b)%Z by lia.
    apply Qnot_le_lt. intros H. apply Qle_bool_iff in H. congruence.
Qed.

Lemma Qabs_of_nonneg (q : Q) : (0 <= q)%Q -> Qabs q = q.
Proof.
  destruct q as [n d]. unfold Qle, Qabs. cbn [Qnum Qden]. intros H.
  f_equal. apply Z.abs_eq. lia.
Qed.

Lemma round_nonneg (q : Q) : (0 <= q)%Q -> (0 <= Binary64.round q)%Q.
Proof.
  intros Hq. unfold Binary64.round. destruct (Qeq_bool q 0); [discriminate|].
  pose proof (pow2_pos (Z.max (Binary64.ilog2 (Qabs q)) (-1022) - 52)) as Hu.
  fold (Binary64.ulp q) in Hu.
  apply Qmult_le_0_compat; [|by apply Qlt_le_weak].
  change 0%Q with (inject_Z 0). rewrite <- Zle_Qle.
  apply half_even_nonneg. apply Qle_shift_div_l; [exact Hu|]. by rewrite Qmult_0_l.
Qed.

(** One rounding, against the value rounded. *)
Lemma round_error (q : Q) :
  (0 <= q)%Q ->
  (q - (q * Binary64.unit_roundoff + Binary64.half_subnormal)
   <= Binary64.round q
   <= q + (q * Binary64.unit_roundoff + Binary64.half_subnormal))%Q.
Proof.
  intros Hq. unfold Binary64.round.
  destruct (Qeq_bool q 0) eqn:Hz.
  { apply Qeq_bool_eq in Hz. rewrite Hz. split; discriminate. }
  assert (Hpos : (0 < q)%Q).
  { apply Qeq_bool_neq in Hz. apply Qle_lteq in Hq as [H|H]; [exact H|].
    exfalso. apply Hz. by symmetry. }
  unfold Binary64.ulp. rewrite (Qabs_of_nonneg q Hq).
  set (e := Z.max (Binary64.ilog2 q) (-1022)).
  pose proof (pow2_pos (e - 52)) as Hu.
  destruct (half_even_near (q / Binary64.pow2 (e - 52))) as [Hlo Hhi].
  set (k := inject_Z (Binary64.half_even (q / Binary64.pow2 (e - 52)))) in *.
  assert (Hhalf : (Binary64.pow2 (e - 52) * (1 # 2)
                   <= q * Binary64.unit_roundoff + Binary64.half_subnormal)%Q).
  { assert (Hsplit : (Binary64.pow2 (e - 52) * (1 # 2)
                      == Binary64.pow2 e * Binary64.unit_roundoff)%Q).
    { replace (e - 52)%Z with (e + (-52))%Z by lia. rewrite pow2_add.
      unfold Binary64.unit_roundoff. change (Binary64.pow2 (-52)) with (1 # 2 ^ 52)%Q.
      rewrite <- Qmult_assoc. apply Qmult_comp; [reflexivity|]. reflexivity. }
    rewrite Hsplit.
    destruct (Z.max_spec (Binary64.ilog2 q) (-1022)) as [[Hlt He]|[Hge He]];
      fold e in He; rewrite He.
    - change (Binary64.pow2 (-1022) * Binary64.unit_roundoff)%Q
        with ((1 # 2 ^ 1022) * (1 # 2 ^ 53))%Q.
      assert (((1 # 2 ^ 1022) * (1 # 2 ^ 53) == Binary64.half_subnormal)%Q) as ->
        by reflexivity.
      assert (0 <= q * Binary64.unit_roundoff)%Q
        by (apply Qmult_le_0_compat; [exact Hq | discriminate]).
      Lqa.lra.
    - pose proof (pow2_ilog2 q Hpos) as Hl.
      assert (Binary64.pow2 (Binary64.ilog2 q) * Binary64.unit_roundoff
              <= q * Binary64.unit_roundoff)%Q.
      { apply Qmult_le_compat_r; [exact Hl | discriminate]. }
      assert (0 <= Binary64.half_subnormal)%Q by discriminate.
      Lqa.lra. }
  set (p := Binary64.pow2 (e - 52)) in *.
  assert (Hq' : (q == q / p * p)%Q).
  { field. intros H0. rewrite H0 in Hu. discriminate. }
  set (t := (q / p)%Q) in *.
  assert (Hk1 : ((t - (1 # 2)) * p <= k * p)%Q)
    by (apply Qmult_le_compat_r; [exact Hlo | by apply Qlt_le_weak]).
  assert (Hk2 : (k * p <= (t + (1 # 2)) * p)%Q)
    by (apply Qmult_le_compat_r; [exact Hhi | by apply Qlt_le_weak]).
  assert (E1 : ((t - (1 # 2)) * p == t * p - p * (1 # 2))%Q) by ring.
  assert (E2 : ((t + (1 # 2)) * p == t * p + p * (1 # 2))%Q) by ring.
  rewrite E1, <- Hq' in Hk1. rewrite E2, <- Hq' in Hk2.
  split; Lqa.lra.
Qed.

(** The two bounds as numerals: [2^-53], and [2^-60] above [2^-1075]. *)
Lemma round_within (q : Q) :
  (0 <= q)%Q ->
  (0 <= Binary64.round q)%Q
  /\ (q - (q * (1 # 9007199254740992) + (1 # 1152921504606846976))
      <= Binary64.round q
      <= q + (q * (1 # 9007199254740992) + (1 # 1152921504606846976)))%Q.
Proof.
  intros Hq. split; [by apply round_nonneg|].
  destruct (round_error q Hq) as [Hlo Hhi].
  change Binary64.unit_roundoff with (1 # 9007199254740992)%Q in Hlo, Hhi.
  assert (He : (Binary64.half_subnormal <= 1 # 1152921504606846976)%Q)
    by (vm_compute; discriminate).
  split; Lqa.lra.
Qed.

Lemma literal_7_10 : Binary64.literal (7 # 10) = (6305039478318694 # 9007199254740992)%Q.
Proof. vm_compute. reflexivity. Qed.

Lemma literal_3_10 : Binary64.literal (3 # 10) = (5404319552844595 # 18014398509481984)%Q.
Proof. vm_compute. reflexivity. Qed.

Lemma no_overflow_below_128 (x : Q) :
  (0 <= x)%Q -> (x <= 128)%Q -> Binary64.overflows x = false.
Proof.
  intros H0 H1. unfold Binary64.overflows. rewrite (Qabs_of_nonneg x H0).
  destruct (Qle_bool (Binary64.pow2 1024) x) eqn:E; [|reflexivity].
  apply Qle_bool_iff in E.
  assert (H : (128 < Binary64.pow2 1024)%Q) by (vm_compute; reflexivity).
  exfalso. Lqa.lra.
Qed.

Lemma trunc_nonneg (x : Q) : (0 <= x)%Q -> Binary64.trunc x = Qfloor x.
Proof.
  intros H. unfold Binary64.trunc.
  apply Qle_bool_iff in H. by rewrite H.
Qed.

Lemma Qfloor_lt_Z (x : Q) (n : Z) : (x < inject_Z n)%Q -> (Qfloor x < n)%Z.
Proof.
  intros H. rewrite Zlt_Qlt. eapply Qle_lt_trans; [apply Qfloor_le | exact H].
Qed.

(** The gap within which the computed sum stays of the exact one. *)
Definition fusion_gap : Q := 1 # 17592186044416.

(** C2, as the code has it.  The fusion is evaluated in double arithmetic.
    For a model score in [0,100] (any rational there, so every double) and
    an integer rule score in [0,100] it returns an integer in [0,100], a
    function of its two inputs; that integer is the floor of a sum that
    lies within [2^-44] of the exact [model_score * 0.7 + rule_score *
    0.3], so it is [floor(min(exact, 100))] whenever no integer lies
    within [2^-44] of the exact value, and one off at most otherwise. *)
Theorem fusion_in_double_arithmetic (model_score : Q) (rule_score : Z) :
  (0 <= model_score <= 100)%Q ->
  (0 <= rule_score <= 100)%Z ->
  let exact := (model_score * (7 # 10) + inject_Z rule_score * (3 # 10))%Q in
  exists final_score : Z,
    fuse model_score rule_score = Ok final_score
    /\ (0 <= final_score <= 100)%Z
    /\ (Qfloor (exact - fusion_gap) <= final_score <= Qfloor (exact + fusion_gap))%Z
    /\ (Qfloor (exact - fusion_gap) = Qfloor (exact + fusion_gap) ->
        final_score = Qfloor (Qmin exact 100))
    /\ (Qfloor (Qmin exact 100) - 1 <= final_score <= Qfloor (Qmin exact 100) + 1)%Z.
Proof.
  intros [Hm0 Hm1] [Hr0 Hr1] exact.
  rewrite Zle_Qle in Hr0, Hr1.
  set (r := inject_Z rule_score) in *.
  change (inject_Z 0) with 0%Q in Hr0. change (inject_Z 100) with 100%Q in Hr1.
  unfold fuse, Binary64.add, Binary64.mul. fold r.
  rewrite literal_7_10, literal_3_10.
  destruct (round_within r Hr0) as [Hf0 [Hf1 Hf2]].
  set (fr := Binary64.round r) in *.
  rewrite (no_overflow_below_128 fr Hf0) by Lqa.lra.
  set (a := (model_score * (6305039478318694 # 9007199254740992))%Q).
  assert (Ha : (0 <= a)%Q) by (unfold a; Lqa.lra).
  destruct (round_within a Ha) as [Hp0 [Hp1 Hp2]].
  set (p1 := Binary64.round a) in *.
  set (b := (fr * (5404319552844595 # 18014398509481984))%Q).
  assert (Hb : (0 <= b)%Q) by (unfold b; Lqa.lra).
  destruct (round_within b Hb) as [Hq0 [Hq1 Hq2]].
  set (p2 := Binary64.round b) in *.
  assert (Hs : (0 <= p1 + p2)%Q) by Lqa.lra.
  destruct (round_within (p1 + p2) Hs) as [Hs0 [Hs1 Hs2]].
  set (s := Binary64.round (p1 + p2)) in *.
  assert (Hlo : (exact - fusion_gap <= s)%Q)
    by (unfold exact, fusion_gap, a, b in *; Lqa.lra).
  assert (Hhi : (s <= exact + fusion_gap)%Q)
    by (unfold exact, fusion_gap, a, b in *; Lqa.lra).
  assert (Hex : (exact <= 100)%Q) by (unfold exact; Lqa.lra).
  rewrite (no_overflow_below_128 s Hs0) by (unfold fusion_gap in Hhi; Lqa.lra).
  rewrite (trunc_nonneg s Hs0).
  assert (H100 : (Qfloor s < 101)%Z).
  { apply Qfloor_lt_Z. change (inject_Z 101) with 101%Q.
    unfold fusion_gap in Hhi. Lqa.lra. }
  assert (H0 : (0 <= Qfloor s)%Z) by (apply (Qfloor_resp_le 0 s Hs0)).
  rewrite Z.min_l by lia.
  exists (Qfloor s). split; [reflexivity|]. split; [lia|].
  pose proof (Qfloor_resp_le _ _ Hlo) as Hl. pose proof (Qfloor_resp_le _ _ Hhi) as Hh.
  split; [lia|].
  assert (He : (Qmin exact 100 == exact)%Q) by (by apply Q.min_l).
  rewrite He.
  assert (Qfloor (exact - fusion_gap) <= Qfloor exact)%Z
    by (apply Qfloor_resp_le; unfold fusion_gap; Lqa.lra).
  assert (Qfloor exact <= Qfloor (exact + fusion_gap))%Z
    by (apply Qfloor_resp_le; unfold fusion_gap; Lqa.lra).
  split; [intros Heq; lia|].
  pose proof (Qfloor_le exact) as Hfl. pose proof (Qlt_floor exact) as Hfu.
  rewrite inject_Z_plus in Hfu. change (inject_Z 1) with 1%Q in Hfu.
  assert (Qfloor exact - 1 <= Qfloor (exact - fusion_gap))%Z.
  { rewrite <- (Qfloor_Z (Qfloor exact - 1)). apply Qfloor_resp_le.
    unfold Z.sub. rewrite inject_Z_plus. change (inject_Z (- (1))) with (-1 # 1)%Q.
    unfold fusion_gap. Lqa.lra. }
  assert (Qfloor (exact + fusion_gap) < Qfloor exact + 2)%Z.
  { apply Qfloor_lt_Z. rewrite inject_Z_plus. change (inject_Z 2) with 2%Q.
    unfold fusion_gap. Lqa.lra. }
  lia.
Qed.

Lemma fusion_in_double_arithmetic_witness :
  exists final_score : Z,
    fuse (171 # 2) 15 = Ok final_score
    /\ (0 <= final_score <= 100)%Z
    /\ (Qfloor ((171 # 2) * (7 # 10) + inject_Z 15 * (3 # 10) - fusion_gap) <= final_score
        <= Qfloor ((171 # 2) * (7 # 10) + inject_Z 15 * (3 # 10) + fusion_gap))%Z
    /\ (Qfloor ((171 # 2) * (7 # 10) + inject_Z 15 * (3 # 10) - fusion_gap)
        = Qfloor ((171 # 2) * (7 # 10) + inject_Z 15 * (3 # 10) + fusion_gap) ->
        final_score = Qfloor (Qmin ((171 # 2) * (7 # 10) + inject_Z 15 * (3 # 10)) 100))
    /\ (Qfloor (Qmin ((171 # 2) * (7 # 10) + inject_Z 15 * (3 # 10)) 100) - 1
        <= final_score
        <= Qfloor (Qmin ((171 # 2) * (7 # 10) + inject_Z 15 * (3 # 10)) 100) + 1)%Z.
Proof.
  apply (fusion_in_double_arithmetic (171 # 2) 15); [split; discriminate | lia].
Defined.

(** Above 100 the cap applies. *)
Example fusion_cap_applies : fuse 200 100 = Ok 100%Z /\ fuse 100 100 = Ok 100%Z.
Proof. split; vm_compute; reflexivity. Qed.

(** C2 fails as stated: at model score 90.0 and rule score 0 the formula
    gives floor(min(63, 100)) = 63, and the code returns 62, since the
    double nearest to 0.7 lies below 0.7 and 90.0 times it rounds to
    62.99999999999999; likewise 63 for 64 at (85.0, 15). *)
Lemma fusion_at_90_is_62 :
  fuse 90 0 = Ok 62%Z
  /\ Qfloor (Qmin (90 * (7 # 10) + inject_Z 0 * (3 # 10)) 100) = 63%Z
  /\ Binary64.mul 90 (Binary64.literal (7 # 10)) = (8866461766385663 # 140737488355328)%Q
  /\ fuse 85 15 = Ok 63%Z
  /\ Qfloor (Qmin (85 * (7 # 10) + inject_Z 15 * (3 # 10)) 100) = 64%Z.
Proof. repeat split; vm_compute; reflexivity. Qed.

(** *** The rational model against the kernel's binary64

    Rocq's primitive floats are IEEE 754 binary64.  On every integer model
    score in [0,100], with every rule score in [0,100] that is a multiple
    of five, the sum that [fuse] truncates is the double the primitive
    operations compute. *)

Module Binary64Check.
Import Floats.

Definition of_spec (x : spec_float) : option Q :=
  match x with
  | S754_zero _ => Some 0%Q
  | S754_finite s m e =>
      Some ((if s then -1 else 1) * inject_Z (Zpos m) * Binary64.pow2 e)%Q
  | _ => None
  end.

Definition primitive_sum (model_score rule_score : Z) : option Q :=
  of_spec (Prim2SF (of_uint63 (Uint63.of_Z model_score) * 0x1.6666666666666p-1
                    + of_uint63 (Uint63.of_Z rule_score) * 0x1.3333333333333p-2)%float).

Definition rational_sum (model_score rule_score : Z) : Q :=
  Binary64.add (Binary64.mul (inject_Z model_score) (Binary64.literal (7 # 10)))
               (Binary64.mul (Binary64.round (inject_Z rule_score))
                             (Binary64.literal (3 # 10))).

Definition agree (model_score rule_score : Z) : bool :=
  match primitive_sum model_score rule_score with
  | Some x => Qeq_bool x (rational_sum model_score rule_score)
  | None => false
  end.

Definition upto_100 : list Z := map Z.of_nat (seq 0 101).
Definition fives : list Z := map (fun n => 5 * Z.of_nat n)%Z (seq 0 21).

Example fusion_sum_is_the_primitive_sum :
  forallb (fun m => forallb (agree m) fives) upto_100 = true.
Proof. vm_compute. reflexivity. Qed.

End Binary64Check.

(** *** Weighted model *)

(** Two vectors that agree on every feature except [k0]. *)
Definition agree_except (k0 : string) (f g : features) : Prop :=
  forall k, k <> k0 -> f !! k = g !! k.

(** The weighted sum is monotone in a feature whose weights are not
    negative, and the number of matched weights does not depend on its
    value. *)
Lemma weight_loop_mono (k0 : string) (f g : features) (a b : Q) :
  agree_except k0 f g ->
  f !! k0 = Some a -> g !! k0 = Some b -> (a <= b)%Q ->
  forall (l : list (string * Q)) (accf accg : Q * Z),
    (forall w, In (k0, w) l -> (0 <= w)%Q) ->
    snd accf = snd accg -> (fst accf <= fst accg)%Q ->
    snd (fold_left (weight_step f) l accf) = snd (fold_left (weight_step g) l accg)
    /\ (fst (fold_left (weight_step f) l accf)
        <= fst (fold_left (weight_step g) l accg))%Q.
Proof.
  intros Hfg Ha Hb Hab.
  induction l as [|[k w] l IH]; intros accf accg Hw Hs Hle; simpl.
  - by split.
  - apply IH.
    + intros w' Hin. apply Hw. by right.
    + unfold weight_step; simpl.
      destruct (decide (k = k0)) as [->|Hne].
      * by rewrite Ha, Hb; simpl; rewrite Hs.
      * rewrite (Hfg k Hne). destruct (g !! k); simpl; by rewrite ?Hs.
    + unfold weight_step; simpl.
      destruct (decide (k = k0)) as [->|Hne].
      * rewrite Ha, Hb; simpl.
        apply Qplus_le_compat; [exact Hle|].
        apply Qmult_le_compat_r; [exact Hab|].
        apply Hw. by left.
      * rewrite (Hfg k Hne). destruct (g !! k); simpl; [|exact Hle].
        apply Qplus_le_compat; [exact Hle | apply Qle_refl].
Qed.

Lemma sigmoid_mono (x y : Q) : (x <= y)%Q -> (sigmoid x <= sigmoid y)%R.
Proof.
  intros Hxy. apply Qle_Rle in Hxy. unfold sigmoid.
  assert (Hex := exp_pos (- Q2R x)). assert (Hey := exp_pos (- Q2R y)).
  assert (He : (exp (- Q2R y) <= exp (- Q2R x))%R).
  { destruct (Req_dec (Q2R x) (Q2R y)) as [->|Hne]; [lra|].
    left. apply exp_increasing. lra. }
  unfold Rdiv. rewrite !Rmult_1_l.
  apply Rinv_le_contravar; lra.
Qed.

Lemma rep_score_weight_nonneg (w : Q) : In ("rep_score", w) feature_weights -> (0 <= w)%Q.
Proof.
  unfold feature_weights. simpl.
  intros H. repeat (destruct H as [H|H]; [inversion H; subst; try discriminate|]);
  try contradiction; discriminate.
Qed.

(** C4.  Two feature vectors that agree everywhere except on [rep_score]:
    the one with the larger [rep_score] gets a model score at least as
    large. *)
Theorem model_score_monotone_in_rep_score (f g : features) (a b : Q) :
  agree_except "rep_score" f g ->
  f !! "rep_score" = Some a ->
  g !! "rep_score" = Some b ->
  (a <= b)%Q ->
  (model_score (predict f) <= model_score (predict g))%R.
Proof.
  intros Hfg Ha Hb Hab.
  destruct (weight_loop_mono "rep_score" f g a b Hfg Ha Hb Hab
              feature_weights (0%Q, 0%Z) (0%Q, 0%Z)
              rep_score_weight_nonneg eq_refl (Qle_refl 0)) as [Hused Hraw].
  unfold predict; cbn [model_score].
  rewrite Hused.
  set (used := snd (fold_left (weight_step g) feature_weights (0%Q, 0%Z))) in *.
  destruct (0 <? used)%Z eqn:Hpos; [|lra].
  apply Rmult_le_compat_r; [lra|].
  apply sigmoid_mono.
  assert (Hd : (0 < Qmax (inject_Z used * (1 # 10)) 1)%Q).
  { apply Qlt_le_trans with 1%Q; [reflexivity | apply Q.le_max_r]. }
  unfold Qdiv. apply Qmult_le_compat_r; [exact Hraw|].
  apply Qlt_le_weak, Qinv_lt_0_compat, Hd.
Qed.

Lemma model_score_monotone_in_rep_score_witness :
  (model_score (predict (<["rep_score" := 15 # 100]> {[ "is_admin_action" := 1%Q ]}))
   <= model_score (predict (<["rep_score" := 90 # 100]> {[ "is_admin_action" := 1%Q ]})))%R.
Proof.
  apply (model_score_monotone_in_rep_score _ _ (15 # 100) (90 # 100)).
  - intros k Hk. by rewrite !lookup_insert_ne.
  - reflexivity.
  - reflexivity.
  - discriminate.
Defined.

(** *** Feature extraction *)

Lemma bind_Ok {A B} (m : outcome A) (k : A -> outcome B) (b : B) :
  m ≫= k = Ok b -> exists a, m = Ok a /\ k a = Ok b.
Proof. destruct m as [a|e]; simpl; [eauto | discriminate]. Qed.

(** What the extractor reads from its arguments before any arithmetic. *)
Record readings : Type := {
  r_asn : Q;
  r_country_code : pyval;
  r_rep_score : Q;
  r_ip_rep : pyval;
  r_criticality : Q;
  r_environment : pyval;
  r_action : string;
  r_resource_type : string;
  r_severity_hint : Q
}.

Definition read (float_of_str : string -> option Q) (event enrichments : dict)
  : outcome readings :=
  geo ← as_dict (dict_get enrichments "geo" (PDict ∅));
  asn ← float float_of_str (dict_get geo "asn" (PInt 0));
  threat_intel ← as_dict (dict_get enrichments "threat_intel" (PDict ∅));
  rep ← float float_of_str (dict_get threat_intel "rep_score" (PInt 50));
  asset_context ← as_dict (dict_get enrichments "asset_context" (PDict ∅));
  crit ← float float_of_str (dict_get asset_context "criticality" (PInt 1));
  action ← str_lower (dict_get event "action" (PStr ""));
  resource ← as_dict (dict_get event "resource" (PDict ∅));
  resource_type ← str_lower (dict_get resource "type" (PStr ""));
  sev ← float float_of_str (dict_get event "severity_hint" (PInt 1));
  Ok {| r_asn := asn;
        r_country_code := dict_get geo "country_code" (PStr "");
        r_rep_score := rep;
        r_ip_rep := dict_get threat_intel "ip_rep" PNone;
        r_criticality := crit;
        r_environment := dict_get asset_context "environment" PNone;
        r_action := action;
        r_resource_type := resource_type;
        r_severity_hint := sev |}.

(** The feature vector in terms of the readings and the clock. *)
Definition vector (asn hrc rep mal sus crit prod hod dow wkd bh login failed admin
                   cres sev : Q) : features :=
  <["severity_hint" := sev]>
  (<["is_critical_resource" := cres]>
  (<["is_admin_action" := admin]>
  (<["is_failed_action" := failed]>
  (<["is_login_action" := login]>
  (<["is_business_hours" := bh]>
  (<["is_weekend" := wkd]>
  (<["day_of_week" := dow]>
  (<["hour_of_day" := hod]>
  (<["is_prod_environment" := prod]>
  (<["asset_criticality" := crit]>
  (<["is_suspicious" := sus]>
  (<["is_malicious" := mal]>
  (<["rep_score" := rep]>
  (<["is_high_risk_country" := hrc]>
  (<["asn" := asn]> ∅))))))))))))))).

Definition features_of (i : readings) (now : datetime) : features :=
  vector
    (r_asn i)
    (indicator (in_strs (r_country_code i) high_risk_countries))
    (r_rep_score i / 100)%Q
    (indicator (eq_str (r_ip_rep i) "malicious"))
    (indicator (eq_str (r_ip_rep i) "suspicious"))
    (r_criticality i / 5)%Q
    (indicator (eq_str (r_environment i) "prod"))
    (inject_Z (hour now) / 24)%Q
    (inject_Z (weekday now) / 7)%Q
    (indicator (5 <=? weekday now)%Z)
    (indicator ((9 <=? hour now)%Z && (hour now <=? 17)%Z))
    (indicator (contains "login" (r_action i)))
    (indicator (contains "failed" (r_action i) || contains "fail" (r_action i)))
    (indicator (contains "admin" (r_action i) || contains "root" (r_action i)))
    (indicator (existsb (String.eqb (r_resource_type i)) critical_resources))
    (r_severity_hint i / 5)%Q.

Lemma extract_features_try_read fos event enrichments now :
  extract_features_try fos event enrichments now
  = (i ← read fos event enrichments; Ok (features_of i now)).
Proof.
  unfold extract_features_try, read.
  repeat (match goal with
          | |- ?m ≫= _ = (?m ≫= _) ≫= _ =>
              destruct m; cbn [mbind outcome_bind bind]; [|reflexivity]
          end).
  reflexivity.
Qed.

(** Extraction either reads everything and builds the full vector, or
    degrades to the empty one. *)
Lemma extract_features_cases fos event enrichments now :
  (exists i, read fos event enrichments = Ok i
             /\ extract_features fos event enrichments now = features_of i now)
  \/ ((exists e, read fos event enrichments = Raise e)
      /\ extract_features fos event enrichments now = ∅).
Proof.
  unfold extract_features. rewrite extract_features_try_read.
  destruct (read fos event enrichments) as [i|e]; simpl; eauto.
Qed.

Definition ratio_features : list string :=
  ["rep_score"; "asset_criticality"; "severity_hint"; "hour_of_day"; "day_of_week"].

Definition indicator_features : list string :=
  ["is_high_risk_country"; "is_malicious"; "is_suspicious"; "is_prod_environment";
   "is_weekend"; "is_business_hours"; "is_login_action"; "is_failed_action";
   "is_admin_action"; "is_critical_resource"].

Lemma indicator_01 (b : bool) : indicator b = 0%Q \/ indicator b = 1%Q.
Proof. destruct b; simpl; auto. Qed.

Lemma vector_lookup asn hrc rep mal sus crit prod hod dow wkd bh login failed admin cres sev :
  let f := vector asn hrc rep mal sus crit prod hod dow wkd bh login failed admin cres sev in
  f !! "asn" = Some asn
  /\ f !! "is_high_risk_country" = Some hrc
  /\ f !! "rep_score" = Some rep
  /\ f !! "is_malicious" = Some mal
  /\ f !! "is_suspicious" = Some sus
  /\ f !! "asset_criticality" = Some crit
  /\ f !! "is_prod_environment" = Some prod
  /\ f !! "hour_of_day" = Some hod
  /\ f !! "day_of_week" = Some dow
  /\ f !! "is_weekend" = Some wkd
  /\ f !! "is_business_hours" = Some bh
  /\ f !! "is_login_action" = Some login
  /\ f !! "is_failed_action" = Some failed
  /\ f !! "is_admin_action" = Some admin
  /\ f !! "is_critical_resource" = Some cres
  /\ f !! "severity_hint" = Some sev.
Proof. repeat split; vm_compute; reflexivity. Qed.

Lemma vector_size asn hrc rep mal sus crit prod hod dow wkd bh login failed admin cres sev :
  size (vector asn hrc rep mal sus crit prod hod dow wkd bh login failed admin cres sev)
  = 16%nat.
Proof. vm_compute. reflexivity. Qed.

(** The three enrichment and event values that feed ratio features, as the
    extractor converts them: [float(threat_intel.get('rep_score', 50))],
    [float(asset_context.get('criticality', 1))] and
    [float(event.get('severity_hint', 1))]. *)
Definition reputation_score (fos : string -> option Q) (enrichments : dict) : outcome Q :=
  threat_intel ← as_dict (dict_get enrichments "threat_intel" (PDict ∅));
  float fos (dict_get threat_intel "rep_score" (PInt 50)).

Definition criticality (fos : string -> option Q) (enrichments : dict) : outcome Q :=
  asset_context ← as_dict (dict_get enrichments "asset_context" (PDict ∅));
  float fos (dict_get asset_context "criticality" (PInt 1)).

Definition severity (fos : string -> option Q) (event : dict) : outcome Q :=
  float fos (dict_get event "severity_hint" (PInt 1)).

Lemma read_values fos event enrichments i :
  read fos event enrichments = Ok i ->
  reputation_score fos enrichments = Ok (r_rep_score i)
  /\ criticality fos enrichments = Ok (r_criticality i)
  /\ severity fos event = Ok (r_severity_hint i).
Proof.
  unfold read, reputation_score, criticality, severity. intros H.
  repeat (apply bind_Ok in H as (? & ? & H)).
  injection H as <-; cbn [r_rep_score r_criticality r_severity_hint].
  repeat match goal with E : _ = Ok _ |- _ => rewrite E; clear E end.
  auto.
Qed.

Lemma features_of_lookup i now :
  let f := features_of i now in
  f !! "asn" = Some (r_asn i)
  /\ f !! "is_high_risk_country"
     = Some (indicator (in_strs (r_country_code i) high_risk_countries))
  /\ f !! "rep_score" = Some (r_rep_score i / 100)%Q
  /\ f !! "is_malicious" = Some (indicator (eq_str (r_ip_rep i) "malicious"))
  /\ f !! "is_suspicious" = Some (indicator (eq_str (r_ip_rep i) "suspicious"))
  /\ f !! "asset_criticality" = Some (r_criticality i / 5)%Q
  /\ f !! "is_prod_environment" = Some (indicator (eq_str (r_environment i) "prod"))
  /\ f !! "hour_of_day" = Some (inject_Z (hour now) / 24)%Q
  /\ f !! "day_of_week" = Some (inject_Z (weekday now) / 7)%Q
  /\ f !! "is_weekend" = Some (indicator (5 <=? weekday now)%Z)
  /\ f !! "is_business_hours"
     = Some (indicator ((9 <=? hour now)%Z && (hour now <=? 17)%Z))
  /\ f !! "is_login_action" = Some (indicator (contains "login" (r_action i)))
  /\ f !! "is_failed_action"
     = Some (indicator (contains "failed" (r_action i) || contains "fail" (r_action i)))
  /\ f !! "is_admin_action"
     = Some (indicator (contains "admin" (r_action i) || contains "root" (r_action i)))
  /\ f !! "is_critical_resource"
     = Some (indicator (existsb (String.eqb (r_resource_type i)) critical_resources))
  /\ f !! "severity_hint" = Some (r_severity_hint i / 5)%Q.
Proof. intros f. subst f. unfold features_of. exact (vector_lookup _ _ _ _ _ _ _ _ _ _ _ _ _ _ _ _). Qed.

Lemma ratio_in_unit (q d : Q) :
  (0 < d)%Q -> (0 <= q <= d)%Q -> (0 <= q / d <= 1)%Q.
Proof.
  intros Hd [H0 H1]. split.
  - apply Qle_shift_div_l; [exact Hd|]. by rewrite Qmult_0_l.
  - apply Qle_shift_div_r; [exact Hd|]. by rewrite Qmult_1_l.
Qed.

Lemma inject_Z_between (z lo hi : Z) :
  (lo <= z <= hi)%Z -> (inject_Z lo <= inject_Z z <= inject_Z hi)%Q.
Proof. intros [? ?]. split; by rewrite <- Zle_Qle. Qed.

Definition time_features : list string := ["hour_of_day"; "day_of_week"].

(** C3, as the code has it.  The extractor divides by the top of the
    declared range and does not clamp.  Unless extraction degrades to the
    empty vector: every indicator feature is exactly 0.0 or 1.0, on every
    input; [hour_of_day] and [day_of_week] lie in [0,1] at every clock
    reading; [rep_score], [asset_criticality] and [severity_hint] are the
    value they are computed from over 100, 5 and 5, whatever that value is,
    and so lie in [0,1] when it lies in its declared range. *)
Theorem features_normalised_on_declared_ranges
    (fos : string -> option Q) (event enrichments : dict) (now : datetime) :
  let f := extract_features fos event enrichments now in
  (forall k, k ∈ indicator_features ->
     f = ∅ \/ f !! k = Some 0%Q \/ f !! k = Some 1%Q)
  /\ (wf_datetime now ->
      forall k, k ∈ time_features ->
        f = ∅ \/ exists v, f !! k = Some v /\ (0 <= v <= 1)%Q)
  /\ (forall q, reputation_score fos enrichments = Ok q ->
        f = ∅ \/ (f !! "rep_score" = Some (q / 100)%Q
                  /\ ((0 <= q <= 100)%Q -> (0 <= q / 100 <= 1)%Q)))
  /\ (forall q, criticality fos enrichments = Ok q ->
        f = ∅ \/ (f !! "asset_criticality" = Some (q / 5)%Q
                  /\ ((0 <= q <= 5)%Q -> (0 <= q / 5 <= 1)%Q)))
  /\ (forall q, severity fos event = Ok q ->
        f = ∅ \/ (f !! "severity_hint" = Some (q / 5)%Q
                  /\ ((0 <= q <= 5)%Q -> (0 <= q / 5 <= 1)%Q))).
Proof.
  cbv zeta.
  destruct (extract_features_cases fos event enrichments now)
    as [(i & Hi & Hf) | [_ Hf]]; rewrite Hf;
    [|repeat split; intros; by left].
  destruct (read_values _ _ _ _ Hi) as (Hr & Hc & Hs).
  pose proof (features_of_lookup i now) as L. cbv zeta in L.
  destruct L as (La & L1 & L2 & L3 & L4 & L5 & L6 & L7 & L8 & L9 & L10 & L11
                 & L12 & L13 & L14 & L15).
  split; [|split; [|split; [|split]]].
  - intros k Hin. right. unfold indicator_features in Hin.
    repeat (apply elem_of_cons in Hin as [->|Hin]);
      try (by apply elem_of_nil in Hin);
      match goal with
      | E : ?f !! ?key = Some (indicator ?b) |- ?f !! ?key = _ \/ _ =>
          rewrite E; destruct b; auto
      end.
  - intros [Hh Hd] k Hin. right. unfold time_features in Hin.
    repeat (apply elem_of_cons in Hin as [->|Hin]); try (by apply elem_of_nil in Hin).
    + eexists. split; [exact L7|]. apply ratio_in_unit; [reflexivity|].
      destruct (inject_Z_between (hour now) 0 23 Hh) as [H0 H1].
      split; [exact H0|]. eapply Qle_trans; [exact H1 | discriminate].
    + eexists. split; [exact L8|]. apply ratio_in_unit; [reflexivity|].
      destruct (inject_Z_between (weekday now) 0 6 Hd) as [H0 H1].
      split; [exact H0|]. eapply Qle_trans; [exact H1 | discriminate].
  - intros q Hq. rewrite Hr in Hq. injection Hq as <-. right.
    split; [exact L2|]. by apply ratio_in_unit.
  - intros q Hq. rewrite Hc in Hq. injection Hq as <-. right.
    split; [exact L5|]. by apply ratio_in_unit.
  - intros q Hq. rewrite Hs in Hq. injection Hq as <-. right.
    split; [exact L15|]. by apply ratio_in_unit.
Qed.

(** Concrete inputs used below.  None of them holds a number as text, so
    the float parser plays no part in them. *)
Definition no_text (_ : string) : option Q := None.

Definition at_clock (h d : Z) : datetime :=
  {| hour := h; weekday := d; isoformat := "" |}.

Definition oversized_event : dict := {[ "severity_hint" := PInt 7 ]}.

Definition oversized_enrichments : dict :=
  <["threat_intel" := PDict {[ "rep_score" := PInt 150 ]}]>
  {[ "asset_context" := PDict {[ "criticality" := PInt 9 ]} ]}.

(** C3 fails as stated: a reputation score of 150, a criticality of 9 and a
    severity hint of 7 give the ratio features 1.5, 1.8 and 1.4. *)
Lemma ratio_features_not_clamped :
  let f := extract_features no_text oversized_event oversized_enrichments (at_clock 12 2) in
  (exists v, "rep_score" ∈ ratio_features /\ f !! "rep_score" = Some v /\ (1 < v)%Q)
  /\ (exists v, "asset_criticality" ∈ ratio_features
                /\ f !! "asset_criticality" = Some v /\ (1 < v)%Q)
  /\ (exists v, "severity_hint" ∈ ratio_features
                /\ f !! "severity_hint" = Some v /\ (1 < v)%Q).
Proof.
  cbv zeta. unfold ratio_features.
  repeat split; eexists; (split; [set_solver|]);
    (split; [vm_compute; reflexivity | reflexivity]).
Qed.

Definition in_range_enrichments : dict :=
  {[ "threat_intel" := PDict {[ "rep_score" := PInt 90 ]} ]}.

Lemma features_normalised_on_declared_ranges_witness :
  (let f := extract_features no_text oversized_event oversized_enrichments (at_clock 12 2) in
   (f !! "is_malicious" = Some 0%Q \/ f !! "is_malicious" = Some 1%Q)
   /\ exists v, f !! "hour_of_day" = Some v /\ (0 <= v <= 1)%Q)
  /\ (let f := extract_features no_text ∅ in_range_enrichments (at_clock 12 2) in
      exists v, f !! "rep_score" = Some v /\ (0 <= v <= 1)%Q).
Proof.
  split.
  - destruct (features_normalised_on_declared_ranges no_text oversized_event
                oversized_enrichments (at_clock 12 2)) as (Hind & Htime & _).
    cbv zeta. split.
    + destruct (Hind "is_malicious") as [H|H].
      * unfold indicator_features. set_solver.
      * apply (f_equal (fun m : features => m !! "asn")) in H.
        vm_compute in H. discriminate H.
      * exact H.
    + destruct (Htime) with (k := "hour_of_day") as [H|H].
      * unfold wf_datetime. simpl. lia.
      * unfold time_features. set_solver.
      * apply (f_equal (fun m : features => m !! "asn")) in H.
        vm_compute in H. discriminate H.
      * exact H.
  - destruct (features_normalised_on_declared_ranges no_text ∅ in_range_enrichments
                (at_clock 12 2)) as (_ & _ & Hrep & _).
    cbv zeta. destruct (Hrep (inject_Z 90)) as [H|[H1 H2]].
    + vm_compute. reflexivity.
    + apply (f_equal (fun m : features => m !! "asn")) in H.
      vm_compute in H. discriminate H.
    + eexists. split; [exact H1|]. apply H2. split; discriminate.
Defined.

(** *** Degraded extraction *)

Lemma weights_on_empty :
  fold_left (weight_step ∅) feature_weights (0%Q, 0%Z) = (0%Q, 0%Z).
Proof. reflexivity. Qed.

Lemma rules_on_empty :
  calculate_rule_score ∅
  = {| rule_score := 0; triggered_rules := []; total_rules_checked := 7 |}.
Proof. reflexivity. Qed.

Lemma int_of_IZR (n : Z) (x : R) : (0 <= n)%Z -> x = IZR n -> int x = n.
Proof.
  intros Hn ->. rewrite int_nonneg by (by apply IZR_le in Hn).
  symmetry. apply Int_part_spec. lra.
Qed.

(** C6, as the code has it.  When extraction degrades to the empty vector
    the scorer still returns a result: no rule triggers, the model score is
    the neutral 50, the final score is 35, and the confidence is 0.3, the
    floor of the completeness formula, not 0.1. *)
Theorem degraded_extraction_scores_neutral
    (fos : string -> option Q) (event enrichments : dict) (now : datetime) :
  extract_features fos event enrichments now = ∅ ->
  let r := score_event fos event enrichments now in
  s_model_score r = 50%R
  /\ (s_confidence r == 3 # 10)%Q
  /\ s_rule_score r = 0%Z
  /\ s_triggered_rules r = []
  /\ final_score r = 35%Z.
Proof.
  intros H. cbv zeta. unfold score_event. rewrite H.
  cbn [s_model_score s_confidence s_rule_score s_triggered_rules final_score].
  rewrite rules_on_empty. cbn [rule_score triggered_rules map].
  assert (Hm : model_score (predict ∅) = 50%R).
  { unfold predict. rewrite weights_on_empty. cbn. lra. }
  rewrite Hm.
  repeat split.
  unfold fuse_exact. rewrite (int_of_IZR 35); [reflexivity | lia | lra].
Qed.

(** The fusion of the neutral scores is 35 in double arithmetic as well. *)
Example neutral_fusion_in_doubles : fuse 50 0 = Ok 35%Z.
Proof. vm_compute. reflexivity. Qed.

Definition malformed_event : dict := {[ "action" := PNone ]}.

Lemma degraded_extraction_scores_neutral_witness :
  let r := score_event no_text malformed_event ∅ (at_clock 12 2) in
  s_model_score r = 50%R
  /\ (s_confidence r == 3 # 10)%Q
  /\ s_rule_score r = 0%Z
  /\ s_triggered_rules r = []
  /\ final_score r = 35%Z.
Proof.
  apply (degraded_extraction_scores_neutral no_text malformed_event ∅ (at_clock 12 2)).
  vm_compute. reflexivity.
Defined.

(** C6 fails as stated: extraction degrades on an event whose action is
    null, and the confidence of the result is 0.3, not 0.1. *)
Lemma degraded_confidence_is_not_a_tenth :
  extract_features no_text malformed_event ∅ (at_clock 12 2) = ∅
  /\ (s_confidence (score_event no_text malformed_event ∅ (at_clock 12 2)) == 3 # 10)%Q
  /\ (1 # 10 < s_confidence (score_event no_text malformed_event ∅ (at_clock 12 2)))%Q.
Proof. repeat split; vm_compute; reflexivity. Qed.

(** *** Geo fallback and the high-risk set *)








Lemma dict_get_insert_eq (d : dict) (k : string) (v x : pyval) :
  dict_get (<[k := v]> d) k x = v.
Proof. unfold dict_get. by rewrite lookup_insert_eq. Qed.

Lemma dict_get_insert_ne (d : dict) (k k' : string) (v x : pyval) :
  k <> k' -> dict_get (<[k := v]> d) k' x = dict_get d k' x.
Proof. intros H. unfold dict_get. by rewrite lookup_insert_ne. Qed.



Lemma extract_features_read fos event enrichments now :
  extract_features fos event enrichments now
  = catch (i ← read fos event enrichments; Ok (features_of i now)) (fun _ => ∅).
Proof. unfold extract_features. by rewrite extract_features_try_read. Qed.








(** The default event with nothing but the geo fallback is one on which
    the extractor does not degrade. *)
Example geo_fallback_default_event :
  extract_features no_text ∅ {[ "geo" := PDict (Enricher.geo_fallback (TypeError "int")) ]}
    (at_clock 12 2) !! "is_high_risk_country" = Some 1%Q.
Proof. vm_compute. reflexivity. Qed.

(** *** Enrichment orchestrator *)

Import Enricher.

Lemma to_dict_actor (r : EventRequest) :
  dict_get (to_dict r) "actor" (PDict ∅) = PDict (actor r).
Proof.
  unfold to_dict.
  by rewrite !dict_get_insert_ne, dict_get_insert_eq by discriminate.
Qed.

Lemma to_dict_resource (r : EventRequest) :
  dict_get (to_dict r) "resource" (PDict ∅) = PDict (resource r).
Proof.
  unfold to_dict.
  by rewrite !dict_get_insert_ne, dict_get_insert_eq by discriminate.
Qed.

Lemma to_dict_no_error (r : EventRequest) (k : string) :
  k = "enrichment_error" \/ k = "enrichments" \/ k = "status" ->
  to_dict r !! k = None.
Proof.
  unfold to_dict.
  intros [->|[->| ->]]; by rewrite !lookup_insert_ne, lookup_empty by discriminate.
Qed.

(** The sub-bundles the orchestrator gathers for a well-typed request. *)
Definition gathered (self : EventEnricher) (r : EventRequest) : dict :=
  let ip := dict_get (actor r) "ip" PNone in
  let id := dict_get (resource r) "id" PNone in
  let type := dict_get (resource r) "type" PNone in
  let with_ip : dict :=
    if truthy ip
    then <["geo" := PDict (geo_service self ip)]>
         (<["threat_intel" := PDict (threat_intel_service self ip)]> ∅)
    else ∅ in
  if truthy id && truthy type
  then <["asset_context" := PDict (asset_service self id type)]> with_ip
  else with_ip.

Lemma enrichments_try_gathered (self : EventEnricher) (r : EventRequest) :
  enrichments_try self (to_dict r) = Ok (gathered self r).
Proof.
  unfold enrichments_try. rewrite to_dict_actor, to_dict_resource.
  reflexivity.
Qed.

Lemma gathered_lookup (self : EventEnricher) (r : EventRequest) :
  let ip := dict_get (actor r) "ip" PNone in
  let id := dict_get (resource r) "id" PNone in
  let type := dict_get (resource r) "type" PNone in
  gathered self r !! "threat_intel"
  = (if truthy ip then Some (PDict (threat_intel_service self ip)) else None)
  /\ gathered self r !! "geo"
     = (if truthy ip then Some (PDict (geo_service self ip)) else None)
  /\ gathered self r !! "asset_context"
     = (if truthy id && truthy type
        then Some (PDict (asset_service self id type)) else None).
Proof.
  cbv zeta. unfold gathered.
  destruct (truthy (dict_get (actor r) "ip" PNone));
    destruct (truthy (dict_get (resource r) "id" PNone)
              && truthy (dict_get (resource r) "type" PNone));
    repeat split;
    repeat first [ rewrite lookup_insert_eq | rewrite lookup_insert_ne by discriminate ];
    try reflexivity; apply lookup_empty.
Qed.

Lemma truthy_str (s : string) : truthy (PStr s) = true <-> s <> "".
Proof.
  simpl. destruct (String.eqb_spec s ""); simpl; split; intros; congruence.
Qed.

(** A lookup does fail on input the services can receive: an [actor.ip]
    or a [resource.id] that is a non-zero number is truthy and is no str. *)
Example lookups_fail_on_numbers (now : datetime) (hash : string -> Z) :
  lookup_ip_reputation_try now (PInt 5) = Raise (AttributeError "int" "startswith")
  /\ lookup_ip_location_try hash (PInt 5) = Raise (AttributeError "int" "startswith")
  /\ get_asset_context_try (PInt 5) (PStr "database") = Raise (TypeError "int").
Proof. repeat split. Qed.

(** *** Normalisation *)

Import Ingest.

(** The value a normalised event holds under [k], if the raw event was
    accepted and normalised. *)
Definition normalized_field (k : string) (r : ingested) : option pyval :=
  match r with
  | Normalized event => event !! k
  | _ => None
  end.

Lemma first_missing_None (fields : list string) (event_data : dict) :
  first_missing fields event_data = None ->
  forall k, In k fields -> is_Some (event_data !! k).
Proof.
  induction fields as [|x fields IH]; simpl; [tauto|].
  case_bool_decide as Hx; [|discriminate].
  intros H k [<-|Hk]; auto.
Qed.

Lemma validate_accepts (event_data : dict) :
  fst (validate_event_schema event_data) = true ->
  forall k, In k required_fields -> is_Some (event_data !! k).
Proof.
  unfold validate_event_schema.
  destruct (first_missing required_fields event_data) eqn:E; [discriminate|].
  intros _. by apply first_missing_None.
Qed.

Lemma normalize_event_fields raw_event source_ip fresh_uuid now event :
  normalize_event raw_event source_ip fresh_uuid now = Ok event ->
  event !! "event_id" = Some (dict_get raw_event "event_id" (PStr fresh_uuid))
  /\ event !! "source" = Some (dict_get raw_event "source" PNone)
  /\ event !! "action" = Some (dict_get raw_event "action" PNone)
  /\ event !! "severity_hint" = Some (dict_get raw_event "severity_hint" (PInt 1))
  /\ event !! "schema_ver" = Some (PStr "1.0").
Proof.
  unfold normalize_event. intros H.
  repeat (apply bind_Ok in H as (? & ? & H)).
  injection H as <-.
  repeat split;
    by repeat first [ rewrite lookup_insert_eq | rewrite lookup_insert_ne by discriminate ].
Qed.

Lemma ingest_Normalized raw_event source_ip fresh_uuid now event :
  ingest raw_event source_ip fresh_uuid now = Normalized event ->
  fst (validate_event_schema raw_event) = true
  /\ normalize_event raw_event source_ip fresh_uuid now = Ok event.
Proof.
  unfold ingest.
  destruct (validate_event_schema raw_event) as [[|] msg]; [|discriminate].
  destruct (normalize_event raw_event source_ip fresh_uuid now); [|discriminate].
  intros [= ->]. by split.
Qed.

(** C7, as the code has it.  Validation tests that the four required keys
    are present, not what they hold, and normalisation copies values: a
    normalised event carries the raw [source] and [action] values
    unchanged, the raw [event_id] when that key is present and the
    generated identifier otherwise, and the raw [severity_hint] unchanged
    (1 when absent). *)
Theorem normalized_event_copies_raw_values
    (raw_event : dict) (source_ip : pyval) (fresh_uuid : string) (now : datetime)
    (event : dict) :
  ingest raw_event source_ip fresh_uuid now = Normalized event ->
  (exists v, raw_event !! "source" = Some v /\ event !! "source" = Some v)
  /\ (exists v, raw_event !! "action" = Some v /\ event !! "action" = Some v)
  /\ event !! "event_id" = Some (dict_get raw_event "event_id" (PStr fresh_uuid))
  /\ event !! "severity_hint" = Some (dict_get raw_event "severity_hint" (PInt 1)).
Proof.
  intros H. apply ingest_Normalized in H as [Hv Hn].
  pose proof (validate_accepts raw_event Hv) as Hreq.
  destruct (normalize_event_fields _ _ _ _ _ Hn) as (Hid & Hsrc & Hact & Hsev & _).
  destruct (Hreq "source") as [s Hs]; [simpl; tauto|].
  destruct (Hreq "action") as [a Ha]; [simpl; tauto|].
  unfold dict_get in Hsrc, Hact. rewrite Hs in Hsrc. rewrite Ha in Hact.
  split; [by exists s|]. split; [by exists a|]. by split.
Qed.

(** Scenario A of the specification. *)
Definition scenario_A_raw : dict :=
  <["source" := PStr "cloudtrail"]>
  (<["actor" := PDict (<["id" := PStr "admin@x"]> {[ "ip" := PStr "203.0.113.1" ]})]>
  (<["action" := PStr "AdminLoginFailed"]>
  (<["resource" := PDict (<["type" := PStr "database"]> {[ "id" := PStr "prod-db" ]})]>
  {[ "severity_hint" := PInt 5 ]}))).

Definition sample_uuid : string := "3f2b8c1e-0d4a-4e6b-9a57-2d1f0c8e4b7a".

Definition scenario_A_normalized : dict :=
  <["event_id" := PStr sample_uuid]>
  (<["received_at" := PStr ""]>
  (<["payload" := PDict ∅]>
  (<["schema_ver" := PStr "1.0"]> scenario_A_raw))).

Lemma scenario_A_ingest :
  ingest scenario_A_raw PNone sample_uuid (at_clock 12 2) = Normalized scenario_A_normalized.
Proof. vm_compute. reflexivity. Qed.

Lemma normalized_event_copies_raw_values_witness :
  (exists v, scenario_A_raw !! "source" = Some v
             /\ scenario_A_normalized !! "source" = Some v)
  /\ (exists v, scenario_A_raw !! "action" = Some v
                /\ scenario_A_normalized !! "action" = Some v)
  /\ scenario_A_normalized !! "event_id"
     = Some (dict_get scenario_A_raw "event_id" (PStr sample_uuid))
  /\ scenario_A_normalized !! "severity_hint"
     = Some (dict_get scenario_A_raw "severity_hint" (PInt 1)).
Proof.
  apply (normalized_event_copies_raw_values scenario_A_raw PNone sample_uuid (at_clock 12 2)).
  vm_compute. reflexivity.
Defined.

Definition hollow_raw : dict :=
  <["event_id" := PStr ""]>
  (<["source" := PStr ""]>
  (<["actor" := PDict ∅]>
  (<["action" := PNone]>
  (<["resource" := PDict ∅]>
  {[ "severity_hint" := PInt 9 ]})))).

(** C7 fails as stated: a raw event whose required keys hold empty or null
    values, with an empty [event_id] and a severity hint of 9, is accepted
    and normalised with exactly those values. *)
Lemma hollow_event_is_normalized :
  let r := ingest hollow_raw PNone sample_uuid (at_clock 12 2) in
  normalized_field "event_id" r = Some (PStr "")
  /\ normalized_field "source" r = Some (PStr "")
  /\ normalized_field "action" r = Some PNone
  /\ normalized_field "severity_hint" r = Some (PInt 9).
Proof. repeat split; vm_compute; reflexivity. Qed.

(** C8, as the code has it.  [raw_event.get('event_id', fresh)] keeps the
    raw value whenever the key is present, whatever it holds, and takes the
    generated identifier only when the key is absent. *)
Theorem event_id_raw_iff_present
    (raw_event : dict) (source_ip : pyval) (fresh_uuid : string) (now : datetime)
    (event : dict) :
  normalize_event raw_event source_ip fresh_uuid now = Ok event ->
  (forall v, raw_event !! "event_id" = Some v -> event !! "event_id" = Some v)
  /\ (raw_event !! "event_id" = None -> event !! "event_id" = Some (PStr fresh_uuid)).
Proof.
  intros H. destruct (normalize_event_fields _ _ _ _ _ H) as (Hid & _).
  unfold dict_get in Hid.
  split; [intros v Hv | intros Hv]; by rewrite Hv in Hid.
Qed.

Lemma event_id_raw_iff_present_witness :
  (forall v, scenario_A_raw !! "event_id" = Some v ->
             scenario_A_normalized !! "event_id" = Some v)
  /\ (scenario_A_raw !! "event_id" = None ->
      scenario_A_normalized !! "event_id" = Some (PStr sample_uuid)).
Proof.
  apply (event_id_raw_iff_present scenario_A_raw PNone sample_uuid (at_clock 12 2)).
  vm_compute. reflexivity.
Defined.

(** C8 fails as stated: an [event_id] that is present and empty is kept,
    and no identifier is generated in its place. *)
Lemma empty_event_id_is_kept :
  let r := ingest (<["event_id" := PStr ""]> scenario_A_raw) PNone sample_uuid
             (at_clock 12 2) in
  normalized_field "event_id" r = Some (PStr "")
  /\ normalized_field "event_id" r <> Some (PStr sample_uuid).
Proof. split; [vm_compute; reflexivity | vm_compute; discriminate]. Qed.

(** *** Enrichment of normalised events *)

(** The sub-bundles [enrich_event] gathers on an event whose [actor] and
    [resource] are the mappings [actor] and [resource]. *)
Definition sub_bundles (self : EventEnricher) (actor resource : dict) : dict :=
  let ip := dict_get actor "ip" PNone in
  let id := dict_get resource "id" PNone in
  let type := dict_get resource "type" PNone in
  let with_ip : dict :=
    if truthy ip
    then <["geo" := PDict (geo_service self ip)]>
         (<["threat_intel" := PDict (threat_intel_service self ip)]> ∅)
    else ∅ in
  if truthy id && truthy type
  then <["asset_context" := PDict (asset_service self id type)]> with_ip
  else with_ip.

Lemma enrichments_try_cases (self : EventEnricher) (event : dict) :
  enrichments_try self event
  = match as_dict (dict_get event "actor" (PDict ∅)) with
    | Raise e => Raise e
    | Ok actor =>
        match as_dict (dict_get event "resource" (PDict ∅)) with
        | Raise e => Raise e
        | Ok resource => Ok (sub_bundles self actor resource)
        end
    end.
Proof.
  unfold enrichments_try.
  destruct (as_dict (dict_get event "actor" (PDict ∅))) as [actor|e];
    cbn [mbind outcome_bind bind]; [|reflexivity].
  destruct (as_dict (dict_get event "resource" (PDict ∅))) as [resource|e];
    cbn [mbind outcome_bind bind]; reflexivity.
Qed.

Lemma sub_bundles_lookup (self : EventEnricher) (actor resource : dict) :
  let ip := dict_get actor "ip" PNone in
  let id := dict_get resource "id" PNone in
  let type := dict_get resource "type" PNone in
  sub_bundles self actor resource !! "threat_intel"
  = (if truthy ip then Some (PDict (threat_intel_service self ip)) else None)
  /\ sub_bundles self actor resource !! "geo"
     = (if truthy ip then Some (PDict (geo_service self ip)) else None)
  /\ sub_bundles self actor resource !! "asset_context"
     = (if truthy id && truthy type
        then Some (PDict (asset_service self id type)) else None).
Proof.
  cbv zeta. unfold sub_bundles.
  destruct (truthy (dict_get actor "ip" PNone));
    destruct (truthy (dict_get resource "id" PNone)
              && truthy (dict_get resource "type" PNone));
    repeat split;
    repeat first [ rewrite lookup_insert_eq | rewrite lookup_insert_ne by discriminate ];
    try reflexivity; apply lookup_empty.
Qed.

(** C9, as the code has it.  [enrich_event] of the orchestrator the
    service builds never raises, on any event.  When [actor] and
    [resource] are mappings (an absent one counts as empty) the event comes
    back enriched: the threat-intel and geo sub-bundles are there iff
    [actor.ip] is truthy, the asset sub-bundle iff [resource.id] and
    [resource.type] both are, a skipped lookup leaves no key, and a lookup
    whose body raises contributes its fallback bundle (unknown, 50, no
    feeds; XX, 0, unknown; unknown, 1, unknown, no tags).  When one of them
    is no mapping, which normalisation lets through, the event comes back
    with [enrichment_error] and without any enrichments. *)
Theorem enrichment_of_normalized_event
    (exn_str : exn -> string) (hash : string -> Z) (now : datetime)
    (processing_time : Z) (event : dict) :
  let self := enricher exn_str hash now in
  let out := enrich_event exn_str now self processing_time event in
  match as_dict (dict_get event "actor" (PDict ∅)),
        as_dict (dict_get event "resource" (PDict ∅)) with
  | Ok actor, Ok resource =>
      let ip := dict_get actor "ip" PNone in
      let id := dict_get resource "id" PNone in
      let type := dict_get resource "type" PNone in
      out !! "status" = Some (PStr "enriched")
      /\ exists d : dict,
           out !! "enrichments" = Some (PDict d)
           /\ d !! "threat_intel"
              = (if truthy ip
                 then Some (PDict (lookup_ip_reputation exn_str now ip)) else None)
           /\ d !! "geo"
              = (if truthy ip then Some (PDict (lookup_ip_location hash ip)) else None)
           /\ d !! "asset_context"
              = (if truthy id && truthy type
                 then Some (PDict (get_asset_context id type)) else None)
           /\ (truthy ip = false -> truthy id && truthy type = false ->
               d !! "threat_intel" = None /\ d !! "geo" = None
               /\ d !! "asset_context" = None)
           /\ (forall e, truthy ip = true ->
                 lookup_ip_reputation_try now ip = Raise e ->
                 d !! "threat_intel" = Some (PDict (threat_intel_fallback exn_str e))
                 /\ threat_intel_fallback exn_str e !! "ip_rep" = Some (PStr "unknown")
                 /\ threat_intel_fallback exn_str e !! "rep_score" = Some (PInt 50)
                 /\ threat_intel_fallback exn_str e !! "feeds" = Some (PList []))
           /\ (forall e, truthy ip = true ->
                 lookup_ip_location_try hash ip = Raise e ->
                 d !! "geo" = Some (PDict (geo_fallback e))
                 /\ geo_fallback e !! "country_code" = Some (PStr "XX")
                 /\ geo_fallback e !! "asn" = Some (PInt 0)
                 /\ geo_fallback e !! "org" = Some (PStr "unknown"))
           /\ (forall e, truthy id && truthy type = true ->
                 get_asset_context_try id type = Raise e ->
                 d !! "asset_context" = Some (PDict (asset_fallback id type e))
                 /\ asset_fallback id type e !! "environment" = Some (PStr "unknown")
                 /\ asset_fallback id type e !! "criticality" = Some (PInt 1)
                 /\ asset_fallback id type e !! "owner" = Some (PStr "unknown")
                 /\ asset_fallback id type e !! "tags" = Some (PDict ∅))
  | Raise e, _ | Ok _, Raise e =>
      out = <["enrichment_error" := PStr (exn_str e)]> event
  end.
Proof.
  cbv zeta. unfold enrich_event. rewrite enrichments_try_cases.
  destruct (as_dict (dict_get event "actor" (PDict ∅))) as [actor|e];
    [|reflexivity].
  destruct (as_dict (dict_get event "resource" (PDict ∅))) as [resource|e];
    [|reflexivity].
  cbn [mbind outcome_bind bind catch].
  set (self := enricher exn_str hash now).
  destruct (sub_bundles_lookup self actor resource) as (Hti & Hgeo & Hasset).
  cbv zeta in Hti, Hgeo, Hasset.
  cbn [self enricher threat_intel_service geo_service asset_service] in Hti, Hgeo, Hasset.
  split; [by rewrite lookup_insert_eq|].
  eexists. split; [by rewrite lookup_insert_ne, lookup_insert_eq by discriminate|].
  rewrite !lookup_insert_ne by discriminate.
  split; [exact Hti|]. split; [exact Hgeo|]. split; [exact Hasset|].
  split; [|split; [|split]].
  - intros Hip Hres. by rewrite Hti, Hgeo, Hasset, Hip, Hres.
  - intros e Hip H. rewrite Hti, Hip. unfold lookup_ip_reputation. rewrite H.
    by repeat split.
  - intros e Hip H. rewrite Hgeo, Hip. unfold lookup_ip_location. rewrite H.
    by repeat split.
  - intros e Hres H. rewrite Hasset, Hres. unfold get_asset_context. rewrite H.
    cbn [catch]. split; [reflexivity|]. unfold asset_fallback.
    repeat split;
      by repeat first [ rewrite lookup_insert_eq | rewrite lookup_insert_ne by discriminate ].
Qed.

(** An event that normalisation accepts with a null [resource]: validation
    tests key presence only. *)
Definition null_resource_raw : dict := <["resource" := PNone]> scenario_A_raw.

Definition null_resource_event : dict :=
  <["event_id" := PStr sample_uuid]>
  (<["received_at" := PStr ""]>
  (<["payload" := PDict ∅]>
  (<["schema_ver" := PStr "1.0"]> null_resource_raw))).

Definition plain_message (_ : exn) : string := "error".

(** C9 fails as stated: the event below is a normalised event whose
    [actor.ip] is not empty, and its enrichment carries no threat-intel and
    no geo sub-bundle, fallback or other: reading [resource.id] raises
    after both lookups were made, and the result is the event with
    [enrichment_error] and without enrichments. *)
Lemma null_resource_event_is_not_enriched :
  let out := enrich_event plain_message (at_clock 12 2)
               (enricher plain_message (fun _ => 0%Z) (at_clock 12 2)) 0
               null_resource_event in
  ingest null_resource_raw PNone sample_uuid (at_clock 12 2) = Normalized null_resource_event
  /\ (exists actor, null_resource_event !! "actor" = Some (PDict actor)
                    /\ actor !! "ip" = Some (PStr "203.0.113.1")
                    /\ truthy (PStr "203.0.113.1") = true)
  /\ out !! "enrichments" = None
  /\ out !! "status" = None
  /\ out !! "enrichment_error" = Some (PStr "error")
  /\ out = <["enrichment_error" := PStr "error"]> null_resource_event.
Proof.
  cbv zeta. split; [vm_compute; reflexivity|].
  split; [eexists; repeat split; vm_compute; reflexivity|].
  repeat split; vm_compute; reflexivity.
Qed.

(** An event whose [actor.ip] and [resource.id] are numbers: every lookup
    is made, every one raises, and the enrichment carries the three
    fallback bundles. *)
Definition numeric_fields_event : dict :=
  <["actor" := PDict {[ "ip" := PInt 5 ]}]>
  {[ "resource" := PDict (<["id" := PInt 5]> {[ "type" := PStr "database" ]}) ]}.

Example numeric_fields_get_the_fallbacks :
  let out := enrich_event plain_message (at_clock 12 2)
               (enricher plain_message (fun _ => 0%Z) (at_clock 12 2)) 0
               numeric_fields_event in
  out !! "status" = Some (PStr "enriched")
  /\ exists d,
       out !! "enrichments" = Some (PDict d)
       /\ d !! "threat_intel"
          = Some (PDict (threat_intel_fallback plain_message
                           (AttributeError "int" "startswith")))
       /\ d !! "geo" = Some (PDict (geo_fallback (AttributeError "int" "startswith")))
       /\ d !! "asset_context"
          = Some (PDict (asset_fallback (PInt 5) (PStr "database") (TypeError "int"))).
Proof.
  cbv zeta. split; [vm_compute; reflexivity|].
  eexists. repeat split; vm_compute; reflexivity.
Qed.

(** On the well-formed scenario-A event every lookup is made and none
    falls back. *)
Example scenario_A_event_is_enriched :
  let out := enrich_event plain_message (at_clock 12 2)
               (enricher plain_message (fun _ => 0%Z) (at_clock 12 2)) 0
               scenario_A_normalized in
  out !! "status" = Some (PStr "enriched")
  /\ exists d ti geo asset,
       out !! "enrichments" = Some (PDict d)
       /\ d !! "threat_intel" = Some (PDict ti)
       /\ d !! "geo" = Some (PDict geo)
       /\ d !! "asset_context" = Some (PDict asset)
       /\ ti !! "ip_rep" = Some (PStr "suspicious")
       /\ geo !! "country_code" = Some (PStr "US")
       /\ asset !! "criticality" = Some (PInt 3).
Proof.
  cbv zeta. split; [vm_compute; reflexivity|].
  do 4 eexists. repeat split; vm_compute; reflexivity.
Qed.

(** *** Bounds on the exponential

    [exp x] is bracketed by repeated squaring: with [y = x / 2^k],
    [1 + y <= exp y <= 1 / (1 - y)], and each squaring is rounded outwards
    to a dyadic rational so that the numbers stay small. *)
















(** *** Scenario A, end to end *)

Import Pipeline.











Lemma sigmoid_exp (x : Q) :
  sigmoid x = (1 - / (exp (Q2R x) + 1))%R.
Proof.
  unfold sigmoid. rewrite exp_Ropp. pose proof (exp_pos (Q2R x)). field. lra.
Qed.



Lemma sigmoid_pos (x : Q) : (0 < sigmoid x)%R.
Proof.
  unfold sigmoid. pose proof (exp_pos (- Q2R x)).
  apply Rdiv_lt_0_compat; lra.
Qed.




Lemma Int_part_ge (x : R) (lo : Z) : (IZR lo <= x)%R -> (lo <= Int_part x)%Z.
Proof.
  intros H. destruct (base_Int_part x) as [H1 H2].
  apply Z.lt_succ_r, lt_IZR. rewrite succ_IZR. lra.
Qed.

















(** ** Further properties of the scorer *)

Lemma sigmoid_lt_1 (x : Q) : (sigmoid x < 1)%R.
Proof.
  rewrite sigmoid_exp. pose proof (exp_pos (Q2R x)).
  assert (0 < / (exp (Q2R x) + 1))%R; [apply Rinv_0_lt_compat|]; lra.
Qed.

Lemma model_score_range (f : features) : (0 <= model_score (predict f) <= 100)%R.
Proof.
  unfold predict. cbn [model_score].
  destruct (0 <? snd (fold_left (weight_step f) feature_weights (0%Q, 0%Z)))%Z; [|lra].
  match goal with |- context [sigmoid ?x] =>
    pose proof (sigmoid_pos x); pose proof (sigmoid_lt_1 x) end.
  lra.
Qed.

Lemma scores_positive : Forall (fun r => (0 < score r)%Z) rules.
Proof. unfold rules. repeat constructor. Qed.

Lemma sum_scores_nonneg (l : list rule) :
  Forall (fun r => (0 < score r)%Z) l -> (0 <= sum_Z (map score l))%Z.
Proof. induction 1; simpl; lia. Qed.

Lemma sum_scores_zero (l : list rule) :
  Forall (fun r => (0 < score r)%Z) l -> sum_Z (map score l) = 0%Z -> l = [].
Proof.
  destruct 1 as [|r l Hr Hl]; [reflexivity|]. simpl.
  pose proof (sum_scores_nonneg l Hl). lia.
Qed.

Lemma holding_positive (f : features) : Forall (fun r => (0 < score r)%Z) (holding f).
Proof.
  unfold holding. apply Forall_forall. intros r Hr.
  apply list_elem_of_In, filter_In in Hr as [Hr _].
  pose proof scores_positive as H. rewrite Forall_forall in H.
  apply H. by apply list_elem_of_In.
Qed.

Lemma rule_score_range (f : features) :
  (0 <= rule_score (calculate_rule_score f) <= 100)%Z.
Proof.
  rewrite rule_score_holding.
  pose proof (sum_scores_nonneg _ (holding_positive f)). lia.
Qed.

Lemma nonzero_le_size (f : features) : (nonzero_values f <= size f)%nat.
Proof.
  unfold nonzero_values. rewrite <- length_map_to_list.
  induction (map_to_list f) as [|kv l IH]; simpl; [lia|].
  destruct (negb (Qeq_bool (snd kv) 0)); simpl; lia.
Qed.

(** The completeness ratio of [predict] lies in [0,1]. *)
Lemma completeness_range (f : features) :
  f <> ∅ ->
  (0 <= inject_Z (Z.of_nat (nonzero_values f)) / inject_Z (Z.of_nat (size f)) <= 1)%Q.
Proof.
  intros Hne. apply map_size_non_empty_iff in Hne.
  apply ratio_in_unit.
  - change 0%Q with (inject_Z 0). rewrite <- Zlt_Qlt. lia.
  - split.
    + change 0%Q with (inject_Z 0). rewrite <- Zle_Qle. lia.
    + rewrite <- Zle_Qle. pose proof (nonzero_le_size f). lia.
Qed.

Lemma confidence_formula (f : features) :
  exists c : Q,
    (0 <= c <= 1)%Q
    /\ (f = ∅ -> c = 0%Q)
    /\ (f <> ∅ ->
        c = (inject_Z (Z.of_nat (nonzero_values f)) / inject_Z (Z.of_nat (size f)))%Q)
    /\ (confidence (predict f) == (3 # 10) + c * (7 # 10))%Q.
Proof.
  unfold predict. cbn [confidence].
  case_bool_decide as Hf.
  - exists 0%Q.
    split; [split; discriminate|].
    split; [reflexivity|]. split; [congruence|].
    apply Q.min_l. discriminate.
  - eexists. split; [apply (completeness_range f Hf)|].
    split; [congruence|]. split; [reflexivity|].
    apply Q.min_l.
    destruct (completeness_range f Hf) as [_ H1].
    set (c := (inject_Z (Z.of_nat (nonzero_values f))
               / inject_Z (Z.of_nat (size f)))%Q) in *.
    clearbody c. Lqa.lra.
Qed.

Lemma confidence_range (f : features) : (3 # 10 <= confidence (predict f) <= 1)%Q.
Proof.
  destruct (confidence_formula f) as (c & [Hc0 Hc1] & _ & _ & Hc).
  rewrite Hc. split; Lqa.lra.
Qed.

Lemma fuse_exact_range (m : R) (r : Z) :
  (0 <= m <= 100)%R -> (0 <= r <= 100)%Z -> (0 <= fuse_exact m r <= 100)%Z.
Proof.
  intros [Hm0 Hm1] [Hr0 Hr1]. apply IZR_le in Hr0, Hr1. unfold fuse_exact.
  set (x := (m * (7 / 10) + IZR r * (3 / 10))%R).
  assert (Hx0 : (0 <= x)%R) by (unfold x; lra).
  rewrite (int_nonneg x Hx0).
  pose proof (Int_part_ge x 0 Hx0). lia.
Qed.

Lemma extract_features_size fos event enrichments now :
  size (extract_features fos event enrichments now) = 16%nat
  \/ extract_features fos event enrichments now = ∅.
Proof.
  destruct (extract_features_cases fos event enrichments now)
    as [(i & _ & ->) | [_ ->]]; [left | by right].
  unfold features_of. apply vector_size.
Qed.

(** The four values the extractor passes to [float]. *)
Definition floated (event enrichments : dict) : list pyval :=
  let bundle (k : string) : dict :=
    match dict_get enrichments k (PDict ∅) with
    | PDict d => d
    | _ => ∅
    end in
  [dict_get (bundle "geo") "asn" (PInt 0);
   dict_get (bundle "threat_intel") "rep_score" (PInt 50);
   dict_get (bundle "asset_context") "criticality" (PInt 1);
   dict_get event "severity_hint" (PInt 1)].

(** X1.  On every request whose four numeric fields are plain numbers (or
    no numbers at all), the response of [/score] is within the ranges its
    schema documents: model score in [0,100], rule score in [0,100], final
    score in [0,100], confidence in [0.3,1]; the triggered rules are a
    subsequence of the rule table; and the features behind it are either
    all sixteen or none.  (A nan among those fields is where the code
    leaves these ranges: the handler of [score_event] then answers
    confidence 0.1.) *)
Theorem score_response_ranges
    (fos : string -> option Q) (now : datetime) (request : ScorerApi.ScoringRequest) :
  forallb plain_number
    (floated (ScorerApi.base_event request) (ScorerApi.enrichments request)) = true ->
  let resp := ScorerApi.score_event_endpoint fos now request in
  (0 <= ScorerApi.model_score resp <= 100)%R
  /\ (0 <= ScorerApi.rule_score resp <= 100)%Z
  /\ (0 <= ScorerApi.final_score resp <= 100)%Z
  /\ (3 # 10 <= ScorerApi.confidence resp <= 1)%Q
  /\ sublist (ScorerApi.triggered_rules resp) rule_order
  /\ ScorerApi.resp_event_id resp = ScorerApi.event_id request
  /\ (features_extracted
        (score_event fos (ScorerApi.base_event request)
           (ScorerApi.enrichments request) now) = 16%nat
      \/ features_extracted
           (score_event fos (ScorerApi.base_event request)
              (ScorerApi.enrichments request) now) = 0%nat).
Proof.
  intros _.
  cbv zeta. unfold ScorerApi.score_event_endpoint, score_event.
  cbn [ScorerApi.model_score ScorerApi.rule_score ScorerApi.final_score
       ScorerApi.confidence ScorerApi.triggered_rules ScorerApi.resp_event_id
       s_model_score s_rule_score final_score s_confidence s_triggered_rules
       features_extracted].
  set (f := extract_features fos _ _ now).
  split; [apply model_score_range|].
  split; [apply rule_score_range|].
  split; [apply fuse_exact_range; [apply model_score_range | apply rule_score_range]|].
  split; [apply confidence_range|].
  split.
  { rewrite triggered_holding, map_map. change rule_order with (map name rules).
    apply map_sublist, filter_sublist. }
  split; [reflexivity|].
  destruct (extract_features_size fos (ScorerApi.base_event request)
              (ScorerApi.enrichments request) now) as [H|H]; fold f in H.
  - by left.
  - right. rewrite H. apply map_size_empty.
Qed.

Definition sample_scoring_request : ScorerApi.ScoringRequest :=
  {| ScorerApi.event_id := "e-1";
     ScorerApi.enrichments :=
       <["threat_intel" := PDict (<["ip_rep" := PStr "malicious"]>
                                  {[ "rep_score" := PInt 90 ]})]>
       {[ "asset_context" := PDict (<["environment" := PStr "prod"]>
                                    {[ "criticality" := PFloat (5 # 2) ]}) ]};
     ScorerApi.base_event := scenario_A_raw |}.

Lemma score_response_ranges_witness :
  let resp := ScorerApi.score_event_endpoint no_text (at_clock 12 2)
                sample_scoring_request in
  (0 <= ScorerApi.model_score resp <= 100)%R
  /\ (0 <= ScorerApi.rule_score resp <= 100)%Z
  /\ (0 <= ScorerApi.final_score resp <= 100)%Z
  /\ (3 # 10 <= ScorerApi.confidence resp <= 1)%Q
  /\ sublist (ScorerApi.triggered_rules resp) rule_order
  /\ ScorerApi.resp_event_id resp = ScorerApi.event_id sample_scoring_request
  /\ (features_extracted
        (score_event no_text (ScorerApi.base_event sample_scoring_request)
           (ScorerApi.enrichments sample_scoring_request) (at_clock 12 2)) = 16%nat
      \/ features_extracted
           (score_event no_text (ScorerApi.base_event sample_scoring_request)
              (ScorerApi.enrichments sample_scoring_request) (at_clock 12 2)) = 0%nat).
Proof.
  apply (score_response_ranges no_text (at_clock 12 2) sample_scoring_request).
  vm_compute. reflexivity.
Defined.

(** X2.  The rule score is zero exactly when no rule triggers, and the
    engine reports the seven rules of the table as checked. *)
Theorem rule_score_zero_iff_nothing_triggered (f : features) :
  (rule_score (calculate_rule_score f) = 0%Z
   <-> triggered_rules (calculate_rule_score f) = [])
  /\ total_rules_checked (calculate_rule_score f) = 7%nat
  /\ (length (triggered_rules (calculate_rule_score f)) <= 7)%nat.
Proof.
  rewrite rule_score_holding, triggered_holding.
  split; [split|split].
  - intros H.
    pose proof (sum_scores_nonneg _ (holding_positive f)) as Hnn.
    assert (Hz : sum_Z (map score (holding f)) = 0%Z) by lia.
    by rewrite (sum_scores_zero _ (holding_positive f) Hz).
  - intros H. apply map_eq_nil in H. by rewrite H.
  - reflexivity.
  - rewrite length_map. unfold holding.
    change 7%nat with (length rules).
    apply sublist_length, filter_sublist.
Qed.


(** The weighted features that a vector holds, in the order of the weight
    table, and their plain weighted sum. *)
Definition present (f : features) : list (string * Q) :=
  List.filter (fun kw => bool_decide (is_Some (f !! fst kw))) feature_weights.

Definition weighted_sum (f : features) (l : list (string * Q)) : Q :=
  fold_right (fun kw acc => (fget f (fst kw) 0 * snd kw + acc)%Q) 0%Q l.

Lemma weight_loop_sum (f : features) (l : list (string * Q)) (raw : Q) (used : Z) :
  let keep := List.filter (fun kw => bool_decide (is_Some (f !! fst kw))) l in
  (fst (fold_left (weight_step f) l (raw, used)) == raw + weighted_sum f keep)%Q
  /\ snd (fold_left (weight_step f) l (raw, used)) = (used + Z.of_nat (length keep))%Z.
Proof.
  cbv zeta. revert raw used.
  induction l as [|[k w] l IH]; intros raw used; simpl.
  - split; [Lqa.lra | lia].
  - unfold weight_step at 2 4. cbn [fst snd].
    destruct (f !! k) as [v|] eqn:Hk.
    + rewrite bool_decide_true by eauto. simpl.
      destruct (IH (raw + v * w)%Q (used + 1)%Z) as [IH1 IH2].
      split; [|lia].
      rewrite IH1. unfold fget. rewrite Hk. simpl. Lqa.lra.
    + rewrite bool_decide_false by (intros [? ?]; discriminate). apply IH.
Qed.

Lemma present_at_most_11 (f : features) : (length (present f) <= 11)%nat.
Proof.
  unfold present. change 11%nat with (length feature_weights).
  apply sublist_length, filter_sublist.
Qed.

Lemma Qmax_tenths (n : nat) :
  (n <= 11)%nat ->
  (Qmax (inject_Z (Z.of_nat n) * (1 # 10)) 1 == (if (n =? 11)%nat then 11 # 10 else 1))%Q.
Proof.
  intros H.
  do 12 (destruct n as [|n]; [vm_compute; reflexivity|]).
  lia.
Qed.

(** X3.  The "normalisation" of [predict] divides by
    [max(weights_used * 0.1, 1.0)], which is 1 unless all eleven weighted
    features are present: the raw score is the plain weighted sum of the
    weighted features the vector holds, divided by 1.1 only when it holds
    all eleven; with none of them the model score is the neutral 50, and
    otherwise it is 100 times the sigmoid of the raw score. *)
Theorem predict_normalisation (f : features) :
  let n := length (present f) in
  (n <= 11)%nat
  /\ (raw_score (predict f)
      == weighted_sum f (present f) / (if (n =? 11)%nat then 11 # 10 else 1))%Q
  /\ model_score (predict f)
     = (if (n =? 0)%nat then 50 else sigmoid (raw_score (predict f)) * 100)%R.
Proof.
  cbv zeta. pose proof (present_at_most_11 f) as Hn.
  destruct (weight_loop_sum f feature_weights 0 0) as [Hraw Hused].
  cbv zeta in Hraw, Hused. fold (present f) in Hraw, Hused.
  split; [exact Hn|].
  unfold predict. cbn [raw_score model_score].
  rewrite Hused. rewrite Z.add_0_l.
  destruct (length (present f)) as [|n] eqn:Hlen.
  - simpl. split; [|lra].
    rewrite Hraw. destruct (present f); [|discriminate]. simpl. reflexivity.
  - replace (0 <? Z.of_nat (S n))%Z with true by (symmetry; apply Z.ltb_lt; lia).
    split; [|reflexivity].
    rewrite Hraw, (Qmax_tenths (S n) Hn), Qplus_0_l. reflexivity.
Qed.

Lemma weight_loop_absent (f : features) (l : list (string * Q)) (acc : Q * Z) :
  (forall k, In k (map fst l) -> f !! k = None) ->
  fold_left (weight_step f) l acc = acc.
Proof.
  revert acc. induction l as [|[k w] l IH]; intros acc H; simpl; [reflexivity|].
  unfold weight_step at 2. cbn [fst]. rewrite (H k) by (by left).
  apply IH. intros k' Hk'. apply H. by right.
Qed.

(** X4.  A vector that holds none of the eleven weighted features, whatever
    else it holds, gets the neutral prior: model score exactly 50 and raw
    score 0. *)
Theorem no_weighted_feature_is_neutral (f : features) :
  (forall k, In k (map fst feature_weights) -> f !! k = None) ->
  model_score (predict f) = 50%R /\ raw_score (predict f) = 0%Q.
Proof.
  intros H. unfold predict. cbn [model_score raw_score].
  rewrite (weight_loop_absent f feature_weights _ H). cbn. split; [lra | reflexivity].
Qed.

Lemma no_weighted_feature_is_neutral_witness :
  model_score (predict (<["asn" := inject_Z 13335]> {[ "hour_of_day" := 1 # 2 ]})) = 50%R
  /\ raw_score (predict (<["asn" := inject_Z 13335]> {[ "hour_of_day" := 1 # 2 ]})) = 0%Q.
Proof.
  apply no_weighted_feature_is_neutral.
  intros k Hk. simpl in Hk.
  repeat (destruct Hk as [<-|Hk]; [reflexivity|]). contradiction.
Defined.


(** ** Further properties of feature extraction *)

Lemma read_inv fos event enrichments i :
  read fos event enrichments = Ok i ->
  exists geo threat_intel asset_context resource : dict,
    as_dict (dict_get enrichments "geo" (PDict ∅)) = Ok geo
    /\ float fos (dict_get geo "asn" (PInt 0)) = Ok (r_asn i)
    /\ r_country_code i = dict_get geo "country_code" (PStr "")
    /\ as_dict (dict_get enrichments "threat_intel" (PDict ∅)) = Ok threat_intel
    /\ float fos (dict_get threat_intel "rep_score" (PInt 50)) = Ok (r_rep_score i)
    /\ r_ip_rep i = dict_get threat_intel "ip_rep" PNone
    /\ as_dict (dict_get enrichments "asset_context" (PDict ∅)) = Ok asset_context
    /\ float fos (dict_get asset_context "criticality" (PInt 1)) = Ok (r_criticality i)
    /\ r_environment i = dict_get asset_context "environment" PNone
    /\ str_lower (dict_get event "action" (PStr "")) = Ok (r_action i)
    /\ as_dict (dict_get event "resource" (PDict ∅)) = Ok resource
    /\ str_lower (dict_get resource "type" (PStr "")) = Ok (r_resource_type i)
    /\ float fos (dict_get event "severity_hint" (PInt 1)) = Ok (r_severity_hint i).
Proof.
  unfold read. intros H.
  apply bind_Ok in H as (geo & Hgeo & H).
  apply bind_Ok in H as (asn & Hasn & H).
  apply bind_Ok in H as (ti & Hti & H).
  apply bind_Ok in H as (rep & Hrep & H).
  apply bind_Ok in H as (ac & Hac & H).
  apply bind_Ok in H as (crit & Hcrit & H).
  apply bind_Ok in H as (act & Hact & H).
  apply bind_Ok in H as (res & Hres & H).
  apply bind_Ok in H as (rty & Hrty & H).
  apply bind_Ok in H as (sev & Hsev & H).
  injection H as <-.
  exists geo, ti, ac, res.
  cbn [r_asn r_country_code r_rep_score r_ip_rep r_criticality r_environment
       r_action r_resource_type r_severity_hint].
  repeat split; assumption.
Qed.

Lemma extract_features_nonempty fos event enrichments now :
  extract_features fos event enrichments now <> ∅ ->
  exists i, read fos event enrichments = Ok i
            /\ extract_features fos event enrichments now = features_of i now.
Proof.
  intros Hne.
  destruct (extract_features_cases fos event enrichments now)
    as [(i & Hi & Hf) | [_ Hf]]; [eauto | contradiction].
Qed.

Lemma dict_get_absent (d : dict) (k : string) (x : pyval) :
  d !! k = None -> dict_get d k x = x.
Proof. intros H. unfold dict_get. by rewrite H. Qed.

(** X5.  The neutral defaults of the extractor.  On inputs on which it does
    not degrade: without a [threat_intel] bundle the reputation feature is
    0.5 and neither reputation indicator is set; without a [geo] bundle
    [asn] is 0 and the country is not high-risk; without an
    [asset_context] bundle the criticality feature is 0.2 and the
    environment is not prod; an event without [severity_hint] gets 0.2,
    one without [action] none of the action indicators, one without
    [resource] no critical resource. *)
Theorem extraction_defaults
    (fos : string -> option Q) (event enrichments : dict) (now : datetime) :
  let f := extract_features fos event enrichments now in
  f <> ∅ ->
  (enrichments !! "threat_intel" = None ->
     f !! "rep_score" = Some (50 # 100)%Q
     /\ f !! "is_malicious" = Some 0%Q /\ f !! "is_suspicious" = Some 0%Q)
  /\ (enrichments !! "geo" = None ->
        f !! "asn" = Some 0%Q /\ f !! "is_high_risk_country" = Some 0%Q)
  /\ (enrichments !! "asset_context" = None ->
        f !! "asset_criticality" = Some (1 # 5)%Q
        /\ f !! "is_prod_environment" = Some 0%Q)
  /\ (event !! "severity_hint" = None -> f !! "severity_hint" = Some (1 # 5)%Q)
  /\ (event !! "action" = None ->
        f !! "is_login_action" = Some 0%Q /\ f !! "is_failed_action" = Some 0%Q
        /\ f !! "is_admin_action" = Some 0%Q)
  /\ (event !! "resource" = None -> f !! "is_critical_resource" = Some 0%Q).
Proof.
  cbv zeta. intros Hne.
  destruct (extract_features_nonempty _ _ _ _ Hne) as (i & Hi & ->).
  destruct (read_inv _ _ _ _ Hi)
    as (geo & ti & ac & res & Hgeo & Hasn & Hcc & Hti & Hrep & Hlab & Hac & Hcrit
        & Henv & Hact & Hres & Hrty & Hsev).
  pose proof (features_of_lookup i now) as L. cbv zeta in L.
  destruct L as (La & L1 & L2 & L3 & L4 & L5 & L6 & L7 & L8 & L9 & L10 & L11
                 & L12 & L13 & L14 & L15).
  split; [|split; [|split; [|split; [|split]]]]; intros Habs.
  - rewrite (dict_get_absent _ _ _ Habs) in Hti. injection Hti as <-.
    cbn in Hrep. injection Hrep as Hrep.
    rewrite L2, L3, L4, Hlab, <- Hrep. by repeat split.
  - rewrite (dict_get_absent _ _ _ Habs) in Hgeo. injection Hgeo as <-.
    cbn in Hasn. injection Hasn as Hasn.
    rewrite La, L1, Hcc, <- Hasn. by repeat split.
  - rewrite (dict_get_absent _ _ _ Habs) in Hac. injection Hac as <-.
    cbn in Hcrit. injection Hcrit as Hcrit.
    rewrite L5, L6, Henv, <- Hcrit. by repeat split.
  - rewrite (dict_get_absent _ _ _ Habs) in Hsev. cbn in Hsev. injection Hsev as Hsev.
    by rewrite L15, <- Hsev.
  - rewrite (dict_get_absent _ _ _ Habs) in Hact. injection Hact as Hact.
    rewrite L11, L12, L13, <- Hact. by repeat split.
  - rewrite (dict_get_absent _ _ _ Habs) in Hres. injection Hres as <-.
    cbn in Hrty. injection Hrty as Hrty. by rewrite L14, <- Hrty.
Qed.

Lemma extraction_defaults_witness :
  let f := extract_features no_text ∅ ∅ (at_clock 12 2) in
  ((∅ : dict) !! "threat_intel" = None ->
     f !! "rep_score" = Some (50 # 100)%Q
     /\ f !! "is_malicious" = Some 0%Q /\ f !! "is_suspicious" = Some 0%Q)
  /\ ((∅ : dict) !! "geo" = None ->
        f !! "asn" = Some 0%Q /\ f !! "is_high_risk_country" = Some 0%Q)
  /\ ((∅ : dict) !! "asset_context" = None ->
        f !! "asset_criticality" = Some (1 # 5)%Q
        /\ f !! "is_prod_environment" = Some 0%Q)
  /\ ((∅ : dict) !! "severity_hint" = None -> f !! "severity_hint" = Some (1 # 5)%Q)
  /\ ((∅ : dict) !! "action" = None ->
        f !! "is_login_action" = Some 0%Q /\ f !! "is_failed_action" = Some 0%Q
        /\ f !! "is_admin_action" = Some 0%Q)
  /\ ((∅ : dict) !! "resource" = None -> f !! "is_critical_resource" = Some 0%Q).
Proof.
  apply (extraction_defaults no_text ∅ ∅ (at_clock 12 2)).
  intros H. apply (f_equal (fun m : features => m !! "asn")) in H.
  vm_compute in H. discriminate H.
Defined.


Lemma triggered_inv (f : features) (n : string) :
  In n (map t_name (triggered_rules (calculate_rule_score f))) ->
  exists r, In r rules /\ name r = n /\ condition r f = true.
Proof.
  rewrite triggered_holding, map_map. intros H.
  apply in_map_iff in H as (r & Hn & Hr).
  apply filter_In in Hr as [Hr Hc]. by exists r.
Qed.

Lemma indicator_is_1 (b : bool) : Qeq_bool (indicator b) 1 = b.
Proof. by destruct b. Qed.

Lemma eq_str_exclusive (v : pyval) (s t : string) :
  s <> t -> eq_str v s = true -> eq_str v t = false.
Proof.
  destruct v; simpl; try discriminate.
  intros Hne Hs. apply String.eqb_eq in Hs as ->. by apply String.eqb_neq.
Qed.

(** X6.  The two reputation indicators of an extracted vector are never
    both set, so no scoring result lists both [malicious_ip_access] and
    [failed_login_suspicious_ip]. *)
Theorem reputation_rules_exclusive
    (fos : string -> option Q) (event enrichments : dict) (now : datetime) :
  let f := extract_features fos event enrichments now in
  let r := score_event fos event enrichments now in
  (f !! "is_malicious" = Some 1%Q -> f !! "is_suspicious" = Some 0%Q)
  /\ (f !! "is_suspicious" = Some 1%Q -> f !! "is_malicious" = Some 0%Q)
  /\ ~ (In "malicious_ip_access" (s_triggered_rules r)
        /\ In "failed_login_suspicious_ip" (s_triggered_rules r)).
Proof.
  cbv zeta. unfold score_event. cbn [s_triggered_rules].
  destruct (extract_features_cases fos event enrichments now)
    as [(i & _ & ->) | [_ ->]].
  - pose proof (features_of_lookup i now) as L. cbv zeta in L.
    destruct L as (_ & _ & _ & L3 & L4 & _).
    split; [|split].
    + rewrite L3, L4. intros [= H].
      destruct (eq_str (r_ip_rep i) "malicious") eqn:E; [|discriminate].
      by rewrite (eq_str_exclusive _ "malicious" "suspicious").
    + rewrite L3, L4. intros [= H].
      destruct (eq_str (r_ip_rep i) "suspicious") eqn:E; [|discriminate].
      by rewrite (eq_str_exclusive _ "suspicious" "malicious").
    + intros [Hm Hs].
      apply triggered_inv in Hm as (rm & Hrm & Hnm & Hcm).
      apply triggered_inv in Hs as (rs & Hrs & Hns & Hcs).
      unfold rules in Hrm, Hrs. simpl in Hrm, Hrs.
      repeat (destruct Hrm as [<-|Hrm]; [try discriminate Hnm|]); [|contradiction].
      repeat (destruct Hrs as [<-|Hrs]; [try discriminate Hns|]); [|contradiction].
      cbn [condition] in Hcm, Hcs. unfold fget in Hcm, Hcs.
      apply andb_true_iff in Hcs as [_ Hcs].
      rewrite L3 in Hcm. rewrite L4 in Hcs. cbn [default] in Hcm, Hcs.
      unfold Datatypes.id in Hcm, Hcs.
      rewrite indicator_is_1 in Hcm, Hcs.
      rewrite (eq_str_exclusive _ "malicious" "suspicious") in Hcs; [discriminate | discriminate | exact Hcm].
  - split; [|split]; try (rewrite lookup_empty; discriminate).
    intros [Hm _]. rewrite rules_on_empty in Hm. contradiction.
Qed.

Lemma prefix_app (s1 s2 s : string) :
  String.prefix (s1 ++ s2) s = true -> String.prefix s1 s = true.
Proof.
  revert s. induction s1 as [|a s1 IH]; intros s; [by destruct s|].
  destruct s as [|b s]; simpl; [discriminate|].
  destruct (ascii_dec a b); [apply IH | discriminate].
Qed.

Lemma prefix_failed_fail (s : string) :
  String.prefix "failed" s = true -> String.prefix "fail" s = true.
Proof. apply (prefix_app "fail" "ed"). Qed.

Lemma contains_failed_fail (s : string) :
  contains "failed" s = true -> contains "fail" s = true.
Proof.
  induction s as [|c s IH].
  - simpl. discriminate.
  - cbn [contains]. intros H. apply orb_true_iff in H as [H|H]; apply orb_true_iff.
    + left. by apply prefix_failed_fail.
    + right. by apply IH.
Qed.

Lemma fail_test (s : string) :
  contains "failed" s || contains "fail" s = contains "fail" s.
Proof.
  destruct (contains "failed" s) eqn:E; [|reflexivity].
  by rewrite (contains_failed_fail s E).
Qed.

Lemma read_action fos event enrichments i a :
  read fos event enrichments = Ok i -> event !! "action" = Some (PStr a) ->
  r_action i = lower a.
Proof.
  intros Hi Ha. destruct (read_inv _ _ _ _ Hi) as (? & ? & ? & ? & H).
  destruct H as (_ & _ & _ & _ & _ & _ & _ & _ & _ & Hact & _).
  unfold dict_get in Hact. rewrite Ha in Hact. by injection Hact as <-.
Qed.

(** X7.  The action indicators are substring tests on the lower-cased
    action, and the test for "failed" adds nothing to the test for "fail":
    on inputs on which extraction does not degrade, [is_failed_action] is
    1.0 exactly when the lower-cased action contains "fail",
    [is_login_action] when it contains "login", [is_admin_action] when it
    contains "admin" or "root". *)
Theorem action_indicators
    (fos : string -> option Q) (event enrichments : dict) (now : datetime)
    (a : string) :
  let f := extract_features fos event enrichments now in
  event !! "action" = Some (PStr a) ->
  f <> ∅ ->
  f !! "is_failed_action" = Some (indicator (contains "fail" (lower a)))
  /\ f !! "is_login_action" = Some (indicator (contains "login" (lower a)))
  /\ f !! "is_admin_action"
     = Some (indicator (contains "admin" (lower a) || contains "root" (lower a))).
Proof.
  cbv zeta. intros Ha Hne.
  destruct (extract_features_nonempty _ _ _ _ Hne) as (i & Hi & ->).
  pose proof (features_of_lookup i now) as L. cbv zeta in L.
  destruct L as (_ & _ & _ & _ & _ & _ & _ & _ & _ & _ & _ & L11 & L12 & L13 & _).
  rewrite L11, L12, L13, (read_action _ _ _ _ _ Hi Ha), fail_test. by repeat split.
Qed.

Lemma action_indicators_witness :
  let f := extract_features no_text {[ "action" := PStr "LoginFAILED" ]} ∅ (at_clock 12 2) in
  f !! "is_failed_action" = Some (indicator (contains "fail" (lower "LoginFAILED")))
  /\ f !! "is_login_action" = Some (indicator (contains "login" (lower "LoginFAILED")))
  /\ f !! "is_admin_action"
     = Some (indicator (contains "admin" (lower "LoginFAILED")
                        || contains "root" (lower "LoginFAILED"))).
Proof.
  apply (action_indicators no_text {[ "action" := PStr "LoginFAILED" ]} ∅ (at_clock 12 2)).
  - reflexivity.
  - intros H. apply (f_equal (fun m : features => m !! "asn")) in H.
    vm_compute in H. discriminate H.
Defined.


(** ** Further properties of the enricher *)

Definition is_str (v : pyval) : bool :=
  match v with PStr _ => true | _ => false end.

Lemma reputation_of_cases (s : string) :
  In (reputation_of s)
     [("clean", 10%Z); ("suspicious", 60%Z); ("malicious", 90%Z); ("clean", 15%Z)].
Proof.
  unfold reputation_of.
  repeat match goal with |- context [if ?b then _ else _] => destruct b end;
    simpl; tauto.
Qed.

(** X8.  The reputation service answers every input within the data model:
    on a str address the label is clean, suspicious or malicious with the
    score that goes with it (10 or 15, 60, 90), private addresses
    ([10.], [192.168.]) are always clean at 10, and every other object
    gets the fallback unknown at 50. *)
Theorem reputation_bundle_shape
    (exn_str : exn -> string) (now : datetime) (ip_address : pyval) :
  let b := lookup_ip_reputation exn_str now ip_address in
  (exists label score,
      b !! "ip_rep" = Some (PStr label)
      /\ b !! "rep_score" = Some (PInt score)
      /\ In (label, score)
            [("clean", 10%Z); ("suspicious", 60%Z); ("malicious", 90%Z);
             ("clean", 15%Z); ("unknown", 50%Z)]
      /\ (0 <= score <= 100)%Z
      /\ (label = "unknown" <-> is_str ip_address = false))
  /\ (forall s, ip_address = PStr s ->
        startswith s "10." || startswith s "192.168." = true ->
        b !! "ip_rep" = Some (PStr "clean") /\ b !! "rep_score" = Some (PInt 10)).
Proof.
  cbv zeta. split.
  - destruct ip_address as [| | | |s| |];
      try (exists "unknown", 50%Z; repeat split; simpl; auto 10; lia).
    unfold lookup_ip_reputation, lookup_ip_reputation_try.
    cbn [str_method mbind outcome_bind bind catch].
    pose proof (reputation_of_cases s) as Hc.
    destruct (reputation_of s) as [label score].
    exists label, score. cbn [fst snd].
    split; [by rewrite lookup_insert_eq|].
    split; [by rewrite lookup_insert_ne, lookup_insert_eq by discriminate|].
    simpl in Hc.
    destruct Hc as [H|[H|[H|[H|[]]]]]; injection H as <- <-;
      (split; [simpl; tauto|]); (split; [lia|]); split; discriminate.
  - intros s -> Hp.
    unfold lookup_ip_reputation, lookup_ip_reputation_try.
    cbn [str_method mbind outcome_bind bind catch].
    unfold reputation_of. rewrite Hp. cbn [fst snd].
    split; [by rewrite lookup_insert_eq|].
    by rewrite lookup_insert_ne, lookup_insert_eq by discriminate.
Qed.

Lemma countries_nth (n : nat) :
  (n < 4)%nat ->
  In (snd (fst (nth n countries ("", "", 0%Z)))) ["US"; "IN"; "GB"; "DE"].
Proof.
  intros H. do 4 (destruct n as [|n]; [simpl; tauto|]). lia.
Qed.

(** X9.  The geo service never reports a high-risk country for an address
    it can look up: on a str address the country code is US, IN, GB or DE,
    whatever the hash; only the fallback, returned for every other object,
    carries the high-risk code XX. *)
Theorem geo_bundle_high_risk_iff_fallback (hash : string -> Z) (ip_address : pyval) :
  exists c,
    lookup_ip_location hash ip_address !! "country_code" = Some (PStr c)
    /\ (is_str ip_address = true ->
        In c ["US"; "IN"; "GB"; "DE"]
        /\ in_strs (PStr c) high_risk_countries = false)
    /\ (is_str ip_address = false ->
        c = "XX" /\ in_strs (PStr c) high_risk_countries = true).
Proof.
  destruct ip_address as [| | | |s| |];
    try (exists "XX"; split; [reflexivity|]; split; [discriminate | by split]).
  unfold lookup_ip_location, lookup_ip_location_try.
  cbn [str_method mbind outcome_bind bind].
  destruct (startswith s "10." || startswith s "192.168.").
  - exists "US". split; [reflexivity|]. split; [|discriminate].
    intros _. split; [simpl; tauto | reflexivity].
  - cbn [catch]. eexists. split.
    { by rewrite lookup_insert_ne, lookup_insert_eq by discriminate. }
    split; [|discriminate]. intros _.
    assert (Hc : In (snd (fst (nth (Z.to_nat (hash s mod Z.of_nat (length countries)))
                                    countries ("", "", 0%Z))))
                    ["US"; "IN"; "GB"; "DE"]).
    { apply countries_nth.
      pose proof (Z.mod_pos_bound (hash s) (Z.of_nat (length countries))) as Hb.
      simpl in Hb |- *. lia. }
    revert Hc.
    generalize (snd (fst (nth (Z.to_nat (hash s mod Z.of_nat (length countries)))
                              countries ("", "", 0%Z)))).
    intros c Hc. split; [exact Hc|].
    simpl in Hc. destruct Hc as [<-|[<-|[<-|[<-|[]]]]]; reflexivity.
Qed.

(** X10.  The asset service answers criticality 3 for a database or an s3
    resource whose id it can search and 1 otherwise (so never outside
    1..5), and environment dev, prod or, on the fallback, unknown; it
    echoes the id and the type it was asked about. *)
Theorem asset_bundle_shape (asset_id asset_type : pyval) :
  let b := get_asset_context asset_id asset_type in
  b !! "asset_id" = Some asset_id
  /\ b !! "asset_type" = Some asset_type
  /\ (exists c, b !! "criticality" = Some (PInt c)
                /\ (c = 1 \/ c = 3)%Z
                /\ (c = 3%Z <-> in_strs asset_type ["database"; "s3"] = true
                                /\ exists e, get_asset_context_try asset_id asset_type
                                             = Ok e))
  /\ (exists env, b !! "environment" = Some (PStr env)
                  /\ In env ["dev"; "prod"; "unknown"]
                  /\ (env = "unknown" <->
                      exists e, get_asset_context_try asset_id asset_type = Raise e)).
Proof.
  cbv zeta. unfold get_asset_context.
  destruct (get_asset_context_try asset_id asset_type) as [d|e] eqn:Htry.
  - unfold get_asset_context_try in Htry.
    remember (in_strs asset_type ["database"; "s3"]) as crit eqn:Hcrit in Htry |- *.
    clear Hcrit.
    apply bind_Ok in Htry as (is_dev & _ & Htry).
    apply bind_Ok in Htry as (is_test & _ & Htry).
    injection Htry as <-. cbn [catch].
    split; [by rewrite lookup_insert_eq|].
    split; [by rewrite lookup_insert_ne, lookup_insert_eq by discriminate|].
    rewrite !lookup_insert_ne, lookup_insert_eq by discriminate.
    rewrite !lookup_insert_ne, lookup_insert_eq by discriminate.
    split.
    + destruct crit.
      * exists 3%Z. split; [reflexivity|]. split; [by right|].
        split; [intros _; split; [reflexivity | eexists; reflexivity] | reflexivity].
      * exists 1%Z. split; [reflexivity|]. split; [by left|].
        split; [discriminate | intros [? _]; discriminate].
    + destruct (is_dev || is_test);
        [exists "dev" | exists "prod"];
        (split; [reflexivity|]); (split; [simpl; tauto|]);
        (split; [discriminate | intros [? ?]; discriminate]).
  - cbn [catch]. unfold asset_fallback.
    split; [by rewrite lookup_insert_eq|].
    split; [by rewrite lookup_insert_ne, lookup_insert_eq by discriminate|].
    split.
    + exists 1%Z. split.
      { by rewrite !lookup_insert_ne, lookup_insert_eq by discriminate. }
      split; [by left|]. split; [discriminate | intros [_ [? ?]]; discriminate].
    + exists "unknown". split.
      { by rewrite !lookup_insert_ne, lookup_insert_eq by discriminate. }
      split; [simpl; tauto|]. split; eauto.
Qed.


(** ** Further properties of validation and normalisation *)

Lemma first_missing_Some (fields : list string) (event_data : dict) (field : string) :
  first_missing fields event_data = Some field ->
  exists before after,
    fields = (before ++ field :: after)%list
    /\ (forall k, In k before -> is_Some (event_data !! k))
    /\ event_data !! field = None.
Proof.
  induction fields as [|x fields IH]; simpl; [discriminate|].
  case_bool_decide as Hx.
  - intros H. destruct (IH H) as (before & after & -> & Hb & Hf).
    exists (x :: before), after. split; [reflexivity|]. split; [|exact Hf].
    intros k [<-|Hk]; auto.
  - intros [= <-]. exists [], fields. split; [reflexivity|]. split; [by intros k []|].
    by apply eq_None_not_Some.
Qed.

(** X11.  [validate_event_schema] accepts a raw event exactly when the keys
    source, actor, action and resource are all present, whatever they
    hold; otherwise it rejects with a message naming the first of them, in
    that order, that is missing. *)
Theorem validation_names_first_missing_field (event_data : dict) :
  (validate_event_schema event_data = (true, None)
   <-> forall k, In k ["source"; "actor"; "action"; "resource"] ->
                 is_Some (event_data !! k))
  /\ (validate_event_schema event_data = (true, None)
      \/ exists before field after,
           ["source"; "actor"; "action"; "resource"] = (before ++ field :: after)%list
           /\ (forall k, In k before -> is_Some (event_data !! k))
           /\ event_data !! field = None
           /\ validate_event_schema event_data
              = (false, Some ("Missing required field: " ++ field))).
Proof.
  unfold validate_event_schema. change required_fields with ["source"; "actor"; "action"; "resource"].
  destruct (first_missing ["source"; "actor"; "action"; "resource"] event_data)
    as [field|] eqn:E.
  - destruct (first_missing_Some _ _ _ E) as (before & after & Hsplit & Hb & Hf).
    split.
    + split; [discriminate|]. intros Hall.
      destruct (Hall field) as [v Hv]; [|congruence].
      rewrite Hsplit. apply in_or_app. right. by left.
    + right. by exists before, field, after.
  - split; [|by left]. split; [|reflexivity].
    intros _. by apply first_missing_None.
Qed.

Definition is_dict (v : pyval) : bool :=
  match v with PDict _ => true | _ => false end.

(** X12.  The transport address fills [actor.ip] only where the raw actor
    has none: when the raw actor is a mapping, normalisation succeeds and
    the normalised actor is the raw one if it has an [ip] key (whatever it
    holds) or if [source_ip] is empty or null, and otherwise the raw one
    with [ip] set to [source_ip]; no other key of the actor changes. *)
Theorem source_ip_fills_missing_actor_ip
    (raw_event actor : dict) (source_ip : pyval) (fresh_uuid : string) (now : datetime) :
  raw_event !! "actor" = Some (PDict actor) ->
  exists event,
    normalize_event raw_event source_ip fresh_uuid now = Ok event
    /\ event !! "actor"
       = Some (PDict (if bool_decide (is_Some (actor !! "ip")) then actor
                      else if truthy source_ip then <["ip" := source_ip]> actor
                      else actor))
    /\ event !! "received_at" = Some (PStr (isoformat now))
    /\ event !! "schema_ver" = Some (PStr "1.0").
Proof.
  intros Ha.
  assert (Hd : dict_get raw_event "actor" (PDict ∅) = PDict actor)
    by (unfold dict_get; by rewrite Ha).
  unfold normalize_event. cbv zeta. rewrite Hd.
  cbn [contains_str mbind outcome_bind bind].
  destruct (bool_decide (is_Some (actor !! "ip"))); cbn [negb andb];
    [|destruct (truthy source_ip); cbn [set_item]];
    cbn [mbind outcome_bind bind]; eexists; (split; [reflexivity|]);
    repeat split;
    by repeat first [ rewrite lookup_insert_eq | rewrite lookup_insert_ne by discriminate ].
Qed.

Lemma source_ip_fills_missing_actor_ip_witness :
  exists event,
    normalize_event {[ "actor" := PDict {[ "id" := PStr "u1" ]} ]} (PStr "10.0.0.5")
      sample_uuid (at_clock 12 2) = Ok event
    /\ event !! "actor"
       = Some (PDict (if bool_decide (is_Some (({[ "id" := PStr "u1" ]} : dict) !! "ip"))
                      then {[ "id" := PStr "u1" ]}
                      else if truthy (PStr "10.0.0.5")
                      then <["ip" := PStr "10.0.0.5"]> {[ "id" := PStr "u1" ]}
                      else {[ "id" := PStr "u1" ]}))
    /\ event !! "received_at" = Some (PStr (isoformat (at_clock 12 2)))
    /\ event !! "schema_ver" = Some (PStr "1.0").
Proof.
  apply (source_ip_fills_missing_actor_ip
           {[ "actor" := PDict {[ "id" := PStr "u1" ]} ]} {[ "id" := PStr "u1" ]}).
  reflexivity.
Defined.

(** X13.  When normalisation raises.  With [actor] any object the raw event
    holds under that key: a mapping never makes it raise; null, a boolean
    or a number always does (the membership test has no container); a str
    or a list does exactly when it does not contain "ip" and [source_ip]
    is non-empty (the item assignment has no dict). *)
Theorem normalisation_raises_on_actor
    (raw_event : dict) (actor source_ip : pyval) (fresh_uuid : string) (now : datetime) :
  raw_event !! "actor" = Some actor ->
  match actor with
  | PDict _ => exists event, normalize_event raw_event source_ip fresh_uuid now = Ok event
  | PNone | PBool _ | PInt _ | PFloat _ =>
      normalize_event raw_event source_ip fresh_uuid now
      = Raise (TypeError (type_name actor))
  | PStr _ | PList _ =>
      forall has_ip, contains_str "ip" actor = Ok has_ip ->
        if negb has_ip && truthy source_ip
        then normalize_event raw_event source_ip fresh_uuid now
             = Raise (TypeError (type_name actor))
        else exists event,
               normalize_event raw_event source_ip fresh_uuid now = Ok event
               /\ event !! "actor" = Some actor
  end.
Proof.
  intros Ha.
  assert (Hd : dict_get raw_event "actor" (PDict ∅) = actor)
    by (unfold dict_get; by rewrite Ha).
  unfold normalize_event. cbv zeta. rewrite Hd. clear Hd Ha.
  destruct actor as [| | | |s|l|d]; try reflexivity.
  - intros has_ip Hhas. rewrite Hhas. cbn [mbind outcome_bind bind].
    destruct (negb has_ip && truthy source_ip); [reflexivity|].
    cbn [mbind outcome_bind bind]. eexists. split; [reflexivity|].
    by rewrite !lookup_insert_ne, lookup_insert_eq by discriminate.
  - intros has_ip Hhas. rewrite Hhas. cbn [mbind outcome_bind bind].
    destruct (negb has_ip && truthy source_ip); [reflexivity|].
    cbn [mbind outcome_bind bind]. eexists. split; [reflexivity|].
    by rewrite !lookup_insert_ne, lookup_insert_eq by discriminate.
  - cbn [contains_str mbind outcome_bind bind].
    destruct (negb _ && truthy source_ip); cbn [set_item mbind outcome_bind bind]; eauto.
Qed.

Lemma normalisation_raises_on_actor_witness :
  normalize_event {[ "actor" := PInt 7 ]} PNone sample_uuid (at_clock 12 2)
  = Raise (TypeError (type_name (PInt 7))).
Proof.
  apply (normalisation_raises_on_actor {[ "actor" := PInt 7 ]} (PInt 7) PNone
           sample_uuid (at_clock 12 2)).
  reflexivity.
Defined.


(** ** Properties of the handlers *)

Import Gateway.

Section Handlers.

Variable json_loads : string -> option pyval.
Variable json_dumps : pyval -> string.
Variable str_of : pyval -> string.
Variable exn_str : exn -> string.
Variable stream_name : option string.
Variable put_record : kinesis_record -> bool.
Variable uuid_at : nat -> string.
Variable clock_at : nat -> datetime.
Variable health_clock : datetime.

Local Abbreviation send := (send_to_kinesis json_dumps str_of stream_name put_record).
Local Abbreviation send_dev := (send_to_kinesis_dev json_dumps str_of stream_name put_record).
Local Abbreviation step := (process_event exn_str uuid_at clock_at).
Local Abbreviation loop := (process_events exn_str uuid_at clock_at).
Local Abbreviation handler :=
  (lambda_handler json_loads json_dumps str_of exn_str stream_name put_record
     uuid_at clock_at health_clock).
Local Abbreviation handler_dev :=
  (lambda_handler_dev json_loads json_dumps str_of exn_str stream_name put_record
     uuid_at clock_at health_clock).

Lemma first_missing_obj_dict (fields : list string) (d : dict) :
  first_missing_obj fields (PDict d) = Ok (first_missing fields d).
Proof.
  induction fields as [|x fields IH]; [reflexivity|].
  cbn [first_missing_obj first_missing contains_str mbind outcome_bind bind].
  by destruct (bool_decide (is_Some (d !! x))).
Qed.

Lemma validate_obj_dict (d : dict) :
  validate_event_schema_obj (PDict d) = Ok (validate_event_schema d).
Proof.
  unfold validate_event_schema_obj, validate_event_schema.
  rewrite first_missing_obj_dict. cbn [mbind outcome_bind bind].
  by destruct (first_missing required_fields d).
Qed.

(** Both copies of [send_to_kinesis] take at most one record, and the
    lambda-ingest copy reports success exactly when it took one. *)
Definition sends_what_it_accepts (send' : dict -> bool * list kinesis_record) : Prop :=
  forall event, send' event = (false, []) \/ exists record, send' event = (true, [record]).

Lemma publish_cases (name : string) (event : dict) :
  publish json_dumps str_of put_record name event = (false, [])
  \/ exists record, publish json_dumps str_of put_record name event = (true, [record]).
Proof.
  unfold publish. destruct (partition_key str_of event); [|by left].
  destruct (put_record _); [right; eauto | by left].
Qed.

Lemma send_to_kinesis_cases : sends_what_it_accepts send.
Proof.
  intros event. unfold send_to_kinesis.
  destruct (stream_configured stream_name); [apply publish_cases | by left].
Qed.

(** What one turn of the loop does to the batch on a raw event that is a
    mapping: exactly one entry is added, to one of the two lists. *)
Inductive turn (i : nat) (b b' : batch) : Prop :=
| turn_accepted (event_id : pyval) (records : list kinesis_record) :
    processed_events b' = (processed_events b ++ [accepted_entry event_id])%list ->
    errors b' = errors b ->
    sent b' = (sent b ++ records)%list ->
    turn i b b'
| turn_error (error : string) (event_id : pyval) (records : list kinesis_record) :
    processed_events b' = processed_events b ->
    errors b' = (errors b ++ [error_entry i error event_id])%list ->
    sent b' = (sent b ++ records)%list ->
    turn i b b'.

Lemma step_dict send' source_ip i d b :
  exists b', step send' source_ip i (PDict d) b = Ok b' /\ turn i b b'.
Proof.
  unfold process_event, process_try. rewrite validate_obj_dict.
  cbn [mbind outcome_bind bind].
  destruct (validate_event_schema d) as [[|] msg]; cbn [fst snd negb].
  - unfold normalize_event_obj. cbn [as_dict mbind outcome_bind bind].
    destruct (normalize_event d source_ip (uuid_at i) (clock_at i)) as [n|e];
      cbn [mbind outcome_bind bind get_obj as_dict].
    + destruct (send' n) as [[|] records]; cbn [fst snd]; eexists; (split; [reflexivity|]).
      * by eapply turn_accepted.
      * by eapply turn_error.
    + eexists. split; [reflexivity|].
      eapply (turn_error _ _ _ _ _ []); cbn; by rewrite ?app_nil_r.
  - cbn [get_obj as_dict mbind outcome_bind bind]. eexists. split; [reflexivity|].
    eapply (turn_error _ _ _ _ _ []); cbn; by rewrite ?app_nil_r.
Qed.

(** On a raw event that is no mapping the handler of the inner [try]
    raises itself. *)
Lemma step_not_dict send' source_ip i v b :
  is_dict v = false ->
  step send' source_ip i v b = Raise (AttributeError (type_name v) "get").
Proof.
  intros Hv. unfold process_event.
  assert (Hget : get_obj v "event_id" (PStr "unknown")
                 = Raise (AttributeError (type_name v) "get")).
  { by destruct v. }
  assert (Hnorm : forall u t, normalize_event_obj v source_ip u t
                              = Raise (AttributeError (type_name v) "get")).
  { intros u t. by destruct v. }
  destruct (process_try uuid_at clock_at send' source_ip i v b) as [b'|e] eqn:Htry.
  - exfalso. unfold process_try in Htry.
    apply bind_Ok in Htry as (valid & _ & Htry).
    destruct (negb (fst valid)).
    + rewrite Hget in Htry. discriminate.
    + rewrite Hnorm in Htry. discriminate.
  - rewrite Hget. reflexivity.
Qed.

Lemma loop_dicts send' source_ip events :
  Forall (fun v => is_dict v = true) events ->
  forall i b, exists b',
    loop send' source_ip i events b = (b', None)
    /\ (length (processed_events b') + length (errors b')
        = length (processed_events b) + length (errors b) + length events)%nat
    /\ (sends_what_it_accepts send' ->
        length (sent b') - length (sent b)
        = length (processed_events b') - length (processed_events b)
        /\ length (sent b) <= length (sent b')
        /\ length (processed_events b) <= length (processed_events b'))%nat.
Proof.
  induction 1 as [|v events Hv _ IH]; intros i b.
  - exists b. split; [reflexivity|]. split; [simpl; lia|]. intros _. lia.
  - destruct v as [| | | | | |d]; try discriminate.
    destruct (step_dict send' source_ip i d b) as (b1 & Hstep & Hturn).
    destruct (IH (S i) b1) as (b' & Hloop & Hcount & Hsent).
    exists b'. cbn [process_events]. rewrite Hstep.
    split; [exact Hloop|]. split.
    + destruct Hturn as [? ? Hp He _ | ? ? ? Hp He _];
        rewrite Hp, He, ?length_app in Hcount; simpl in Hcount |- *; lia.
    + intros Hs. specialize (Hsent Hs).
      assert (Hone : (length (sent b1) - length (sent b)
                      = length (processed_events b1) - length (processed_events b)
                      /\ length (sent b) <= length (sent b1)
                      /\ length (processed_events b) <= length (processed_events b1))%nat).
      { clear Hsent Hcount Hloop IH.
        unfold process_event, process_try in Hstep.
        rewrite validate_obj_dict in Hstep. cbn [mbind outcome_bind bind] in Hstep.
        destruct (validate_event_schema d) as [[|] msg]; cbn [fst snd negb] in Hstep.
        - unfold normalize_event_obj in Hstep.
          cbn [as_dict mbind outcome_bind bind] in Hstep.
          destruct (normalize_event d source_ip (uuid_at i) (clock_at i)) as [n|e];
            cbn [mbind outcome_bind bind get_obj as_dict] in Hstep.
          + destruct (Hs n) as [Hn|[record Hn]]; rewrite Hn in Hstep;
              cbn [fst snd] in Hstep; injection Hstep as <-; cbn;
              rewrite ?length_app, ?app_nil_r; simpl; lia.
          + injection Hstep as <-. cbn. lia.
        - cbn [get_obj as_dict mbind outcome_bind bind] in Hstep.
          injection Hstep as <-. cbn. lia. }
      lia.
Qed.


Lemma loop_app send' source_ip (l1 l2 : list pyval) :
  forall i b,
    loop send' source_ip i (l1 ++ l2) b
    = match loop send' source_ip i l1 b with
      | (b1, None) => loop send' source_ip (i + length l1) l2 b1
      | (b1, Some e) => (b1, Some e)
      end.
Proof.
  induction l1 as [|v l1 IH]; intros i b; cbn [process_events app length].
  - by rewrite Nat.add_0_r.
  - destruct (step send' source_ip i v b) as [b1|e]; [|reflexivity].
    rewrite IH. by replace (S i + length l1)%nat with (i + S (length l1))%nat by lia.
Qed.

(** X14.  A batch of mappings is always answered, and every event is
    accounted for once.  When the request reaches the loop with raw events
    that are all mappings, the lambda-ingest handler answers 200 or 207
    with the body built from its two lists: the accepted and the failed
    entries together number the events, the status is 200 exactly when no
    entry failed, and the stream took one record per accepted entry. *)
Theorem batch_of_mappings_is_accounted
    (event source_ip : pyval) (events : list pyval) :
  prepare json_loads json_dumps health_clock event = Ok (Batch source_ip events) ->
  Forall (fun v => is_dict v = true) events ->
  exists b,
    handler event
    = (reply json_dumps (status_of b) cors_headers (response_body b), sent b)
    /\ (length (processed_events b) + length (errors b) = length events)%nat
    /\ length (sent b) = length (processed_events b)
    /\ (status_of b = 200%Z <-> errors b = [])
    /\ (status_of b = 200%Z \/ status_of b = 207%Z).
Proof.
  intros Hprep Hall.
  destruct (loop_dicts send source_ip events Hall 0 empty_batch)
    as (b & Hloop & Hcount & Hsent).
  destruct (Hsent send_to_kinesis_cases) as (Hs & _ & _).
  exists b. unfold lambda_handler. rewrite Hprep, Hloop.
  split; [reflexivity|]. cbn in Hcount, Hs.
  split; [lia|]. split; [lia|].
  unfold status_of. destruct (errors b).
  - split; [tauto | by left].
  - split; [split; discriminate | by right].
Qed.

(** X15.  The handlers are not atomic.  When the batch holds, after some
    mappings, an item that is no mapping, the loop is left at that item:
    the lambda-ingest copy answers 500 and the dev copy raises, the items
    after it are never looked at, and the records of the accepted items
    before it have been published all the same. *)
Theorem batch_aborts_after_publishing
    (event source_ip : pyval) (before after : list pyval) (v : pyval) :
  Forall (fun v => is_dict v = true) before ->
  is_dict v = false ->
  (prepare json_loads json_dumps health_clock event
   = Ok (Batch source_ip (before ++ v :: after)) ->
   exists b,
     loop send source_ip 0 before empty_batch = (b, None)
     /\ handler event = (error_reply json_dumps 500 "Internal server error", sent b)
     /\ length (sent b) = length (processed_events b))
  /\ (prepare_dev json_loads json_dumps health_clock event
      = Ok (Batch source_ip (before ++ v :: after)) ->
      exists b,
        loop send_dev source_ip 0 before empty_batch = (b, None)
        /\ handler_dev event = (Raise (AttributeError (type_name v) "get"), sent b)).
Proof.
  intros Hall Hv. split; intros Hprep.
  - destruct (loop_dicts send source_ip before Hall 0 empty_batch)
      as (b & Hloop & _ & Hsent).
    destruct (Hsent send_to_kinesis_cases) as (Hs & _ & _).
    exists b. split; [exact Hloop|]. split; [|cbn in Hs; lia].
    unfold lambda_handler. rewrite Hprep, loop_app, Hloop.
    cbn [process_events]. by rewrite (step_not_dict send _ _ v b Hv).
  - destruct (loop_dicts send_dev source_ip before Hall 0 empty_batch)
      as (b & Hloop & _ & _).
    exists b. split; [exact Hloop|].
    unfold lambda_handler_dev. rewrite Hprep, loop_app, Hloop.
    cbn [process_events]. by rewrite (step_not_dict send_dev _ _ v b Hv).
Qed.

Lemma loop_prefix send' source_ip events :
  (forall event, snd (send' event) = [] /\ fst (send' event) = false) ->
  forall i b,
    processed_events (fst (loop send' source_ip i events b)) = processed_events b
    /\ sent (fst (loop send' source_ip i events b)) = sent b.
Proof.
  intros Hsend. induction events as [|v events IH]; intros i b; [by split|].
  cbn [process_events].
  destruct (step send' source_ip i v b) as [b1|e] eqn:Hstep; [|by split].
  destruct (IH (S i) b1) as [IH1 IH2]. rewrite IH1, IH2.
  unfold process_event in Hstep.
  destruct (process_try uuid_at clock_at send' source_ip i v b) as [b2|e] eqn:Htry.
  - injection Hstep as <-. unfold process_try in Htry.
    apply bind_Ok in Htry as (valid & _ & Htry).
    destruct (negb (fst valid)).
    + apply bind_Ok in Htry as (eid & _ & Htry). by injection Htry as <-.
    + apply bind_Ok in Htry as (n & _ & Htry).
      destruct (Hsend n) as [Hs Hf]. rewrite Hf, Hs in Htry.
      injection Htry as <-. cbn. by rewrite app_nil_r.
  - apply bind_Ok in Hstep as (eid & _ & Hstep). by injection Hstep as <-.
Qed.

(** X16.  Without a stream name the two copies part ways.  When
    [KINESIS_STREAM_NAME] is unset or empty, the lambda-ingest copy
    accepts no event of any batch and publishes nothing, while the dev copy
    reports every event that validates and normalises as accepted, and
    publishes nothing either. *)
Theorem missing_stream_name_divides_the_copies :
  stream_configured stream_name = None ->
  (forall source_ip events i b,
      processed_events (fst (loop send source_ip i events b)) = processed_events b
      /\ sent (fst (loop send source_ip i events b)) = sent b)
  /\ (forall source_ip i raw_event normalized b,
        ingest raw_event source_ip (uuid_at i) (clock_at i) = Normalized normalized ->
        step send_dev source_ip i (PDict raw_event) b
        = Ok {| processed_events :=
                  processed_events b
                  ++ [accepted_entry (dict_get normalized "event_id" PNone)];
                errors := errors b;
                sent := sent b |}).
Proof.
  intros Hname. split.
  - intros source_ip events i b. apply loop_prefix.
    intros event. unfold send_to_kinesis. by rewrite Hname.
  - intros source_ip i raw_event normalized b Hing.
    apply ingest_Normalized in Hing as [Hv Hn].
    unfold process_event, process_try. rewrite validate_obj_dict.
    cbn [mbind outcome_bind bind].
    destruct (validate_event_schema raw_event) as [valid msg]. cbn [fst] in Hv. subst valid.
    cbn [fst negb]. unfold normalize_event_obj.
    cbn [as_dict mbind outcome_bind bind]. rewrite Hn.
    cbn [mbind outcome_bind bind]. unfold send_to_kinesis_dev. rewrite Hname.
    cbn [fst snd]. by rewrite app_nil_r.
Qed.

(** X17.  The lambda-ingest handler answers every event object with one of
    five status codes, and publishes nothing unless it reaches the loop: a
    GET (or an event without method) is answered 200 with the health body
    whatever else it holds, any method other than GET and POST 405, a body
    that does not parse 400, and an event that is no mapping 500. *)
Theorem handler_status_codes (event : pyval) :
  In (statusCode (fst (handler event))) [200; 207; 400; 405; 500]%Z
  /\ (forall ev, event = PDict ev ->
        eq_str (dict_get ev "httpMethod" (PStr "GET")) "GET" = true ->
        handler event = (health json_dumps health_clock, []))
  /\ (forall ev, event = PDict ev ->
        eq_str (dict_get ev "httpMethod" (PStr "GET")) "GET" = false ->
        eq_str (dict_get ev "httpMethod" (PStr "GET")) "POST" = false ->
        handler event = (error_reply json_dumps 405 "Method not allowed", []))
  /\ (is_dict event = false ->
      handler event = (error_reply json_dumps 500 "Internal server error", []))
  /\ (forall r, prepare json_loads json_dumps health_clock event = Ok (Reply r) ->
        handler event = (r, [])).
Proof.
  split; [|split; [|split; [|split]]].
  - unfold lambda_handler.
    destruct (prepare json_loads json_dumps health_clock event) as [[r|sip events]|e] eqn:Hp.
    + unfold prepare in Hp.
      apply bind_Ok in Hp as (ev & _ & Hp).
      destruct (eq_str _ "GET"); [injection Hp as <-; simpl; tauto|].
      destruct (negb (eq_str _ "POST")); [injection Hp as <-; simpl; tauto|].
      apply bind_Ok in Hp as (rc & _ & Hp).
      apply bind_Ok in Hp as (idn & _ & Hp).
      destruct (match dict_get ev "body" (PStr "{}") with
                | PStr s => json_loads s | _ => Some (dict_get ev "body" (PStr "{}"))
                end) as [body|].
      * apply bind_Ok in Hp as (events & _ & Hp). discriminate.
      * injection Hp as <-. simpl. tauto.
    + destruct (loop send sip 0 events empty_batch) as [b [e|]].
      * simpl. tauto.
      * cbn [fst reply statusCode]. unfold status_of.
        destruct (errors b); simpl; tauto.
    + simpl. tauto.
  - intros ev -> Hget. unfold lambda_handler, prepare.
    cbn [as_dict mbind outcome_bind bind]. by rewrite Hget.
  - intros ev -> Hget Hpost. unfold lambda_handler, prepare.
    cbn [as_dict mbind outcome_bind bind]. by rewrite Hget, Hpost.
  - intros Hd. unfold lambda_handler, prepare. by destruct event.
  - intros r Hp. unfold lambda_handler. by rewrite Hp.
Qed.

(** X18.  The dev copy compares the method without regard to case and the
    lambda-ingest copy does not: for a method that is a str other than
    "GET" whose upper-casing is "GET", the dev copy answers 200 with its
    health body and the lambda-ingest copy answers 405. *)
Theorem method_case_divides_the_copies (ev : dict) (method : string) :
  ev !! "httpMethod" = Some (PStr method) ->
  upper method = "GET" ->
  method <> "GET" ->
  handler (PDict ev) = (error_reply json_dumps 405 "Method not allowed", [])
  /\ exists r, handler_dev (PDict ev) = (Ok r, []) /\ statusCode r = 200%Z.
Proof.
  intros Hm Hup Hne.
  assert (Hget : dict_get ev "httpMethod" (PStr "GET") = PStr method)
    by (unfold dict_get; by rewrite Hm).
  assert (Hnone : dict_get ev "httpMethod" PNone = PStr method)
    by (unfold dict_get; by rewrite Hm).
  assert (Hnonempty : truthy (PStr method) = true).
  { destruct method; [discriminate | reflexivity]. }
  split.
  - unfold lambda_handler, prepare. cbn [as_dict mbind outcome_bind bind].
    rewrite Hget. cbn [eq_str].
    rewrite (proj2 (String.eqb_neq method "GET") Hne).
    assert (HP : (method =? "POST")%string = false).
    { apply String.eqb_neq. intros ->. discriminate. }
    by rewrite HP.
  - assert (Hev : or_else (PDict ev) (PDict ∅) = PDict ev).
    { unfold or_else. destruct (truthy (PDict ev)) eqn:Ht; [reflexivity|].
      exfalso. simpl in Ht. apply negb_false_iff, bool_decide_eq_true in Ht.
      rewrite Ht in Hm. by rewrite lookup_empty in Hm. }
    assert (Hmeth : or_else (PStr method) (PStr "GET") = PStr method).
    { unfold or_else. by rewrite Hnonempty. }
    unfold lambda_handler_dev, prepare_dev. rewrite Hev.
    cbn [as_dict mbind outcome_bind bind]. rewrite Hnone, Hmeth.
    cbn [str_upper mbind outcome_bind bind]. rewrite Hup. cbn.
    eexists. split; reflexivity.
Qed.

End Handlers.


(** A concrete runtime for the handlers: two request bodies are known to
    the parser, the stream is named and takes every record. *)
Definition sample_batch : list pyval := [PDict scenario_A_raw; PDict ∅].

Definition sample_loads (s : string) : option pyval :=
  if String.eqb s "batch" then Some (PList sample_batch)
  else if String.eqb s "mixed"
  then Some (PList [PDict scenario_A_raw; PInt 7; PDict scenario_A_raw])
  else None.

Definition sample_dumps (_ : pyval) : string := "".
Definition sample_str (v : pyval) : string :=
  match v with PStr s => s | _ => "" end.
Definition sample_exn_str (_ : exn) : string := "".
Definition sample_put (_ : kinesis_record) : bool := true.
Definition sample_uuid_at (_ : nat) : string := sample_uuid.
Definition sample_clock_at (_ : nat) : datetime := at_clock 12 2.

Definition post (request_body : string) : pyval :=
  PDict (<["httpMethod" := PStr "POST"]> {[ "body" := PStr request_body ]}).

Definition sample_handler (stream : option string) : pyval -> response * list kinesis_record :=
  lambda_handler sample_loads sample_dumps sample_str sample_exn_str stream sample_put
    sample_uuid_at sample_clock_at (at_clock 12 2).

Lemma batch_of_mappings_is_accounted_witness :
  exists b,
    lambda_handler sample_loads sample_dumps sample_str sample_exn_str (Some "events")
      sample_put sample_uuid_at sample_clock_at (at_clock 12 2) (post "batch")
    = (reply sample_dumps (status_of b) cors_headers (response_body b), sent b)
    /\ (length (processed_events b) + length (errors b) = length sample_batch)%nat
    /\ length (sent b) = length (processed_events b)
    /\ (status_of b = 200%Z <-> errors b = [])
    /\ (status_of b = 200%Z \/ status_of b = 207%Z).
Proof.
  apply (batch_of_mappings_is_accounted sample_loads sample_dumps sample_str
           sample_exn_str (Some "events") sample_put sample_uuid_at sample_clock_at
           (at_clock 12 2) (post "batch") PNone sample_batch).
  - vm_compute. reflexivity.
  - repeat constructor.
Defined.

(** The batch above: the scenario-A event is accepted and published, the
    empty object is rejected for its missing source, and the answer is
    207. *)
Example sample_batch_run :
  statusCode (fst (sample_handler (Some "events") (post "batch"))) = 207%Z
  /\ length (snd (sample_handler (Some "events") (post "batch"))) = 1%nat.
Proof. split; vm_compute; reflexivity. Qed.

Lemma batch_aborts_after_publishing_witness :
  (exists b,
     process_events sample_exn_str sample_uuid_at sample_clock_at
       (send_to_kinesis sample_dumps sample_str (Some "events") sample_put)
       PNone 0 [PDict scenario_A_raw] empty_batch = (b, None)
     /\ lambda_handler sample_loads sample_dumps sample_str sample_exn_str
          (Some "events") sample_put sample_uuid_at sample_clock_at (at_clock 12 2)
          (post "mixed")
        = (error_reply sample_dumps 500 "Internal server error", sent b)
     /\ length (sent b) = length (processed_events b))
  /\ (exists b,
        process_events sample_exn_str sample_uuid_at sample_clock_at
          (send_to_kinesis_dev sample_dumps sample_str (Some "events") sample_put)
          PNone 0 [PDict scenario_A_raw] empty_batch = (b, None)
        /\ lambda_handler_dev sample_loads sample_dumps sample_str sample_exn_str
             (Some "events") sample_put sample_uuid_at sample_clock_at (at_clock 12 2)
             (post "mixed")
           = (Raise (AttributeError (type_name (PInt 7)) "get"), sent b)).
Proof.
  destruct (batch_aborts_after_publishing sample_loads sample_dumps sample_str
              sample_exn_str (Some "events") sample_put sample_uuid_at sample_clock_at
              (at_clock 12 2) (post "mixed") PNone
              [PDict scenario_A_raw] [PDict scenario_A_raw] (PInt 7))
    as [Hprod Hdev].
  - repeat constructor.
  - reflexivity.
  - split; [apply Hprod | apply Hdev]; vm_compute; reflexivity.
Defined.

(** The mixed batch is answered 500 after its first event was published. *)
Example mixed_batch_run :
  statusCode (fst (sample_handler (Some "events") (post "mixed"))) = 500%Z
  /\ length (snd (sample_handler (Some "events") (post "mixed"))) = 1%nat.
Proof. split; vm_compute; reflexivity. Qed.

Lemma missing_stream_name_divides_the_copies_witness :
  stream_configured None = None
  /\ (forall source_ip events i b,
        processed_events
          (fst (process_events sample_exn_str sample_uuid_at sample_clock_at
                  (send_to_kinesis sample_dumps sample_str None sample_put)
                  source_ip i events b)) = processed_events b
        /\ sent (fst (process_events sample_exn_str sample_uuid_at sample_clock_at
                        (send_to_kinesis sample_dumps sample_str None sample_put)
                        source_ip i events b)) = sent b)
  /\ process_event sample_exn_str sample_uuid_at sample_clock_at
        (send_to_kinesis_dev sample_dumps sample_str None sample_put)
        PNone 0 (PDict scenario_A_raw) empty_batch
      = Ok {| processed_events :=
                [accepted_entry (dict_get scenario_A_normalized "event_id" PNone)];
              errors := [];
              sent := [] |}.
Proof.
  destruct (missing_stream_name_divides_the_copies sample_dumps sample_str
              sample_exn_str None sample_put sample_uuid_at sample_clock_at eq_refl)
    as [Hlambda Hdev].
  split; [reflexivity|]. split; [exact Hlambda|].
  apply (Hdev PNone 0%nat scenario_A_raw scenario_A_normalized empty_batch).
  vm_compute. reflexivity.
Defined.

Lemma method_case_divides_the_copies_witness :
  lambda_handler sample_loads sample_dumps sample_str sample_exn_str (Some "events")
    sample_put sample_uuid_at sample_clock_at (at_clock 12 2)
    (PDict {[ "httpMethod" := PStr "get" ]})
  = (error_reply sample_dumps 405 "Method not allowed", [])
  /\ exists r,
       lambda_handler_dev sample_loads sample_dumps sample_str sample_exn_str
         (Some "events") sample_put sample_uuid_at sample_clock_at (at_clock 12 2)
         (PDict {[ "httpMethod" := PStr "get" ]}) = (Ok r, [])
       /\ statusCode r = 200%Z.
Proof.
  apply (method_case_divides_the_copies sample_loads sample_dumps sample_str
           sample_exn_str (Some "events") sample_put sample_uuid_at sample_clock_at
           (at_clock 12 2) {[ "httpMethod" := PStr "get" ]} "get").
  - reflexivity.
  - reflexivity.
  - discriminate.
Defined.


(** ** The enricher on arbitrary events, and its composition with the scorer *)

(** X19.  [enrich_event] on any event object with string keys.  Every key
    of the event other than the three the function writes is returned
    unchanged.  When [actor] and [resource] are mappings (or absent) the
    result is marked enriched and carries an [enrichments] dict with its
    metadata; otherwise reading them raises and the result is the event
    with [enrichment_error] set, and no enrichments at all, even if the
    lookups for the actor had already been made. *)
Theorem enrich_event_outcomes
    (exn_str : exn -> string) (now : datetime) (self : EventEnricher)
    (processing_time : Z) (event : dict) :
  let out := enrich_event exn_str now self processing_time event in
  (forall k, k <> "enrichments" -> k <> "status" -> k <> "enrichment_error" ->
             out !! k = event !! k)
  /\ match as_dict (dict_get event "actor" (PDict ∅)) with
     | Raise e => out = <["enrichment_error" := PStr (exn_str e)]> event
     | Ok _ =>
         match as_dict (dict_get event "resource" (PDict ∅)) with
         | Raise e => out = <["enrichment_error" := PStr (exn_str e)]> event
         | Ok _ =>
             out !! "status" = Some (PStr "enriched")
             /\ out !! "enrichment_error" = event !! "enrichment_error"
             /\ exists d, out !! "enrichments" = Some (PDict d)
                          /\ is_Some (d !! "enrichment_metadata")
         end
     end.
Proof.
  cbv zeta. unfold enrich_event, enrichments_try.
  destruct (as_dict (dict_get event "actor" (PDict ∅))) as [actor|e];
    cbn [mbind outcome_bind bind catch].
  - destruct (as_dict (dict_get event "resource" (PDict ∅))) as [resource|e];
      cbn [mbind outcome_bind bind catch].
    + split.
      * intros k H1 H2 H3. by rewrite !lookup_insert_ne.
      * split; [by rewrite lookup_insert_eq|].
        split; [by rewrite !lookup_insert_ne by discriminate|].
        eexists. split; [by rewrite lookup_insert_ne, lookup_insert_eq by discriminate|].
        rewrite lookup_insert_eq. eauto.
    + split; [|reflexivity]. intros k H1 H2 H3. by rewrite lookup_insert_ne.
  - split; [|reflexivity]. intros k H1 H2 H3. by rewrite lookup_insert_ne.
Qed.

Lemma gathered_size (self : EventEnricher) (r : EventRequest) :
  size (gathered self r)
  = ((if truthy (dict_get (actor r) "ip" PNone) then 2 else 0)
     + (if truthy (dict_get (resource r) "id" PNone)
           && truthy (dict_get (resource r) "type" PNone) then 1 else 0))%nat.
Proof.
  unfold gathered.
  destruct (truthy (dict_get (actor r) "ip" PNone));
    destruct (truthy (dict_get (resource r) "id" PNone)
              && truthy (dict_get (resource r) "type" PNone));
    rewrite ?map_size_insert, ?lookup_insert_ne, ?lookup_empty, ?map_size_empty
      by discriminate;
    reflexivity.
Qed.

(** X20.  The answer of [/enrich] echoes the event id with status
    enriched, and its metadata counts the sub-bundles gathered: two when
    [actor.ip] is truthy, plus one when [resource.id] and [resource.type]
    both are, the metadata record itself not included. *)
Theorem enrich_endpoint_counts_sub_bundles
    (exn_str : exn -> string) (now : datetime) (self : EventEnricher)
    (processing_time endpoint_time : Z) (r : EventRequest) :
  let resp := enrich_event_endpoint exn_str now self processing_time endpoint_time r in
  resp_event_id resp = event_id r
  /\ status resp = "enriched"
  /\ exists d m,
       enriched_data resp = PDict d
       /\ d !! "enrichment_metadata" = Some (PDict m)
       /\ m !! "enricher_version" = Some (PStr "1.0.0")
       /\ m !! "enrichments_added"
          = Some (PInt (Z.of_nat
               ((if truthy (dict_get (actor r) "ip" PNone) then 2 else 0)
                + (if truthy (dict_get (resource r) "id" PNone)
                      && truthy (dict_get (resource r) "type" PNone)
                   then 1 else 0))))
       /\ size d = S (size (gathered self r)).
Proof.
  cbv zeta. unfold enrich_event_endpoint. cbn [resp_event_id status enriched_data].
  split; [reflexivity|]. split; [reflexivity|].
  unfold enrich_event. rewrite enrichments_try_gathered.
  cbn [mbind outcome_bind bind catch].
  rewrite dict_get_insert_ne, dict_get_insert_eq by discriminate.
  eexists _, _. split; [reflexivity|].
  split; [by rewrite lookup_insert_eq|].
  unfold enrichment_metadata.
  split; [by rewrite lookup_insert_ne, lookup_insert_eq by discriminate|].
  split.
  - rewrite !lookup_insert_ne, lookup_insert_eq by discriminate.
    by rewrite gathered_size.
  - rewrite map_size_insert.
    destruct (gathered_lookup self r) as (Hti & Hgeo & Hasset).
    assert (Hm : gathered self r !! "enrichment_metadata" = None).
    { unfold gathered.
      destruct (truthy (dict_get (actor r) "ip" PNone));
        destruct (truthy (dict_get (resource r) "id" PNone)
                  && truthy (dict_get (resource r) "type" PNone));
        by rewrite ?lookup_insert_ne, ?lookup_empty by discriminate. }
    by rewrite Hm.
Qed.


Lemma reputation_score_field exn_str now (v : pyval) :
  exists n, dict_get (lookup_ip_reputation exn_str now v) "rep_score" (PInt 50) = PInt n
            /\ (0 <= n <= 100)%Z.
Proof.
  destruct v as [| | | |s| |]; try (exists 50%Z; split; [reflexivity | lia]).
  unfold lookup_ip_reputation, lookup_ip_reputation_try.
  cbn [str_method mbind outcome_bind bind catch].
  pose proof (reputation_of_cases s) as Hc.
  destruct (reputation_of s) as [label score]. cbn [fst snd].
  exists score. split.
  - by rewrite dict_get_insert_ne, dict_get_insert_eq by discriminate.
  - simpl in Hc. destruct Hc as [H|[H|[H|[H|[]]]]]; injection H as _ <-; lia.
Qed.

Lemma geo_fields hash (v : pyval) :
  exists n c,
    dict_get (lookup_ip_location hash v) "asn" (PInt 0) = PInt n
    /\ dict_get (lookup_ip_location hash v) "country_code" (PStr "") = PStr c
    /\ in_strs (PStr c) high_risk_countries = negb (is_str v).
Proof.
  destruct v as [| | | |s| |]; try (exists 0%Z, "XX"; by repeat split).
  unfold lookup_ip_location, lookup_ip_location_try.
  cbn [str_method mbind outcome_bind bind].
  destruct (startswith s "10." || startswith s "192.168.").
  - exists 13335%Z, "US". by repeat split.
  - cbn [catch]. eexists _, _.
    split; [by rewrite !dict_get_insert_ne, dict_get_insert_eq by discriminate|].
    split; [by rewrite !dict_get_insert_ne, dict_get_insert_eq by discriminate|].
    assert (Hc : In (snd (fst (nth (Z.to_nat (hash s mod Z.of_nat (length countries)))
                                    countries ("", "", 0%Z))))
                    ["US"; "IN"; "GB"; "DE"]).
    { apply countries_nth.
      pose proof (Z.mod_pos_bound (hash s) (Z.of_nat (length countries))) as Hb.
      simpl in Hb |- *. lia. }
    revert Hc.
    generalize (snd (fst (nth (Z.to_nat (hash s mod Z.of_nat (length countries)))
                              countries ("", "", 0%Z)))).
    intros c Hc. simpl in Hc. destruct Hc as [<-|[<-|[<-|[<-|[]]]]]; reflexivity.
Qed.

Lemma asset_criticality_field (asset_id asset_type : pyval) :
  exists c, dict_get (get_asset_context asset_id asset_type) "criticality" (PInt 1)
            = PInt c
            /\ (c = 1 \/ c = 3)%Z.
Proof.
  unfold get_asset_context.
  destruct (get_asset_context_try asset_id asset_type) as [d|e] eqn:Htry.
  - unfold get_asset_context_try in Htry.
    remember (in_strs asset_type ["database"; "s3"]) as crit eqn:Hcrit in Htry.
    clear Hcrit.
    apply bind_Ok in Htry as (is_dev & _ & Htry).
    apply bind_Ok in Htry as (is_test & _ & Htry).
    injection Htry as <-. cbn [catch].
    rewrite !dict_get_insert_ne, dict_get_insert_eq by discriminate.
    destruct crit; eexists; split; try reflexivity; auto.
  - cbn [catch]. unfold asset_fallback.
    rewrite !dict_get_insert_ne, dict_get_insert_eq by discriminate.
    exists 1%Z. auto.
Qed.

Lemma dict_get_present (d : dict) (k : string) (v x : pyval) :
  d !! k = Some v -> dict_get d k x = v.
Proof. intros H. unfold dict_get. by rewrite H. Qed.

Lemma to_dict_action (r : EventRequest) :
  dict_get (to_dict r) "action" (PStr "") = PStr (action r).
Proof.
  unfold to_dict. by rewrite !dict_get_insert_ne, dict_get_insert_eq by discriminate.
Qed.

Lemma to_dict_severity (r : EventRequest) :
  dict_get (to_dict r) "severity_hint" (PInt 1) = PInt (severity_hint r).
Proof.
  unfold to_dict. by rewrite !dict_get_insert_ne, dict_get_insert_eq by discriminate.
Qed.

(** X21.  Enricher and scorer compose.  For every request whose
    [resource.type] is a str or absent and whose [severity_hint] is an int
    that a float can hold, the enrichments the repository's own services
    produce never make the extractor degrade: all sixteen features are
    extracted, the reputation and criticality features lie in [0,1], and
    [is_high_risk_country] is set exactly when [actor.ip] is a truthy
    object that is no str, that is, when the geo lookup fell back.  (On a
    larger [severity_hint] the conversion to float overflows and the
    extractor degrades.) *)
Theorem enricher_output_is_extractable
    (exn_str : exn -> string) (hash : string -> Z) (fos : string -> option Q)
    (enrich_clock score_clock : datetime) (processing_time endpoint_time : Z)
    (r : EventRequest) :
  is_str (dict_get (resource r) "type" (PStr "")) = true ->
  plain_number (PInt (severity_hint r)) = true ->
  exists d f,
    enriched_data (enrich_event_endpoint exn_str enrich_clock
                     (enricher exn_str hash enrich_clock)
                     processing_time endpoint_time r) = PDict d
    /\ extract_features fos (to_dict r) d score_clock = f
    /\ size f = 16%nat
    /\ (exists v, f !! "rep_score" = Some v /\ (0 <= v <= 1)%Q)
    /\ (exists v, f !! "asset_criticality" = Some v /\ (0 <= v <= 1)%Q)
    /\ (f !! "is_high_risk_country" = Some 1%Q
        <-> truthy (dict_get (actor r) "ip" PNone) = true
            /\ is_str (dict_get (actor r) "ip" PNone) = false).
Proof.
  intros Htype _.
  destruct (dict_get (resource r) "type" (PStr "")) as [| | | |rtype| |] eqn:Hrt;
    try discriminate. clear Htype.
  set (self := enricher exn_str hash enrich_clock).
  set (ip := dict_get (actor r) "ip" PNone).
  unfold enrich_event_endpoint. cbn [enriched_data].
  unfold enrich_event. rewrite enrichments_try_gathered.
  cbn [mbind outcome_bind bind catch].
  rewrite dict_get_insert_ne, dict_get_insert_eq by discriminate.
  eexists _, _. split; [reflexivity|]. split; [reflexivity|].
  destruct (gathered_lookup self r) as (Hti & Hgeo & Hasset).
  cbv zeta in Hti, Hgeo, Hasset. fold ip in Hti, Hgeo.
  destruct (reputation_score_field exn_str enrich_clock ip) as (rep & Hrep & Hrep_range).
  destruct (geo_fields hash ip) as (asn & cc & Hasn & Hcc & Hrisk).
  destruct (asset_criticality_field (dict_get (resource r) "id" PNone)
              (dict_get (resource r) "type" PNone)) as (crit & Hcrit & Hcrit_range).
  set (d := <["enrichment_metadata" := _]> (gathered self r)).
  assert (Hread : exists i,
             read fos (to_dict r) d = Ok i
             /\ (0 <= r_rep_score i <= 100)%Q
             /\ (0 <= r_criticality i <= 5)%Q
             /\ in_strs (r_country_code i) high_risk_countries
                = truthy ip && negb (is_str ip)).
  { unfold read.
    rewrite to_dict_action, to_dict_resource, to_dict_severity.
    assert (Hg : exists geo, dict_get d "geo" (PDict ∅) = PDict geo
               /\ exists n c, dict_get geo "asn" (PInt 0) = PInt n
                  /\ dict_get geo "country_code" (PStr "") = PStr c
                  /\ in_strs (PStr c) high_risk_countries = truthy ip && negb (is_str ip)).
    { unfold d, dict_get at 1. rewrite lookup_insert_ne by discriminate. rewrite Hgeo.
      destruct (truthy ip); cbn [default].
      - eexists. split; [reflexivity|]. exists asn, cc. by repeat split.
      - exists ∅. split; [reflexivity|]. exists 0%Z, "". by repeat split. }
    assert (Ht : exists ti, dict_get d "threat_intel" (PDict ∅) = PDict ti
               /\ exists n, dict_get ti "rep_score" (PInt 50) = PInt n /\ (0 <= n <= 100)%Z).
    { unfold d, dict_get at 1. rewrite lookup_insert_ne by discriminate. rewrite Hti.
      destruct (truthy ip); cbn [default].
      - eexists. split; [reflexivity|]. by exists rep.
      - exists ∅. split; [reflexivity|]. exists 50%Z. split; [reflexivity | lia]. }
    assert (Ha : exists ac, dict_get d "asset_context" (PDict ∅) = PDict ac
               /\ exists c, dict_get ac "criticality" (PInt 1) = PInt c /\ (1 <= c <= 3)%Z).
    { unfold d, dict_get at 1. rewrite lookup_insert_ne by discriminate. rewrite Hasset.
      destruct (truthy (dict_get (resource r) "id" PNone)
                && truthy (dict_get (resource r) "type" PNone)); cbn [default].
      - eexists. split; [reflexivity|]. exists crit. split; [exact Hcrit | lia].
      - exists ∅. split; [reflexivity|]. exists 1%Z. split; [reflexivity | lia]. }
    destruct Hg as (geo & Hg & n & c & Hn & Hcode & Hc).
    destruct Ht as (ti & Ht & nr & Hr & Hnr).
    destruct Ha as (ac & Ha & nc & Hac & Hnc).
    rewrite Hg. cbn [as_dict mbind outcome_bind bind].
    rewrite Hn, Hcode. cbn [float mbind outcome_bind bind].
    rewrite Ht. cbn [as_dict mbind outcome_bind bind].
    rewrite Hr. cbn [float mbind outcome_bind bind].
    rewrite Ha. cbn [as_dict mbind outcome_bind bind].
    rewrite Hac. cbn [float str_lower as_dict mbind outcome_bind bind].
    rewrite Hrt. cbn [float str_lower mbind outcome_bind bind].
    eexists. split; [reflexivity|].
    cbn [r_rep_score r_criticality r_country_code].
    split; [|split; [|exact Hc]].
    - change 0%Q with (inject_Z 0). change 100%Q with (inject_Z 100).
      rewrite <- !Zle_Qle. lia.
    - change 0%Q with (inject_Z 0). change 5%Q with (inject_Z 5).
      rewrite <- !Zle_Qle. lia. }
  destruct Hread as (i & Hi & Hrep_i & Hcrit_i & Hrisk_i).
  rewrite extract_features_read, Hi. cbn [mbind outcome_bind bind catch].
  pose proof (features_of_lookup i score_clock) as L. cbv zeta in L.
  destruct L as (_ & L1 & L2 & _ & _ & L5 & _).
  split; [unfold features_of; apply vector_size|].
  split; [eexists; split; [exact L2 | by apply ratio_in_unit]|].
  split; [eexists; split; [exact L5 | by apply ratio_in_unit]|].
  rewrite L1, Hrisk_i.
  destruct (truthy ip), (is_str ip); simpl; split; try tauto; try discriminate;
    intros [? ?]; discriminate.
Qed.

Definition sample_request : EventRequest :=
  {| event_id := "e-1"; source := "cloudtrail";
     actor := {[ "ip" := PStr "203.0.113.1" ]};
     action := "AdminLoginFailed";
     resource := <["type" := PStr "database"]> {[ "id" := PStr "prod-db" ]};
     severity_hint := 5; payload := ∅ |}.

Lemma enricher_output_is_extractable_witness :
  exists d f,
    enriched_data (enrich_event_endpoint sample_exn_str (at_clock 12 2)
                     (enricher sample_exn_str (fun _ => 0%Z) (at_clock 12 2))
                     0 0 sample_request) = PDict d
    /\ extract_features no_text (to_dict sample_request) d (at_clock 12 2) = f
    /\ size f = 16%nat
    /\ (exists v, f !! "rep_score" = Some v /\ (0 <= v <= 1)%Q)
    /\ (exists v, f !! "asset_criticality" = Some v /\ (0 <= v <= 1)%Q)
    /\ (f !! "is_high_risk_country" = Some 1%Q
        <-> truthy (dict_get (actor sample_request) "ip" PNone) = true
            /\ is_str (dict_get (actor sample_request) "ip" PNone) = false).
Proof.
  apply (enricher_output_is_extractable sample_exn_str (fun _ => 0%Z) no_text
           (at_clock 12 2) (at_clock 12 2) 0 0 sample_request).
  - reflexivity.
  - vm_compute. reflexivity.
Defined.
